(** * NeuroForge dashboard: state normalization, XP derivation and session actions

    A shallow embedding of [app.js]: the load-time normalization
    ([loadState]), the derived values ([calcXP], [pickRandom],
    [entryToClipboardText], [scoreToPct], [escapeHtml]) and the handlers
    that change the state ([addLogEntry], [runSession], the re-test and
    baseline dialogs, the reset menu, the console, the edit and delete
    dialogs, the completion check box), and, of version 1.0 in the second
    document of the file, the state, its handlers and [loadState].

    - A JavaScript value is a JSON value; [undefined] is the missing value of
      an [option].  An object is a finite map from property names to values
      (the order of its properties is not kept), an array is a list, a string
      is the sequence of its code units.
    - A number is [NaN], an infinity or a finite rational, and zero has no
      sign.  [num_add] and [calcXP] add finite numbers exactly; [num_add64],
      [num_mul], [num_div] and [calcXP64] round every result to the nearest
      binary64 double, as the program's arithmetic does ([binary64]).
    - An exception is an explicit result, [try]/[catch] a function on results.
    - What the host supplies is a parameter: how [Number] and [String] read
      and write numerals ([Host]), what [JSON.parse] makes of a stored text
      ([raw_item]), the draws of [Math.random()], and the identifier and time
      stamp of a new entry.
    - [render()] and [saveState()] draw the page and write the state to
      storage; they leave [state] as it is and are not modelled, except for
      whether the [render()] inside the re-test handler returns
      ([quickRetest_onConfirm_state]). *)

From Stdlib Require Import QArith Qround Qabs Lqa Qpower.
From stdpp Require Import gmap strings list fin_maps pretty.

Set Warnings "-register-all".
Local Open Scope string_scope.

(** ** Numbers

    A JavaScript number is [NaN], one of the two infinities, or a finite
    value.  Finite values are rationals; the sign of zero is not tracked. *)

Inductive number :=
| NaN
| PInf
| NInf
| Fin (q : Q).

Definition num_finite (n : number) : bool :=
  match n with Fin _ => true | _ => false end.

Definition Number_isNaN (n : number) : bool :=
  match n with NaN => true | _ => false end.

(** [a <= b] on numbers other than [NaN]. *)
Definition num_leb (a b : number) : bool :=
  match a, b with
  | NaN, _ | _, NaN => false
  | NInf, _ => true
  | _, PInf => true
  | Fin x, Fin y => Qle_bool x y
  | _, _ => false
  end.

Definition Math_min (a b : number) : number :=
  match a, b with
  | NaN, _ | _, NaN => NaN
  | _, _ => if num_leb a b then a else b
  end.

Definition Math_max (a b : number) : number :=
  match a, b with
  | NaN, _ | _, NaN => NaN
  | _, _ => if num_leb a b then b else a
  end.

(** [a + b] without rounding: opposite infinities and [NaN] give [NaN], and
    the sum of two finite numbers is their exact sum.  What the program
    computes is this sum rounded, [num_add64] below; the two are the same
    where the exact sum is a double. *)
Definition num_add (a b : number) : number :=
  match a, b with
  | NaN, _ | _, NaN => NaN
  | PInf, NInf | NInf, PInf => NaN
  | PInf, _ | _, PInf => PInf
  | NInf, _ | _, NInf => NInf
  | Fin x, Fin y => Fin (x + y)
  end.

(** Numbers that denote the same value ([===] on numbers, with [NaN]
    related to itself so that the relation is an equivalence). *)
Definition num_eqv (a b : number) : Prop :=
  match a, b with
  | NaN, NaN | PInf, PInf | NInf, NInf => True
  | Fin x, Fin y => (x == y)%Q
  | _, _ => False
  end.

Definition num_truthy (n : number) : bool :=
  match n with
  | NaN => false
  | Fin q => negb (Qeq_bool q 0)
  | _ => true
  end.

(** ** Values *)

Inductive json :=
| JNull
| JBool (b : bool)
| JNum (n : number)
| JStr (s : string)
| JArr (l : list json)
| JObj (m : gmap string json).

Abbreviation obj := (gmap string json).

(** A property read or a variable may also be [undefined]: [None]. *)
Abbreviation value := (option json).

Definition truthy (v : value) : bool :=
  match v with
  | None | Some JNull => false
  | Some (JBool b) => b
  | Some (JNum n) => num_truthy n
  | Some (JStr s) => negb (String.eqb s "")
  | Some (JArr _) | Some (JObj _) => true
  end.

(** [a || b] *)
Definition or_else (a : value) (b : json) : json :=
  match a with
  | Some x => if truthy a then x else b
  | None => b
  end.

(** ** Exceptions *)

Inductive exn :=
| TypeError
| SyntaxError
| Error (message : string).

Inductive result (A : Type) :=
| Ok (a : A)
| Throw (e : exn).
Arguments Ok {A} a.
Arguments Throw {A} e.

#[global] Instance result_ret : MRet result := fun A a => Ok a.
#[global] Instance result_bind : MBind result := fun A B f r =>
  match r with Ok a => f a | Throw e => Throw e end.

(** [try { body } catch { handler }] *)
Definition try_catch {A} (body : result A) (handler : exn -> result A) : result A :=
  match body with Ok a => Ok a | Throw e => handler e end.

(** ** Objects, arrays and strings as property bags *)

Definition index_key (i : nat) : string := pretty i.

Definition chars (s : string) : list json :=
  (fun c => JStr (String c EmptyString)) <$> String.list_ascii_of_string s.

Definition indexed (l : list json) : obj :=
  list_to_map (imap (fun i v => (index_key i, v)) l).

(** The own enumerable properties that a spread [...v] copies. *)
Definition own_props (v : value) : obj :=
  match v with
  | Some (JObj m) => m
  | Some (JArr l) => indexed l
  | Some (JStr s) => indexed (chars s)
  | _ => ∅
  end.

Definition length_num (n : nat) : json := JNum (Fin (inject_Z (Z.of_nat n))).

(** [v.k] for a data property [k].  Reading from [null] throws.  The names
    the program reads are never those of inherited methods, and no stored
    object is taken to override one ([toString], [valueOf]). *)
Definition get_prop (v : json) (k : string) : result value :=
  match v with
  | JNull => Throw TypeError
  | JObj m => Ok (m !! k)
  | JArr l => Ok (if String.eqb k "length" then Some (length_num (length l))
                  else indexed l !! k)
  | JStr s => Ok (if String.eqb k "length" then Some (length_num (String.length s))
                  else indexed (chars s) !! k)
  | JBool _ | JNum _ => Ok None
  end.

(** ** 01) Constants + default state *)

Definition DEFAULT_baselines : obj :=
  list_to_map
    [ ("Focus & Attention", JNum (Fin 6));
      ("Working Memory", JNum (Fin 8.5));
      ("Logic & Reasoning", JNum (Fin 6));
      ("Comprehension & Synthesis", JNum (Fin 7.5));
      ("Vocabulary", JNum (Fin 8));
      ("Quick Math", JNum (Fin 4.5));
      ("Visualization", JNum (Fin 8));
      ("Spatial Awareness", JNum (Fin 7));
      ("Pattern Recognition", JNum (Fin 9));
      ("Decision-Making Under Uncertainty", JNum (Fin 8.5)) ].

Definition DEFAULT_notes : obj :=
  list_to_map
    [ ("Focus & Attention", JStr "Rotation ≠ hierarchy change. Guard against assumption drift.");
      ("Working Memory", JStr "Strong filter under interference.");
      ("Logic & Reasoning", JStr "Needs formal rigor (syllogism overlap trap).");
      ("Comprehension & Synthesis", JStr "Good gist; add why/how for depth.");
      ("Vocabulary", JStr "Solid recognition; we’ll test active use later.");
      ("Quick Math", JStr "Accuracy under pressure is the XP farm.");
      ("Visualization", JStr "Strong mental imagery; keep sharpening transformations.");
      ("Spatial Awareness", JStr "Good directional reasoning; confidence wobble only.");
      ("Pattern Recognition", JStr "Standout strength. Use it everywhere.");
      ("Decision-Making Under Uncertainty", JStr "Good expected-value instincts.") ].

Definition NO_FOCUS : string := "—".

Definition DEFAULT_STATE : obj :=
  list_to_map
    [ ("baselines", JObj DEFAULT_baselines);
      ("notes", JObj DEFAULT_notes);
      ("todayFocus", JStr NO_FOCUS);
      ("log", JArr []) ].

(** ** 02) Storage + helpers *)

(** [JSON.parse(JSON.stringify(x))]: the text form has no [NaN] and no
    infinity, [JSON.stringify] writes them as [null]. *)
Fixpoint structuredCloneSafe (x : json) : json :=
  match x with
  | JNum (Fin q) => JNum (Fin q)
  | JNum _ => JNull
  | JArr l => JArr (map structuredCloneSafe l)
  | JObj m => JObj (structuredCloneSafe <$> m)
  | JNull | JBool _ | JStr _ => x
  end.

(** What [localStorage.getItem] hands to [loadState]: nothing (or the empty
    text), a text that [JSON.parse] rejects, or a text that it reads as a
    value.  [JSON.parse] never yields [NaN]; a number literal beyond the range
    of the finite numbers, such as [1e999], it reads as an infinity. *)
Inductive raw_item :=
| absent
| malformed
| wellformed (parsed : json).

(** [out.k ??= ""] *)
Definition default_empty (k : string) (out : obj) : obj :=
  match out !! k with
  | None | Some JNull => <[k := JStr ""]> out
  | Some _ => out
  end.

(** The statements of the callback of [st.log.map] in [loadState]. *)

(** [if(typeof out.xpPotential !== "number" && typeof out.xp === "number")
    out.xpPotential = out.xp] *)
Definition copy_legacy_xp (out : obj) : obj :=
  match out !! "xpPotential", out !! "xp" with
  | Some (JNum _), _ => out
  | _, Some (JNum xp) => <["xpPotential" := JNum xp]> out
  | _, _ => out
  end.

(** [if(typeof out.completed !== "boolean") out.completed = true] *)
Definition default_completed (out : obj) : obj :=
  match out !! "completed" with
  | Some (JBool _) => out
  | _ => <["completed" := JBool true]> out
  end.

(** [out.xpPotential = typeof out.xpPotential === "number" ? out.xpPotential : 0] *)
Definition coerce_xpPotential (out : obj) : obj :=
  match out !! "xpPotential" with
  | Some (JNum n) => <["xpPotential" := JNum n]> out
  | _ => <["xpPotential" := JNum (Fin 0)]> out
  end.

Definition migrate_entry (e : json) : json :=
  let out := own_props (Some e) in
  let out := copy_legacy_xp out in
  let out := default_completed out in
  let out := delete "xp" out in
  let out := coerce_xpPotential out in
  let out := default_empty "mood" out in
  let out := default_empty "sleepHrs" out in
  let out := default_empty "difficulty" out in
  let out := default_empty "liked" out in
  let out := default_empty "challengeText" out in
  let out := default_empty "answerText" out in
  let out := default_empty "insightText" out in
  JObj out.

(** The object literal that [loadState] builds from the parsed blob. *)
Definition merge_defaults (parsed : json) : result obj :=
  parsed_baselines ← get_prop parsed "baselines";
  parsed_notes ← get_prop parsed "notes";
  parsed_log ← get_prop parsed "log";
  mret
    (<["log" := match parsed_log with Some (JArr l) => JArr l | _ => JArr [] end]>
       (<["notes" := JObj (own_props (Some (or_else parsed_notes (JObj ∅)))
                            ∪ own_props (Some (structuredCloneSafe (JObj DEFAULT_notes))))]>
          (<["baselines" := JObj (own_props (Some (or_else parsed_baselines (JObj ∅)))
                                    ∪ own_props (Some (structuredCloneSafe (JObj DEFAULT_baselines))))]>
             (own_props (Some parsed)
                ∪ own_props (Some (structuredCloneSafe (JObj DEFAULT_STATE))))))).

(** [st.log = st.log.map(...)]; [st.log] is an array by construction. *)
Definition migrate_log (st : obj) : result obj :=
  match st !! "log" with
  | Some (JArr l) => Ok (<["log" := JArr (map migrate_entry l)]> st)
  | _ => Throw TypeError
  end.

Definition loadState_try (raw : raw_item) : result json :=
  match raw with
  | absent => Ok (structuredCloneSafe (JObj DEFAULT_STATE))
  | malformed => Throw SyntaxError
  | wellformed parsed =>
      st ← merge_defaults parsed;
      st ← migrate_log st;
      mret (JObj st)
  end.

Definition loadState (raw : raw_item) : result json :=
  try_catch (loadState_try raw)
            (fun _ => Ok (structuredCloneSafe (JObj DEFAULT_STATE))).

(** [saveState()] and then [loadState()]: the text that [JSON.stringify]
    wrote for [state] is what [JSON.parse] reads back. *)
Definition reloadState (state : json) : result json :=
  loadState (wellformed (structuredCloneSafe state)).

Definition clamp (n min max : number) : number :=
  Math_max min (Math_min max n).

(** *** The random category draw

    [rnd k] is what the [k]-th call of [Math.random()] returns.  An element
    of [out] is [None] where [a.splice(i, 1)[0]] is [undefined], which needs
    an index past the end of [a]. *)
Fixpoint pickRandom_loop {A} (rnd : nat -> Q) (calls todo : nat)
    (a : list A) (out : list (option A)) : list (option A) :=
  match todo, a with
  | S todo', _ :: _ =>
      let i := Z.to_nat (Qfloor (rnd calls * inject_Z (Z.of_nat (length a)))) in
      pickRandom_loop rnd (S calls) todo' (delete i a) (out ++ [a !! i])
  | _, _ => out
  end.

(** The loop runs while [out.length < count && a.length]; every turn pushes
    one element, so [count - out.length] turns are left to do. *)
Definition pickRandom {A} (rnd : nat -> Q) (arr : list A) (count : nat)
    : list (option A) :=
  pickRandom_loop rnd 0 count arr [].

(** ** The application state

    Once loaded, [baselines] and [notes] are objects and [log] is an array
    of objects; [other] holds any further top-level property carried over
    from the stored blob. *)
Record State := mkState {
  baselines : obj;
  notes : obj;
  todayFocus : json;
  log : list obj;
  other : obj;
}.

(** ** Conversions of the host *)

Class Host := {
  (** [Number(s)] for a string [s] *)
  StringToNumber : string -> number;
  (** [String(n)] for a number [n] *)
  NumberToString : number -> string;
  (** [n.toFixed(1)] *)
  toFixed1 : number -> string;
}.

Definition NL : string := String (Ascii.ascii_of_nat 10) EmptyString.

(** [String(v)] and [Number(v)] return for [v]: neither [v] nor, if [v] is
    an array, an element that they convert is an object with an own
    [toString] property.  Such a property is not a function when it was read
    from storage, and the inherited [valueOf] returns the object itself, so
    the conversion ends in a [TypeError]. *)
Fixpoint stringable (v : json) : bool :=
  match v with
  | JArr l => forallb stringable l
  | JObj m => match m !! "toString" with None => true | Some _ => false end
  | JNull | JBool _ | JNum _ | JStr _ => true
  end.

Definition converts (v : value) : bool :=
  match v with
  | Some x => stringable x
  | None => true
  end.

Definition join (sep : string) (l : list string) : string :=
  match l with
  | [] => ""
  | s :: l => fold_left (fun acc t => acc ++ sep ++ t) l s
  end.

Section Conversions.
Context `{Host}.

(** [String(v)], also what a template literal does to [v], where it
    returns: on an object that has an own [toString] property (which, read
    from storage, is not a function) it throws a [TypeError] instead, see
    [stringable]. *)
Fixpoint ToString_json (v : json) : string :=
  match v with
  | JNull => "null"
  | JBool true => "true"
  | JBool false => "false"
  | JNum n => NumberToString n
  | JStr s => s
  | JArr l =>
      join "," (map (fun x => match x with JNull => "" | _ => ToString_json x end) l)
  | JObj _ => "[object Object]"
  end.

Definition ToString (v : value) : string :=
  match v with
  | None => "undefined"
  | Some x => ToString_json x
  end.

(** [l.join(sep)] on an array. *)
Definition Array_join (l : list json) (sep : string) : string :=
  join sep (map (fun x => match x with JNull => "" | _ => ToString_json x end) l).

(** [Number(v)] *)
Definition ToNumber (v : value) : number :=
  match v with
  | None => NaN
  | Some JNull => Fin 0
  | Some (JBool true) => Fin 1
  | Some (JBool false) => Fin 0
  | Some (JNum n) => n
  | Some (JStr s) => StringToNumber s
  | Some (JArr l) => StringToNumber (ToString_json (JArr l))
  | Some (JObj _) => NaN
  end.

(** [Number(v) || 0] *)
Definition Number_or_0 (v : value) : number :=
  let n := ToNumber v in
  if num_truthy n then n else Fin 0.

Definition Number_isInteger (n : number) : bool :=
  match n with
  | Fin q => Qeq_bool q (inject_Z (Qfloor q))
  | _ => false
  end.

Definition formatScore (n : value) : string :=
  let s := ToNumber n in
  if Number_isInteger s then NumberToString s else toFixed1 s.

(** ** 03) Derived values *)

(** [e.completed ? (Number(e.xpPotential) || 0) : 0] *)
Definition earned (e : obj) : number :=
  if truthy (e !! "completed") then Number_or_0 (e !! "xpPotential") else Fin 0.

(** The total with exact sums; [calcXP64] below rounds each sum as the
    program does. *)
Definition calcXP (state : State) : number :=
  fold_left (fun sum e => num_add sum (earned e)) (log state) (Fin 0).

(** ** 04) Rendering: the clipboard text of one entry *)

(** [`${v}`] *)
Definition String_of (v : value) : result string :=
  if converts v then Ok (ToString v) else Throw TypeError.

(** [Number(v)] *)
Definition Number_of (v : value) : result number :=
  if converts v then Ok (ToNumber v) else Throw TypeError.

(** [v ? `label${v}` : ""] *)
Definition labelled (label : string) (v : value) : result string :=
  if truthy v then s ← String_of v; mret (label ++ s) else mret "".

(** [v !== "" ? `Sleep: ${v} hrs` : ""] *)
Definition sleep_line (v : value) : result string :=
  match v with
  | Some (JStr "") => mret ""
  | _ => s ← String_of v; mret ("Sleep: " ++ s ++ " hrs")
  end.

(** [v ? `\nheading\n${v}` : ""] *)
Definition block (heading : string) (v : value) : result string :=
  if truthy v then s ← String_of v; mret (NL ++ heading ++ NL ++ s) else mret "".

(** [.filter(Boolean)] on strings keeps the non-empty ones. *)
Definition filter_Boolean (l : list string) : list string :=
  List.filter (fun s => negb (String.eqb s "")) l.

(** [(e.categories || []).join(", ")] throws unless the value is an array
    or falsy; the template literals and [Number] throw on a value that they
    do not convert. *)
Definition entryToClipboardText (e : obj) : result string :=
  cats ← match or_else (e !! "categories") (JArr []) with
         | JArr l => if forallb stringable l then Ok (Array_join l ", ")
                     else Throw TypeError
         | _ => Throw TypeError
         end;
  earned ← (if truthy (e !! "completed")
            then n ← Number_of (e !! "xpPotential");
                 mret (if num_truthy n then n else Fin 0)
            else mret (Fin 0));
  title ← String_of (e !! "title");
  time ← String_of (e !! "time");
  potential ← Number_of (e !! "xpPotential");
  mood ← labelled "Mood: " (e !! "mood");
  sleep ← sleep_line (e !! "sleepHrs");
  difficulty ← labelled "Difficulty: " (e !! "difficulty");
  liked ← labelled "Enjoyed: " (e !! "liked");
  challenge ← block "Challenge:" (e !! "challengeText");
  answer ← block "Answers / Notes:" (e !! "answerText");
  insight ← block "Insights:" (e !! "insightText");
  mret (join NL (filter_Boolean
    [ title;
      time;
      "Rolled: " ++ cats;
      "Completed: " ++ (if truthy (e !! "completed") then "Yes" else "No");
      "XP: " ++ NumberToString earned ++ " / "
             ++ NumberToString (if num_truthy potential then potential else Fin 0);
      mood; sleep; difficulty; liked; challenge; answer; insight ])).
End Conversions.

Definition set_baselines (b : obj) (state : State) : State :=
  mkState b (notes state) (todayFocus state) (log state) (other state).

Definition set_todayFocus (f : json) (state : State) : State :=
  mkState (baselines state) (notes state) f (log state) (other state).

Definition set_log (l : list obj) (state : State) : State :=
  mkState (baselines state) (notes state) (todayFocus state) l (other state).

(** The state object that [loadState] returns, read as a [State]. *)
Definition as_obj (v : json) : option obj :=
  match v with JObj m => Some m | _ => None end.

Definition state_view (st : json) : option State :=
  match st with
  | JObj m =>
      match m !! "baselines", m !! "notes", m !! "todayFocus", m !! "log" with
      | Some (JObj b), Some (JObj n), Some f, Some (JArr l) =>
          entries ← mapM as_obj l;
          Some (mkState b n f entries
                  (delete "baselines" (delete "notes"
                     (delete "todayFocus" (delete "log" m)))))
      | _, _, _, _ => None
      end
  | _ => None
  end.

Section Actions.
Context `{Host}.

(** ** 06) Core actions

    [render()] draws the page and writes the state to storage; it leaves
    [state] as it is.  [id] and [time] are what [crypto.randomUUID()] and
    [nowStamp()] return for the new entry. *)

Definition new_entry (id time : string) (title categories : json)
    (xpPotential : value) : obj :=
  list_to_map
    [ ("id", JStr id);
      ("time", JStr time);
      ("title", title);
      ("categories", categories);
      ("xpPotential", JNum (ToNumber (Some (or_else xpPotential (JNum (Fin 0))))));
      ("completed", JBool false);
      ("mood", JStr "");
      ("sleepHrs", JStr "");
      ("difficulty", JStr "");
      ("liked", JStr "");
      ("challengeText", JStr "");
      ("answerText", JStr "");
      ("insightText", JStr "") ].

Definition addLogEntry (id time : string) (title categories : json)
    (xpPotential : value) (state : State) : State :=
  set_log (new_entry id time title categories xpPotential :: log state) state.

(** [Object.keys(o)]; the order of the properties is the map's. *)
Definition Object_keys (o : obj) : list string := (map_to_list o).*1.

Definition session_xp (kind : string) : number :=
  if String.eqb kind "Daily Neural Roll" then Fin 10
  else if String.eqb kind "Tri-Skill Sprint" then Fin 18
  else Fin 25.

Definition runSession (rnd : nat -> Q) (id time : string)
    (kind : string) (count : nat) (state : State) : State :=
  let categories := Object_keys (baselines state) in
  let pick := pickRandom rnd categories count in
  let state := set_todayFocus (JStr (join " • " (default "" <$> pick))) state in
  let xpPotential := session_xp kind in
  addLogEntry id time (JStr kind)
    (JArr (from_option JStr JNull <$> pick)) (Some (JNum xpPotential)) state.

(** [state.log[0].k = v]; there is no entry to write to in an empty log. *)
Definition set_latest (k : string) (v : json) (state : State) : result State :=
  match log state with
  | latest :: rest => Ok (set_log (<[k := v]> latest :: rest) state)
  | [] => Throw TypeError
  end.

Definition retest_note (score old : number) (overwrite : bool) : string :=
  "Re-test score: " ++ formatScore (Some (JNum score)) ++ " / 10 (was "
    ++ formatScore (Some (JNum old)) ++ "). "
    ++ (if overwrite then "Baseline updated." else "Baseline unchanged.").

(** The part of the re-test handler up to and including [addLogEntry]. *)
Definition quickRetest_create (id time : string) (category : string)
    (score : number) (overwrite : bool) (state : State) : State :=
  let state :=
    if overwrite then set_baselines (<[category := JNum score]> (baselines state)) state
    else state in
  addLogEntry id time (JStr "Re-test") (JArr [JStr category])
    (Some (JNum (Fin 6))) state.

(** [onConfirm] of the re-test dialog: [newScore] is the text of the score
    field, [overwrite] the state of the check box.  This is the handler
    where every call in it returns; [quickRetest_onConfirm_state] below has
    the state that it leaves when [render()] throws. *)
Definition quickRetest_onConfirm (id time : string) (category : string)
    (newScore : string) (overwrite : bool) (state : State) : result State :=
  let val := ToNumber (Some (JStr newScore)) in
  if Number_isNaN val then Ok state
  else
    let score := clamp val (Fin 0) (Fin 10) in
    let old := ToNumber (baselines state !! category) in
    let state := quickRetest_create id time category score overwrite state in
    state ← set_latest "answerText" (JStr (retest_note score old overwrite)) state;
    set_latest "completed" (JBool true) state.

(** What [JSON.parse] makes of the text in the baseline editor: it rejects
    the text, or reads it as an object.  A text that reads as another kind
    of value is not a baseline mapping and is left out. *)
Inductive editor_text :=
| unparsable
| mapping (m : obj).

(** The [for] loop over [Object.entries(obj)], writing into [obj]. *)
Fixpoint coerce_scores (entries : list (string * json)) (o : obj) : result obj :=
  match entries with
  | [] => Ok o
  | (k, v) :: entries =>
      let num := ToNumber (Some v) in
      if Number_isNaN num then Throw (Error "Non-number score found.")
      else coerce_scores entries (<[k := JNum (clamp num (Fin 0) (Fin 10))]> o)
  end.

Definition editBaselines_try (txt : editor_text) (state : State) : result State :=
  o ← match txt with
      | unparsable => Throw SyntaxError
      | mapping m => Ok m
      end;
  o ← coerce_scores (map_to_list o) o;
  mret (set_baselines o state).

(** [onConfirm] of the baseline editor: the state afterwards and, when the
    handler caught an exception, the exception whose message the alert
    shows after ["Could not parse JSON: "]. *)
Definition editBaselines_onConfirm (txt : editor_text) (state : State)
    : State * option exn :=
  match editBaselines_try txt state with
  | Ok state' => (state', None)
  | Throw e => (state, Some e)
  end.

(** ** 08) Session log actions *)

Definition has_id (id : string) (e : obj) : bool :=
  match e !! "id" with
  | Some (JStr s) => String.eqb s id
  | _ => false
  end.

(** [entry.completed = checked] on the entry that
    [state.log.find(e => e.id === id)] returns, if any. *)
Fixpoint complete_found (id : string) (checked : bool) (l : list obj) : list obj :=
  match l with
  | [] => []
  | e :: l =>
      if has_id id e then <["completed" := JBool checked]> e :: l
      else e :: complete_found id checked l
  end.

(** The handler of a change of the check box that carries [data-id = id]. *)
Definition handleCompleteToggle (id : string) (checked : bool) (state : State)
    : State :=
  set_log (complete_found id checked (log state)) state.
End Actions.

(** ** A host to run the model on: decimal numerals

    [Number] reads an optional sign, digits and an optional fraction, and the
    empty text as 0; [String] writes the decimal expansion of a number. *)

Definition digit_of (c : Ascii.ascii) : option Z :=
  let n := Ascii.nat_of_ascii c in
  if (48 <=? n)%nat && (n <=? 57)%nat then Some (Z.of_nat (n - 48)) else None.

Definition is_dot (c : Ascii.ascii) : bool := Nat.eqb (Ascii.nat_of_ascii c) 46.
Definition is_minus (c : Ascii.ascii) : bool := Nat.eqb (Ascii.nat_of_ascii c) 45.

(** Reads digits with at most one dot: the digits read so far as an integer
    [acc], the power of ten [scale] of those after the dot. *)
Fixpoint read_decimal (s : string) (acc : Z) (scale : positive)
    (dotted : bool) (ndigits : nat) : option Q :=
  match s with
  | EmptyString => if Nat.eqb ndigits 0 then None else Some (Qmake acc scale)
  | String c s =>
      match digit_of c with
      | Some d =>
          read_decimal s (acc * 10 + d) (if dotted then scale * 10 else scale)%positive
                       dotted (S ndigits)
      | None =>
          if is_dot c && negb dotted then read_decimal s acc scale true ndigits
          else None
      end
  end.

Definition decimal_StringToNumber (s : string) : number :=
  match s with
  | EmptyString => Fin 0
  | String c s' =>
      if is_minus c
      then match read_decimal s' 0 1 false 0 with
           | Some q => Fin (Qopp q)
           | None => NaN
           end
      else match read_decimal s 0 1 false 0 with
           | Some q => Fin q
           | None => NaN
           end
  end.

(** The digits of [num / den] after the dot, for [0 <= num < den]. *)
Fixpoint fraction_digits (fuel : nat) (num den : Z) : string :=
  match fuel with
  | O => ""
  | S fuel =>
      if (num =? 0)%Z then ""
      else pretty (num * 10 / den)%Z ++ fraction_digits fuel (num * 10 mod den)%Z den
  end.

Definition decimal_of_Q (q : Q) : string :=
  let a := Qabs q in
  let whole := Qfloor a in
  let num := (Qnum a - whole * Zpos (Qden a))%Z in
  (if Qle_bool 0 q then "" else "-")
    ++ pretty whole
    ++ (if (num =? 0)%Z then "" else "." ++ fraction_digits 20 num (Zpos (Qden a))).

Definition decimal_NumberToString (n : number) : string :=
  match n with
  | NaN => "NaN"
  | PInf => "Infinity"
  | NInf => "-Infinity"
  | Fin q => decimal_of_Q q
  end.

Definition decimal_toFixed1 (n : number) : string :=
  match n with
  | Fin q =>
      let tenths := Qfloor (Qabs q * 10 + (1 # 2)) in
      (if Qle_bool 0 q || (tenths =? 0)%Z then "" else "-")
        ++ pretty (tenths / 10)%Z ++ "." ++ pretty (tenths mod 10)%Z
  | _ => decimal_NumberToString n
  end.

#[global] Instance decimal_host : Host := {
  StringToNumber := decimal_StringToNumber;
  NumberToString := decimal_NumberToString;
  toFixed1 := decimal_toFixed1;
}.

(** * More of the program

    The helpers and handlers of [app.js] beside those above. *)

(** ** 02) Helpers: [scoreToPct] and [escapeHtml] *)

(** [n < 0]; zero has no sign. *)
Definition num_negative (n : number) : bool :=
  match n with
  | NInf => true
  | Fin q => negb (Qle_bool 0 q)
  | _ => false
  end.

Definition num_is_zero (n : number) : bool :=
  match n with
  | Fin q => Qeq_bool q 0
  | _ => false
  end.

Definition infinity (negative : bool) : number := if negative then NInf else PInf.

(** ** Binary64

    The program's numbers are binary64 doubles: [+], [*] and [/] on finite
    numbers give the double nearest to the exact result, the one with the
    even significand of two that are as near, and an infinity where the
    exact result is [2^1024 - 2^970] or more in size. *)

(** [floor (log2 a)] for [a > 0]. *)
Definition ilog2 (a : Q) : Z :=
  let e := (Z.log2 (Qnum a) - Z.log2 (Z.pos (Qden a)))%Z in
  if Qle_bool (2 ^ e) a then e else (e - 1)%Z.

(** The integer nearest to [m], the even one of two that are as near. *)
Definition round_half_even (m : Q) : Z :=
  let f := Qfloor m in
  match Qcompare (m - inject_Z f) (1 # 2) with
  | Lt => f
  | Gt => (f + 1)%Z
  | Eq => if Z.even f then f else (f + 1)%Z
  end.

(** The distance between the doubles next to [a > 0]: [2^(e - 52)] when
    [2^e <= a < 2^(e + 1)], and [2^-1074] for every [a] below [2^-1022]. *)
Definition ulp (a : Q) : Q := (2 ^ (Z.max (ilog2 a) (-1022) - 52))%Q.

(** The multiple of [ulp a] nearest to [a > 0]. *)
Definition binary64_abs (a : Q) : Q :=
  (inject_Z (round_half_even (a / ulp a)) * ulp a)%Q.

(** The size of the double nearest to [q], in lowest terms. *)
Definition mag (q : Q) : Q := Qred (binary64_abs (Qabs q)).

(** The double nearest to [q]. *)
Definition binary64 (q : Q) : number :=
  if Qeq_bool q 0 then Fin 0
  else if Qle_bool (2 ^ 1024) (mag q) then (if Qle_bool 0 q then PInf else NInf)
  else Fin (if Qle_bool 0 q then mag q else - mag q).

(** [a + b] *)
Definition num_add64 (a b : number) : number :=
  match num_add a b with
  | Fin q => binary64 q
  | n => n
  end.

(** [a * b]: an infinity times zero is [NaN]. *)
Definition num_mul (a b : number) : number :=
  match a, b with
  | NaN, _ | _, NaN => NaN
  | Fin x, Fin y => binary64 (x * y)
  | _, _ =>
      if num_is_zero a || num_is_zero b then NaN
      else infinity (xorb (num_negative a) (num_negative b))
  end.

(** [a / b]: a finite number over an infinity is 0, a number other than 0
    over 0 is an infinity, 0 over 0 and an infinity over an infinity are
    [NaN]. *)
Definition num_div (a b : number) : number :=
  match a, b with
  | NaN, _ | _, NaN => NaN
  | Fin x, Fin y =>
      if Qeq_bool y 0
      then (if Qeq_bool x 0 then NaN else infinity (num_negative a))
      else binary64 (x / y)
  | Fin _, _ => Fin 0
  | _, Fin _ => infinity (xorb (num_negative a) (num_negative b))
  | _, _ => NaN
  end.

Definition AMP : Ascii.ascii := Ascii.ascii_of_nat 38.
Definition LT : Ascii.ascii := Ascii.ascii_of_nat 60.
Definition GT : Ascii.ascii := Ascii.ascii_of_nat 62.
Definition QUOT : Ascii.ascii := Ascii.ascii_of_nat 34.
Definition APOS : Ascii.ascii := Ascii.ascii_of_nat 39.

(** [s.replaceAll(c, r)] for a pattern [c] of one character and a
    replacement [r] without [$]. *)
Fixpoint replaceAll (c : Ascii.ascii) (r : string) (s : string) : string :=
  match s with
  | EmptyString => EmptyString
  | String a s' =>
      if Ascii.eqb a c then r ++ replaceAll c r s'
      else String a (replaceAll c r s')
  end.

Definition escapeHtml_string (str : string) : string :=
  replaceAll APOS "&#039;"
    (replaceAll QUOT "&quot;"
       (replaceAll GT "&gt;"
          (replaceAll LT "&lt;"
             (replaceAll AMP "&amp;" str)))).

Section MoreHelpers.
Context `{Host}.

(** [score / 10] and [* 100] coerce [score] to a number. *)
Definition scoreToPct (score : value) : number :=
  clamp (num_mul (num_div (ToNumber score) (Fin 10)) (Fin 100)) (Fin 0) (Fin 100).

Definition escapeHtml (str : value) : string := escapeHtml_string (ToString str).

(** ** 03) Derived values, with the sums rounded *)

(** [state.log.reduce((sum, e) => sum + earned, 0)] *)
Definition calcXP64 (state : State) : number :=
  fold_left (fun sum e => num_add64 sum (earned e)) (log state) (Fin 0).

(** ** 06) Core actions: the re-test dialog when [render()] throws

    [addLogEntry] ends with [render()], which draws the page from the state
    and writes it to storage, and throws where a stored value or the storage
    makes it; [render_returns state] says that it returns for [state].  A
    throw of the [render()] inside [addLogEntry] ends the handler with the
    new entry in the log and neither of the two writes to it done, and a
    throw of [Number(state.baselines[category])] ends it before it has
    written anything.  This is the state that the handler leaves, whether it
    returns or not. *)
Definition quickRetest_onConfirm_state (render_returns : State -> bool)
    (id time : string) (category : string) (newScore : string) (overwrite : bool)
    (state : State) : State :=
  let val := ToNumber (Some (JStr newScore)) in
  if Number_isNaN val then state
  else if negb (converts (baselines state !! category)) then state
  else
    let score := clamp val (Fin 0) (Fin 10) in
    let old := ToNumber (baselines state !! category) in
    let state := quickRetest_create id time category score overwrite state in
    if render_returns state then
      match (state ← set_latest "answerText" (JStr (retest_note score old overwrite)) state;
             set_latest "completed" (JBool true) state) with
      | Ok state' => state'
      | Throw _ => state
      end
    else state.
End MoreHelpers.

(** ** The state at start and as an object *)

(** [structuredCloneSafe(DEFAULT_STATE)] as a [State]. *)
Definition fresh_default : State :=
  mkState (own_props (Some (structuredCloneSafe (JObj DEFAULT_baselines))))
          (own_props (Some (structuredCloneSafe (JObj DEFAULT_notes))))
          (JStr NO_FOCUS) [] ∅.

(** The object [state] that [saveState] hands to [JSON.stringify]. *)
Definition state_object (state : State) : json :=
  JObj (<["log" := JArr (JObj <$> log state)]>
          (<["todayFocus" := todayFocus state]>
             (<["notes" := JObj (notes state)]>
                (<["baselines" := JObj (baselines state)]> (other state))))).

(** [saveState()] and then [let state = loadState()]. *)
Definition save_and_load (state : State) : option State :=
  match reloadState (state_object state) with
  | Ok st => state_view st
  | Throw _ => None
  end.

(** [let state = loadState()] *)
Definition boot (raw : raw_item) : option State :=
  match loadState raw with
  | Ok st => state_view st
  | Throw _ => None
  end.

(** ** 06) Core actions: the reset menu and the clear-log button *)

(** [onConfirm] of the reset menu, with the states of its three boxes. *)
Definition resetMenu_onConfirm (rLog rBase rAll : bool) (state : State) : State :=
  if rAll then fresh_default
  else
    let state := if rLog then set_log [] state else state in
    if rBase
    then mkState (own_props (Some (structuredCloneSafe (JObj DEFAULT_baselines))))
                 (own_props (Some (structuredCloneSafe (JObj DEFAULT_notes))))
                 (todayFocus state) (log state) (other state)
    else state.

Definition clearLog_onConfirm (state : State) : State := set_log [] state.

(** ** 07) Mission console *)

(** The fields of the console when Save is pressed; [c_insightText] is
    [None] when the page has no insight field. *)
Record console_form := mkConsole {
  c_challengeText : string;
  c_answerText : string;
  c_insightText : option string;
  c_moodSel : string;
  c_sleepHrs : string;
  c_diffSel : string;
  c_likeSel : string;
  c_completeToggle : bool;
}.

(** [field.value || ""] *)
Definition value_or_empty (s : string) : json := or_else (Some (JStr s)) (JStr "").

Definition NO_ENTRY_YET : string := "No session entry yet. Roll a mode first.".

(** The state afterwards, and the text of the alert if there was one. *)
Definition saveConsoleToLatest (form : console_form) (state : State)
    : State * option string :=
  match log state with
  | [] => (state, Some NO_ENTRY_YET)
  | latest :: rest =>
      let latest := <["challengeText" := value_or_empty (c_challengeText form)]> latest in
      let latest := <["answerText" := value_or_empty (c_answerText form)]> latest in
      let latest :=
        <["insightText" := match c_insightText form with
                           | Some s => value_or_empty s
                           | None => JStr ""
                           end]> latest in
      let latest := <["mood" := value_or_empty (c_moodSel form)]> latest in
      let latest := <["sleepHrs" := value_or_empty (c_sleepHrs form)]> latest in
      let latest := <["difficulty" := value_or_empty (c_diffSel form)]> latest in
      let latest := <["liked" := value_or_empty (c_likeSel form)]> latest in
      let latest := <["completed" := JBool (c_completeToggle form)]> latest in
      (set_log (latest :: rest) state, None)
  end.

(** ** 08) Session log actions: delete and edit *)

(** [f] on the entry that [state.log.find(e => e.id === id)] returns. *)
Fixpoint update_found (id : string) (f : obj -> obj) (l : list obj) : list obj :=
  match l with
  | [] => []
  | e :: l => if has_id id e then f e :: l else e :: update_found id f l
  end.

(** [onConfirm] of the delete dialog of the entry with [data-id = id]:
    [state.log.filter(e => e.id !== id)]. *)
Definition deleteEntry_onConfirm (id : string) (state : State) : State :=
  set_log (List.filter (fun e => negb (has_id id e)) (log state)) state.

(** The fields of the edit dialog when Save is pressed. *)
Record edit_form := mkEdit {
  editChallenge : string;
  editNotes : string;
  editInsights : string;
  editMood : string;
  editSleep : string;
  editDiff : string;
  editLike : string;
}.

Definition edit_fields (form : edit_form) (entry : obj) : obj :=
  let entry := <["challengeText" := value_or_empty (editChallenge form)]> entry in
  let entry := <["answerText" := value_or_empty (editNotes form)]> entry in
  let entry := <["insightText" := value_or_empty (editInsights form)]> entry in
  let entry := <["mood" := value_or_empty (editMood form)]> entry in
  let entry := <["sleepHrs" := value_or_empty (editSleep form)]> entry in
  let entry := <["difficulty" := value_or_empty (editDiff form)]> entry in
  <["liked" := value_or_empty (editLike form)]> entry.

(** [onConfirm] of the edit dialog of the entry with [data-id = id]; the
    dialog is open only if [find] returned an entry. *)
Definition editEntry_onConfirm (id : string) (form : edit_form) (state : State) : State :=
  set_log (update_found id (edit_fields form) (log state)) state.

(** ** 09) The user's actions, one step each *)

Section Steps.
Context `{Host}.

Inductive action :=
| Roll (rnd : nat -> Q) (id time kind : string) (count : nat)
| Retest (id time category newScore : string) (overwrite : bool)
| EditBaselines (txt : editor_text)
| ResetMenu (rLog rBase rAll : bool)
| ClearLog
| SaveConsole (form : console_form)
| ToggleComplete (id : string) (checked : bool)
| DeleteEntry (id : string)
| EditEntry (id : string) (form : edit_form).

(** [step state a state']: the handler of [a] takes [state] to [state']. *)
Inductive step (state : State) : action -> State -> Prop :=
| step_roll rnd id time kind count :
    step state (Roll rnd id time kind count) (runSession rnd id time kind count state)
| step_retest id time category newScore overwrite state' :
    quickRetest_onConfirm id time category newScore overwrite state = Ok state' ->
    step state (Retest id time category newScore overwrite) state'
| step_edit_baselines txt :
    step state (EditBaselines txt) (editBaselines_onConfirm txt state).1
| step_reset rLog rBase rAll :
    step state (ResetMenu rLog rBase rAll) (resetMenu_onConfirm rLog rBase rAll state)
| step_clear :
    step state ClearLog (clearLog_onConfirm state)
| step_save form :
    step state (SaveConsole form) (saveConsoleToLatest form state).1
| step_toggle id checked :
    step state (ToggleComplete id checked) (handleCompleteToggle id checked state)
| step_delete id :
    step state (DeleteEntry id) (deleteEntry_onConfirm id state)
| step_edit_entry id form :
    step state (EditEntry id form) (editEntry_onConfirm id form state).

(** The states that a run of actions reaches from [state]. *)
Inductive reaches (state : State) : State -> Prop :=
| reaches_here : reaches state state
| reaches_step mid a state' : reaches state mid -> step mid a state' -> reaches state state'.
End Steps.

(** * Version 1.0 of the program

    The second document of [app.js] is version 1.0, which wrote to the same
    storage key.  It keeps a counter [state.xp] that every new entry adds
    to, and its entries carry [xp] and [body].  The states are those whose
    [xp] and [sessions] are numbers, as they are from the default state
    on. *)
Module V1.

Record State := mkState {
  xp : number;
  sessions : number;
  todayFocus : json;
  baselines : obj;
  notes : obj;
  log : list obj;
  other : obj;
}.

(** [structuredClone(DEFAULT_STATE)]; the default baselines and notes are
    those of the present version. *)
Definition fresh : State :=
  mkState (Fin 0) (Fin 0) (JStr NO_FOCUS) DEFAULT_baselines DEFAULT_notes [] ∅.

Definition set_xp (n : number) (state : State) : State :=
  mkState n (sessions state) (todayFocus state) (baselines state) (notes state)
    (log state) (other state).

Definition set_sessions (n : number) (state : State) : State :=
  mkState (xp state) n (todayFocus state) (baselines state) (notes state)
    (log state) (other state).

Definition set_todayFocus (f : json) (state : State) : State :=
  mkState (xp state) (sessions state) f (baselines state) (notes state)
    (log state) (other state).

Definition set_baselines (b : obj) (state : State) : State :=
  mkState (xp state) (sessions state) (todayFocus state) b (notes state)
    (log state) (other state).

Definition set_log (l : list obj) (state : State) : State :=
  mkState (xp state) (sessions state) (todayFocus state) (baselines state)
    (notes state) l (other state).

(** [n || 0] on a number *)
Definition num_or_0 (n : number) : number := if num_truthy n then n else Fin 0.

(** [state.xp = Math.max(0, (state.xp || 0) + amount)] *)
Definition addXP (amount : number) (state : State) : State :=
  set_xp (Math_max (Fin 0) (num_add (num_or_0 (xp state)) amount)) state.

(** [xp ?? 0] *)
Definition xp_or_0 (xp : value) : json :=
  match xp with
  | None | Some JNull => JNum (Fin 0)
  | Some v => v
  end.

Definition new_entry (id time : string) (title categories : json) (body : string)
    (xp : value) : obj :=
  list_to_map
    [ ("id", JStr id);
      ("time", JStr time);
      ("title", title);
      ("categories", categories);
      ("body", JStr body);
      ("xp", xp_or_0 xp) ].

(** [state.sessions] goes up by one, [addXP(xp)] runs if [xp] is a number,
    and the entry goes to the head of the log. *)
Definition addLogEntry (id time : string) (title categories : json) (body : string)
    (xp : value) (state : State) : State :=
  let state := set_sessions (num_add (num_or_0 (sessions state)) (Fin 1)) state in
  let state := match xp with
               | Some (JNum amount) => addXP amount state
               | _ => state
               end in
  set_log (new_entry id time title categories body xp :: log state) state.

Definition rolled_body (pick : list (option string)) : string :=
  "Rolled: " ++ join ", " (default "" <$> pick)
    ++ ". (Go back to Echo for the actual puzzles 😈)".

Definition runSession (rnd : nat -> Q) (id time : string) (kind : string)
    (count : nat) (state : State) : State :=
  let categories := Object_keys (baselines state) in
  let pick := pickRandom rnd categories count in
  let state := set_todayFocus (JStr (join " • " (default "" <$> pick))) state in
  let xp := session_xp kind in
  addLogEntry id time (JStr kind) (JArr (from_option JStr JNull <$> pick))
    (rolled_body pick) (Some (JNum xp)) state.

(** [DEFAULT_STATE] of version 1.0 *)
Definition DEFAULT_STATE : obj :=
  list_to_map
    [ ("xp", JNum (Fin 0));
      ("sessions", JNum (Fin 0));
      ("todayFocus", JStr NO_FOCUS);
      ("baselines", JObj DEFAULT_baselines);
      ("notes", JObj DEFAULT_notes);
      ("log", JArr []) ].

(** [loadState] of version 1.0: the merge with the defaults, and no
    migration; [structuredClone] copies a value as it is. *)
Definition loadState_try (raw : raw_item) : result json :=
  match raw with
  | absent => Ok (JObj DEFAULT_STATE)
  | malformed => Throw SyntaxError
  | wellformed parsed =>
      parsed_baselines ← get_prop parsed "baselines";
      parsed_notes ← get_prop parsed "notes";
      parsed_log ← get_prop parsed "log";
      mret
        (JObj
           (<["log" := match parsed_log with Some (JArr l) => JArr l | _ => JArr [] end]>
              (<["notes" := JObj (own_props (Some (or_else parsed_notes (JObj ∅)))
                                   ∪ DEFAULT_notes)]>
                 (<["baselines" := JObj (own_props (Some (or_else parsed_baselines (JObj ∅)))
                                           ∪ DEFAULT_baselines)]>
                    (own_props (Some parsed) ∪ DEFAULT_STATE)))))
  end.

Definition loadState (raw : raw_item) : result json :=
  try_catch (loadState_try raw) (fun _ => Ok (JObj DEFAULT_STATE)).

(** The object [state] that [saveState] hands to [JSON.stringify]. *)
Definition state_object (state : State) : json :=
  JObj (<["log" := JArr (JObj <$> log state)]>
          (<["notes" := JObj (notes state)]>
             (<["baselines" := JObj (baselines state)]>
                (<["todayFocus" := todayFocus state]>
                   (<["sessions" := JNum (sessions state)]>
                      (<["xp" := JNum (xp state)]> (other state))))))).

(** The state object read as a [State]. *)
Definition state_view (st : json) : option State :=
  match st with
  | JObj m =>
      match m !! "xp", m !! "sessions", m !! "todayFocus",
            m !! "baselines", m !! "notes", m !! "log" with
      | Some (JNum x), Some (JNum n), Some f, Some (JObj b), Some (JObj nt), Some (JArr l) =>
          entries ← mapM as_obj l;
          Some (mkState x n f b nt entries
                  (delete "xp" (delete "sessions" (delete "todayFocus"
                     (delete "baselines" (delete "notes" (delete "log" m)))))))
      | _, _, _, _, _, _ => None
      end
  | _ => None
  end.

(** [saveState()], and [let state = loadState()] when the page is opened
    again. *)
Definition reload (state : State) : option State :=
  match loadState (wellformed (structuredCloneSafe (state_object state))) with
  | Ok st => state_view st
  | Throw _ => None
  end.

Section Handlers.
Context `{Host}.

(** [onConfirm] of the re-test dialog. *)
Definition quickRetest_onConfirm (id time : string) (category : string)
    (newScore : string) (overwrite : bool) (state : State) : State :=
  let val := ToNumber (Some (JStr newScore)) in
  if Number_isNaN val then state
  else
    let score := clamp val (Fin 0) (Fin 10) in
    let old := ToNumber (baselines state !! category) in
    let state :=
      if overwrite then set_baselines (<[category := JNum score]> (baselines state)) state
      else state in
    addLogEntry id time (JStr "Re-test") (JArr [JStr category])
      (retest_note score old overwrite) (Some (JNum (Fin 6))) state.

Definition editBaselines_try (txt : editor_text) (state : State) : result State :=
  o ← match txt with
      | unparsable => Throw SyntaxError
      | mapping m => Ok m
      end;
  o ← coerce_scores (map_to_list o) o;
  mret (set_baselines o state).

(** [String(e.message || e)]; [message] is the message of an exception
    that the engine throws. *)
Definition failure_text (message : string) (e : exn) : string :=
  match e with
  | Error m => if String.eqb m "" then "Error" else m
  | SyntaxError => if String.eqb message "" then "SyntaxError" else message
  | TypeError => if String.eqb message "" then "TypeError" else message
  end.

Definition EDIT_FAILED : string := "⚠️ Baseline Edit Failed".

(** [onConfirm] of the baseline editor: a failure is written to the log. *)
Definition editBaselines_onConfirm (txt : editor_text) (message : string)
    (id time : string) (state : State) : State :=
  match editBaselines_try txt state with
  | Ok state' => state'
  | Throw e =>
      addLogEntry id time (JStr EDIT_FAILED) (JArr [])
        ("Could not parse JSON: " ++ failure_text message e) (Some (JNum (Fin 0))) state
  end.

Definition clearLog_onConfirm (state : State) : State := set_log [] state.

Definition resetAll_onConfirm (state : State) : State := fresh.

Inductive action :=
| Roll (rnd : nat -> Q) (id time kind : string) (count : nat)
| Retest (id time category newScore : string) (overwrite : bool)
| EditBaselines (txt : editor_text) (message id time : string)
| ClearLog
| ResetAll.

Definition act (a : action) (state : State) : State :=
  match a with
  | Roll rnd id time kind count => runSession rnd id time kind count state
  | Retest id time category newScore overwrite =>
      quickRetest_onConfirm id time category newScore overwrite state
  | EditBaselines txt message id time => editBaselines_onConfirm txt message id time state
  | ClearLog => clearLog_onConfirm state
  | ResetAll => resetAll_onConfirm state
  end.

Definition is_clear (a : action) : bool :=
  match a with ClearLog => true | _ => false end.

(** The states that version 1.0 reaches from its first start, over any
    number of visits of the page; [cleared] says whether the log was
    cleared on the way. *)
Inductive reached : bool -> State -> Prop :=
| reached_fresh : reached false fresh
| reached_act cleared a state :
    reached cleared state -> reached (cleared || is_clear a) (act a state)
| reached_reload cleared state state' :
    reached cleared state -> reload state = Some state' -> reached cleared state'.
End Handlers.

End V1.

(** What the present version makes, at its start, of the state that
    version 1.0 saved. *)
Definition upgrade (old : V1.State) : option State :=
  boot (wellformed (structuredCloneSafe (V1.state_object old))).

(** ** Notions used in the statements *)

(** [v] is [null] or [undefined]. *)
Definition nullish (v : value) : bool :=
  match v with None | Some JNull => true | Some _ => false end.

(** The seven fields that [??=] fills, in the order of the source. *)
Definition text_fields : list string :=
  ["mood"; "sleepHrs"; "difficulty"; "liked"; "challengeText"; "answerText"; "insightText"].

Definition fill_text_fields (out : obj) : obj :=
  foldl (fun o k => default_empty k o) out text_fields.

(** What the migration leaves in [xpPotential] and [completed], from the
    properties of the entry as stored. *)
Definition migrated_xpPotential (props : obj) : json :=
  match props !! "xpPotential", props !! "xp" with
  | Some (JNum n), _ => JNum n
  | _, Some (JNum xp) => JNum xp
  | _, _ => JNum (Fin 0)
  end.

Definition migrated_completed (props : obj) : json :=
  match props !! "completed" with
  | Some (JBool b) => JBool b
  | _ => JBool true
  end.

(** An entry in the current shape. *)
Definition entry_normal (out : obj) : Prop :=
  (exists n, out !! "xpPotential" = Some (JNum n))
  /\ (exists b, out !! "completed" = Some (JBool b))
  /\ out !! "xp" = None
  /\ forall k, k ∈ text_fields -> nullish (out !! k) = false.

(** What the migration does to one stored entry [e], giving [out]: [xp] is
    gone; [completed] is the stored boolean, [true] where there was none;
    [xpPotential] is the stored number where there was one, else a numeric
    legacy [xp], whether or not an [xpPotential] was stored, else 0. *)
Definition legacy_migrated (e : json) (out : obj) : Prop :=
  out !! "xp" = None
  /\ (forall b, own_props (Some e) !! "completed" = Some (JBool b) ->
        out !! "completed" = Some (JBool b))
  /\ ((forall b, own_props (Some e) !! "completed" <> Some (JBool b)) ->
        out !! "completed" = Some (JBool true))
  /\ (forall n, own_props (Some e) !! "xpPotential" = Some (JNum n) ->
        out !! "xpPotential" = Some (JNum n))
  /\ (forall xp, (forall n, own_props (Some e) !! "xpPotential" <> Some (JNum n)) ->
        own_props (Some e) !! "xp" = Some (JNum xp) ->
        out !! "xpPotential" = Some (JNum xp))
  /\ ((forall n, own_props (Some e) !! "xpPotential" <> Some (JNum n)) ->
      (forall n, own_props (Some e) !! "xp" <> Some (JNum n)) ->
        out !! "xpPotential" = Some (JNum (Fin 0)))
  /\ (own_props (Some e) !! "xp" = Some (JNum (Fin 12)) ->
      own_props (Some e) !! "xpPotential" = None ->
      own_props (Some e) !! "completed" = None ->
        out !! "xpPotential" = Some (JNum (Fin 12))
        /\ out !! "completed" = Some (JBool true)
        /\ out !! "xp" = None).

(** The migration in the spec's words: a numeric [xp] is copied where no
    [xpPotential] exists yet, a missing boolean [completed] becomes [true],
    [xp] is gone, and an [xpPotential] that is not a number becomes 0. *)
Definition spec_legacy_migrated (e : json) (out : obj) : Prop :=
  (forall xp, own_props (Some e) !! "xp" = Some (JNum xp) ->
     own_props (Some e) !! "xpPotential" = None ->
     out !! "xpPotential" = Some (JNum xp))
  /\ ((forall b, own_props (Some e) !! "completed" <> Some (JBool b)) ->
        out !! "completed" = Some (JBool true))
  /\ out !! "xp" = None
  /\ (forall n, own_props (Some e) !! "xpPotential" = Some (JNum n) ->
        out !! "xpPotential" = Some (JNum n))
  /\ (forall v, own_props (Some e) !! "xpPotential" = Some v ->
        (forall n, v <> JNum n) ->
        out !! "xpPotential" = Some (JNum (Fin 0))).

(** The state that [loadState] returns for a blob with own properties [P]
    whose [baselines] and [notes] properties read as [pb] and [pn], with
    [log] as its log. *)
Definition merged_log (pl : value) : list json :=
  match pl with Some (JArr l) => l | _ => [] end.

Definition merged_part (pv : value) (dflt : obj) : obj :=
  own_props (Some (or_else pv (JObj ∅))) ∪ dflt.

Definition assemble (P : obj) (pb pn : value) (log : list json) : obj :=
  <["log" := JArr log]>
    (<["notes" := JObj (merged_part pn DEFAULT_notes)]>
       (<["baselines" := JObj (merged_part pb DEFAULT_baselines)]>
          (P ∪ DEFAULT_STATE))).

Fixpoint json_size (v : json) : nat :=
  match v with
  | JArr l => S (foldr (fun x n => json_size x + n) 0 l)
  | JObj m => S (map_fold (fun _ x n => json_size x + n) 0 m)
  | _ => 1
  end.

(** Every number in the value is finite: what [JSON.stringify] and
    [JSON.parse] carry through unchanged. *)
Fixpoint json_finite (v : json) : bool :=
  match v with
  | JNum n => num_finite n
  | JArr l => forallb json_finite l
  | JObj m => map_fold (fun _ x b => json_finite x && b) true m
  | JNull | JBool _ | JStr _ => true
  end.

Definition raw_finite (raw : raw_item) : bool :=
  match raw with
  | wellformed parsed => json_finite parsed
  | absent | malformed => true
  end.

Definition obj_finite (m : obj) : Prop :=
  map_Forall (fun _ v => json_finite v = true) m.

(** Field [k] of entry [i] of the log of a state object. *)
Definition log_field (i : nat) (k : string) (st : json) : value :=
  match st with
  | JObj m =>
      match m !! "log" with
      | Some (JArr l) =>
          match l !! i with
          | Some (JObj e) => e !! k
          | _ => None
          end
      | _ => None
      end
  | _ => None
  end.

(** Property [k2] of the object that is property [k1] of a state object. *)
Definition nested_field (k1 k2 : string) (st : json) : value :=
  match st with
  | JObj m =>
      match m !! k1 with
      | Some (JObj b) => b !! k2
      | _ => None
      end
  | _ => None
  end.

(** A stored blob with two baselines, one of them not a default one, a focus
    label and a [log] that is not an array. *)
Definition partial_blob : json :=
  JObj {[ "baselines" := JObj {[ "Quick Math" := JNum (Fin 9); "Chess" := JNum (Fin 3) ]};
          "todayFocus" := JStr "Vocabulary";
          "log" := JStr "none" ]}.

(** A stored blob with one entry whose [xpPotential] is written [1e999],
    which [JSON.parse] reads as [Infinity]. *)
Definition overflow_blob : json :=
  JObj {[ "log" := JArr [JObj {[ "xpPotential" := JNum PInf ]}] ]}.

(** A stored blob with one legacy entry, [{"log": [{"xp": 12}]}]. *)
Definition legacy_blob : json :=
  JObj {[ "log" := JArr [JObj {[ "xp" := JNum (Fin 12) ]}] ]}.

(** A stored entry with a legacy [xp] and an [xpPotential] that is a text,
    [{"xp": 4, "xpPotential": "7"}], and a blob with it as its log. *)
Definition text_xp_entry : json :=
  JObj {[ "xp" := JNum (Fin 4); "xpPotential" := JStr "7" ]}.

Definition text_xp_blob : json := JObj {[ "log" := JArr [text_xp_entry] ]}.

(** The spec's words for the earned total: an entry contributes
    [xpPotential] if [completed] is [true], else 0; the total is the sum
    over the log. *)
Definition spec_contribution (e : obj) : number :=
  match e !! "completed", e !! "xpPotential" with
  | Some (JBool true), Some (JNum x) => x
  | _, _ => Fin 0
  end.

Definition spec_earned_total (l : list obj) : number :=
  foldr (fun e acc => num_add (spec_contribution e) acc) (Fin 0) l.

(** [state.log.find(e => e.id === id)] returns [e]: it has the id and no
    entry of [before] has it. *)
Definition finds (id : string) (l before : list obj) (e : obj) (after : list obj) : Prop :=
  l = (before ++ e :: after)%list
  /\ Forall (fun e' => has_id id e' = false) before
  /\ has_id id e = true.

(** The running sum of [calcXP], from any start. *)
Definition sum_from `{Host} (start : number) (l : list obj) : number :=
  fold_left (fun sum e => num_add sum (earned e)) l start.

(** The score that the baseline editor stores for a submitted value. *)
Definition stored_score `{Host} (v : json) : json :=
  JNum (clamp (ToNumber (Some v)) (Fin 0) (Fin 10)).

(** Sample data for the examples, on the decimal host. *)
Definition sample_entry (id : string) (xp : Q) (completed : bool) : obj :=
  <["completed" := JBool completed]>
    (new_entry id "Jan 05, 2026, 09:30 AM" (JStr "Daily Neural Roll")
       (JArr [JStr "Vocabulary"]) (Some (JNum (Fin xp)))).

Definition sample_state : State :=
  mkState DEFAULT_baselines DEFAULT_notes (JStr NO_FOCUS)
    [sample_entry "a" 10 true; sample_entry "b" 18 false; sample_entry "c" 25 true] ∅.

Definition sample_slept_entry : obj :=
  <["sleepHrs" := JStr "7.5"]> (sample_entry "a" 10 false).

(** *** Escaped text *)

(** What [escapeHtml] puts for one character. *)
Definition escape_char (a : Ascii.ascii) : string :=
  if Ascii.eqb a AMP then "&amp;"
  else if Ascii.eqb a LT then "&lt;"
  else if Ascii.eqb a GT then "&gt;"
  else if Ascii.eqb a QUOT then "&quot;"
  else if Ascii.eqb a APOS then "&#039;"
  else String a EmptyString.

Fixpoint occurs (c : Ascii.ascii) (s : string) : bool :=
  match s with
  | EmptyString => false
  | String a s' => Ascii.eqb a c || occurs c s'
  end.

Definition is_markup (a : Ascii.ascii) : bool :=
  Ascii.eqb a LT || Ascii.eqb a GT || Ascii.eqb a QUOT || Ascii.eqb a APOS.

Fixpoint starts_with (p s : string) : bool :=
  match p, s with
  | EmptyString, _ => true
  | String a p', String b s' => Ascii.eqb a b && starts_with p' s'
  | _, _ => false
  end.

(** Text in which [<], [>] and the two quotes do not occur and every [&]
    begins one of the five entities. *)
Fixpoint well_escaped (s : string) : bool :=
  match s with
  | EmptyString => true
  | String a r =>
      (if Ascii.eqb a AMP
       then starts_with "amp;" r || starts_with "lt;" r || starts_with "gt;" r
            || starts_with "quot;" r || starts_with "#039;" r
       else negb (is_markup a))
      && well_escaped r
  end.

Fixpoint strip_prefix (p s : string) : option string :=
  match p, s with
  | EmptyString, _ => Some s
  | String a p', String b s' => if Ascii.eqb a b then strip_prefix p' s' else None
  | _, _ => None
  end.

(** A reader of escaped text, which the program does not have: it puts the
    character back for each of the five entities.  It serves to state that
    [escapeHtml] loses nothing. *)
Fixpoint decode_entities_loop (fuel : nat) (s : string) : string :=
  match fuel with
  | O => s
  | S fuel =>
      match strip_prefix "&amp;" s with
      | Some r => String AMP (decode_entities_loop fuel r)
      | None =>
      match strip_prefix "&lt;" s with
      | Some r => String LT (decode_entities_loop fuel r)
      | None =>
      match strip_prefix "&gt;" s with
      | Some r => String GT (decode_entities_loop fuel r)
      | None =>
      match strip_prefix "&quot;" s with
      | Some r => String QUOT (decode_entities_loop fuel r)
      | None =>
      match strip_prefix "&#039;" s with
      | Some r => String APOS (decode_entities_loop fuel r)
      | None =>
      match s with
      | EmptyString => EmptyString
      | String a r => String a (decode_entities_loop fuel r)
      end end end end end end
  end.

Definition decode_entities (s : string) : string :=
  decode_entities_loop (String.length s) s.

(** *** Writes to an entry *)

Fixpoint assoc (k : string) (kvs : list (string * json)) : value :=
  match kvs with
  | [] => None
  | (k', v) :: kvs => if String.eqb k' k then Some v else assoc k kvs
  end.

(** The writes [e.k = v] for the pairs of [kvs], the last pair first. *)
Definition write_all (kvs : list (string * json)) (e : obj) : obj :=
  foldr (fun kv m => <[kv.1 := kv.2]> m) e kvs.

(** The properties that the console writes, and those that the edit dialog
    writes. *)
Definition console_keys : list string :=
  ["challengeText"; "answerText"; "insightText"; "mood"; "sleepHrs"; "difficulty";
   "liked"; "completed"].

Definition edit_keys : list string :=
  ["challengeText"; "answerText"; "insightText"; "mood"; "sleepHrs"; "difficulty"; "liked"].

Definition console_insight (form : console_form) : string :=
  default "" (c_insightText form).

Definition console_writes (form : console_form) : list (string * json) :=
  [ ("completed", JBool (c_completeToggle form));
    ("liked", JStr (c_likeSel form));
    ("difficulty", JStr (c_diffSel form));
    ("sleepHrs", JStr (c_sleepHrs form));
    ("mood", JStr (c_moodSel form));
    ("insightText", JStr (console_insight form));
    ("answerText", JStr (c_answerText form));
    ("challengeText", JStr (c_challengeText form)) ].

Definition edit_writes (form : edit_form) : list (string * json) :=
  [ ("liked", JStr (editLike form));
    ("difficulty", JStr (editDiff form));
    ("sleepHrs", JStr (editSleep form));
    ("mood", JStr (editMood form));
    ("insightText", JStr (editInsights form));
    ("answerText", JStr (editNotes form));
    ("challengeText", JStr (editChallenge form)) ].

(** *** States *)

(** The four properties of the state object that the program reads. *)
Definition state_keys : list string := ["baselines"; "notes"; "todayFocus"; "log"].

(** A score as the baseline editor and the re-test store it. *)
Definition score_ok (v : json) : bool :=
  match v with
  | JNum (Fin q) => Qle_bool 0 q && Qle_bool q 10
  | _ => false
  end.

Definition baselines_in_range (state : State) : Prop :=
  map_Forall (fun _ v => score_ok v = true) (baselines state).

(** The state is in the current shape: its entries are, [other] holds none
    of the four properties, and every default note is there. *)
Definition state_ok (state : State) : Prop :=
  Forall entry_normal (log state)
  /\ (forall k, k ∈ state_keys -> other state !! k = None)
  /\ notes state ∪ DEFAULT_notes = notes state.

(** Every number in the state is finite. *)
Definition state_finite (state : State) : bool :=
  json_finite (JObj (baselines state)) && json_finite (JObj (notes state))
  && json_finite (todayFocus state)
  && forallb (fun e => json_finite (JObj e)) (log state)
  && json_finite (JObj (other state)).

(** The state with the default skills that it lacks. *)
Definition with_default_skills (state : State) : State :=
  set_baselines (baselines state ∪ DEFAULT_baselines) state.

(** A property of the state given by one of each of its parts. *)
Definition holds (Pb Pn Po : obj -> Prop) (Pf : json -> Prop) (Pe : obj -> Prop)
    (state : State) : Prop :=
  Pb (baselines state) /\ Pn (notes state) /\ Pf (todayFocus state)
  /\ Forall Pe (log state) /\ Po (other state).

(** [sample_state] after a baseline edit that kept one skill, not a default
    one. *)
Definition chess_only_state : State :=
  set_baselines {[ "Chess" := JNum (Fin 3) ]} sample_state.

(** *** The identity of an entry *)

(** [e'] is [e] but for the eight properties that the console writes. *)
Definition kept (e e' : obj) : Prop :=
  forall k, k ∉ console_keys -> e' !! k = e !! k.

(** An entry as [addLogEntry] makes it for a session or a re-test. *)
Definition created `{Host} (e : obj) : Prop :=
  exists id time kind cats xp,
    xp ∈ [6; 10; 18; 25]%Q
    /\ e = new_entry id time (JStr kind) (JArr cats) (Some (JNum (Fin xp))).

(** *** The categories of an entry *)

(** The entry lists its categories: [categories] is an array. *)
Definition categories_listed (e : obj) : Prop :=
  exists l, e !! "categories" = Some (JArr l).

(** A stored blob with one entry whose [categories] is a text. *)
Definition text_categories_blob : json :=
  JObj {[ "log" := JArr [JObj {[ "categories" := JStr "Vocabulary" ]}] ]}.

(** *** Version 1.0 *)

(** The [xp] of an entry of version 1.0 and the sum over a log. *)
Definition xp_of (e : obj) : Q :=
  match e !! "xp" with Some (JNum (Fin a)) => a | _ => 0%Q end.

Definition log_xp (l : list obj) : Q := foldr (fun e acc => (xp_of e + acc)%Q) 0%Q l.

(** An entry as version 1.0 creates it. *)
Definition v1_entry (e : obj) : Prop :=
  (exists a, e !! "xp" = Some (JNum (Fin a)) /\ (0 <= a)%Q)
  /\ e !! "xpPotential" = None /\ e !! "completed" = None.

(** What [JSON.stringify] and [JSON.parse] make of an entry. *)
Definition clone_entry (e : obj) : obj := structuredCloneSafe <$> e.

(** The counter of version 1.0 is at least the sum over its log; [exact]
    says whether the two are equal. *)
Definition counted (exact : bool) (state : V1.State) : Prop :=
  Forall v1_entry (V1.log state)
  /\ (exists n, V1.sessions state = Fin n)
  /\ exists q, V1.xp state = Fin q
       /\ (log_xp (V1.log state) <= q)%Q
       /\ (exact = true -> (q == log_xp (V1.log state))%Q).

(** *** Whole XP

    An entry as the program makes it has a boolean [completed] and a whole
    number that is not negative as [xpPotential].  Where the [xpPotential]
    of all entries add up to less than [2^53], no sum of [calcXP64] is
    rounded. *)
Definition whole (e : obj) : bool :=
  match e !! "completed", e !! "xpPotential" with
  | Some (JBool _), Some (JNum (Fin q)) =>
      Qle_bool 0 q && Qeq_bool q (inject_Z (Qfloor q))
  | _, _ => false
  end.

Definition is_completed (e : obj) : bool :=
  match e !! "completed" with
  | Some (JBool b) => b
  | _ => false
  end.

(** The [xpPotential] of a whole entry. *)
Definition xp_units (e : obj) : Z :=
  match e !! "xpPotential" with
  | Some (JNum (Fin q)) => Qfloor q
  | _ => 0%Z
  end.

(** The sum of [xpPotential] over all entries, and, the spec's words for
    the earned total, over exactly those with [completed == true]. *)
Definition units_total (l : list obj) : Z :=
  foldr (fun e n => (xp_units e + n)%Z) 0%Z l.

Definition units_earned (l : list obj) : Z :=
  foldr (fun e n => ((if is_completed e then xp_units e else 0) + n)%Z) 0%Z l.

(** The running sum of [calcXP64], from any start. *)
Definition sum_from64 `{Host} (start : number) (l : list obj) : number :=
  fold_left (fun sum e => num_add64 sum (earned e)) l start.

(** The doubles nearest to 0.7, 0.1 and 0.3, and a state with three
    completed entries that have them as [xpPotential]. *)
Definition double_0_7 : Q := 3152519739159347 # 4503599627370496.
Definition double_0_1 : Q := 3602879701896397 # 36028797018963968.
Definition double_0_3 : Q := 5404319552844595 # 18014398509481984.

Definition fraction_state : State :=
  mkState DEFAULT_baselines DEFAULT_notes (JStr NO_FOCUS)
    [sample_entry "a" double_0_7 true; sample_entry "b" double_0_1 true;
     sample_entry "c" double_0_3 true] ∅.

(** *** The clipboard text in the spec's words

    After the heading come a line for each metric that is not empty and a
    block for each free text that is not empty; an empty field has no line.
    A field is listed with what is written before and after its value. *)
Definition metric_fields : list (string * string * string) :=
  [ ("mood", "Mood: ", ""); ("sleepHrs", "Sleep: ", " hrs");
    ("difficulty", "Difficulty: ", ""); ("liked", "Enjoyed: ", "") ].

Definition free_text_fields : list (string * string * string) :=
  [ ("challengeText", NL ++ "Challenge:" ++ NL, "");
    ("answerText", NL ++ "Answers / Notes:" ++ NL, "");
    ("insightText", NL ++ "Insights:" ++ NL, "") ].

(** [sleepHrs] is empty when it is the empty string, another field when it
    is falsy: the empty string, or missing. *)
Definition field_shown (k : string) (v : value) : bool :=
  if String.eqb k "sleepHrs"
  then match v with Some (JStr "") => false | _ => true end
  else truthy v.

Definition field_lines `{Host} (fields : list (string * string * string)) (e : obj)
    : list string :=
  flat_map (fun '(k, before, after) =>
              if field_shown k (e !! k) then [before ++ ToString (e !! k) ++ after]
              else []) fields.

Definition heading_lines `{Host} (e : obj) (cats : list json) : list string :=
  (filter_Boolean [ToString (e !! "title"); ToString (e !! "time")]
   ++ [ ("Rolled: " ++ Array_join cats ", ")%string;
        ("Completed: " ++ (if truthy (e !! "completed") then "Yes" else "No"))%string;
        ("XP: " ++ NumberToString (earned e) ++ " / "
                ++ NumberToString (Number_or_0 (e !! "xpPotential")))%string ])%list.

(** The array that the text lists as categories, if there is one, and the
    properties whose values it shows.  The text is made where [join],
    [String] and [Number] convert all of these. *)
Definition listed_categories (e : obj) : option (list json) :=
  match or_else (e !! "categories") (JArr []) with
  | JArr l => Some l
  | _ => None
  end.

Definition clipboard_reads : list string :=
  [ "title"; "time"; "xpPotential"; "mood"; "sleepHrs"; "difficulty"; "liked";
    "challengeText"; "answerText"; "insightText" ].

Definition renders (e : obj) : bool :=
  match listed_categories e with
  | Some l => forallb stringable l && forallb (fun k => converts (e !! k)) clipboard_reads
  | None => false
  end.

(** What [filter(Boolean)] keeps of one string. *)
Definition kept_line (s : string) : list string :=
  if String.eqb s "" then [] else [s].

(** Every value of the entry is one that [String] and [Number] convert. *)
Definition printable (e : obj) : Prop :=
  map_Forall (fun _ v => stringable v = true) e.

(** An entry that the Copy button can render. *)
Definition copyable (e : obj) : Prop := printable e /\ categories_listed e.

(** A stored entry whose title is an object with an own [toString]. *)
Definition hidden_title_entry : obj :=
  <["title" := JObj {[ "toString" := JNum (Fin 1) ]}]> (sample_entry "a" 10 false).

Ltac key_ne := apply String.eqb_neq; vm_compute; reflexivity.

(** * Properties *)

(** ** The result monad, the defaults and the host on examples *)

Lemma bind_Ok {A B} (a : A) (f : A -> result B) : mbind f (Ok a) = f a.
Proof. reflexivity. Qed.

Lemma get_prop_total v k : v <> JNull -> exists x, get_prop v k = Ok x.
Proof. destruct v; simpl; eauto; congruence. Qed.

Lemma clone_DEFAULT_STATE :
  structuredCloneSafe (JObj DEFAULT_STATE) = JObj DEFAULT_STATE.
Proof. vm_compute. reflexivity. Qed.

Lemma clone_DEFAULT_baselines :
  structuredCloneSafe (JObj DEFAULT_baselines) = JObj DEFAULT_baselines.
Proof. vm_compute. reflexivity. Qed.

Lemma clone_DEFAULT_notes :
  structuredCloneSafe (JObj DEFAULT_notes) = JObj DEFAULT_notes.
Proof. vm_compute. reflexivity. Qed.

Example decimal_host_ex :
  StringToNumber "7.5" = Fin 7.5 /\ NumberToString (Fin 8.5) = "8.5"
  /\ NumberToString (Fin 10) = "10" /\ toFixed1 (Fin 8.25) = "8.3"
  /\ StringToNumber "abc" = NaN /\ StringToNumber "-3" = Fin (-3).
Proof. vm_compute. repeat split; reflexivity. Qed.

(** ** Loading: what [loadState] returns *)

Lemma merge_defaults_assemble parsed pb pn pl :
  get_prop parsed "baselines" = Ok pb ->
  get_prop parsed "notes" = Ok pn ->
  get_prop parsed "log" = Ok pl ->
  merge_defaults parsed = Ok (assemble (own_props (Some parsed)) pb pn (merged_log pl)).
Proof.
  intros Hb Hn Hl. unfold merge_defaults. rewrite Hb, Hn, Hl, !bind_Ok.
  rewrite clone_DEFAULT_STATE, clone_DEFAULT_baselines, clone_DEFAULT_notes.
  cbn [own_props]. unfold assemble, merged_part, merged_log.
  destruct pl as [[]|]; reflexivity.
Qed.

Lemma migrate_log_assemble P pb pn l :
  migrate_log (assemble P pb pn l) = Ok (assemble P pb pn (map migrate_entry l)).
Proof.
  unfold migrate_log, assemble. rewrite lookup_insert_eq.
  by rewrite insert_insert_eq.
Qed.

Lemma loadState_assemble parsed pb pn pl :
  get_prop parsed "baselines" = Ok pb ->
  get_prop parsed "notes" = Ok pn ->
  get_prop parsed "log" = Ok pl ->
  loadState (wellformed parsed) =
  Ok (JObj (assemble (own_props (Some parsed)) pb pn (map migrate_entry (merged_log pl)))).
Proof.
  intros Hb Hn Hl. unfold loadState. cbn [loadState_try].
  rewrite (merge_defaults_assemble _ _ _ _ Hb Hn Hl), bind_Ok.
  rewrite migrate_log_assemble, bind_Ok. reflexivity.
Qed.

Lemma loadState_caught raw e :
  loadState_try raw = Throw e -> loadState raw = Ok (JObj DEFAULT_STATE).
Proof.
  intros He. unfold loadState. rewrite He. unfold try_catch.
  by rewrite clone_DEFAULT_STATE.
Qed.

Lemma loadState_absent : loadState absent = Ok (JObj DEFAULT_STATE).
Proof. vm_compute. reflexivity. Qed.

Lemma loadState_malformed : loadState malformed = Ok (JObj DEFAULT_STATE).
Proof. vm_compute. reflexivity. Qed.

Lemma loadState_null : loadState (wellformed JNull) = Ok (JObj DEFAULT_STATE).
Proof. vm_compute. reflexivity. Qed.

(** Either the default state, or the object assembled from the blob. *)
Lemma loadState_cases raw :
  loadState raw = Ok (JObj DEFAULT_STATE)
  \/ exists P pb pn l,
       loadState raw = Ok (JObj (assemble P pb pn (map migrate_entry l)))
       /\ match raw with
          | wellformed parsed =>
              P = own_props (Some parsed) /\ get_prop parsed "baselines" = Ok pb
              /\ get_prop parsed "notes" = Ok pn
              /\ exists pl, get_prop parsed "log" = Ok pl /\ l = merged_log pl
          | _ => False
          end.
Proof.
  destruct raw as [| |parsed];
    [left; apply loadState_absent|left; apply loadState_malformed|].
  assert (parsed = JNull \/ parsed <> JNull) as [->|Hn]
    by (destruct parsed; (by left) || (by right)).
  { left. apply loadState_null. }
  right.
  destruct (get_prop_total parsed "baselines" Hn) as [pb Hb].
  destruct (get_prop_total parsed "notes" Hn) as [pn Hnn].
  destruct (get_prop_total parsed "log" Hn) as [pl Hl].
  exists (own_props (Some parsed)), pb, pn, (merged_log pl).
  split; [by apply loadState_assemble|]. eauto 10.
Qed.

Lemma loadState_returns raw : exists st, loadState raw = Ok (JObj st).
Proof.
  destruct (loadState_cases raw) as [Hd|(P & pb & pn & l & Hl & _)]; eauto.
Qed.

Lemma assemble_lookup_log P pb pn l : assemble P pb pn l !! "log" = Some (JArr l).
Proof. unfold assemble. apply lookup_insert_eq. Qed.

Lemma assemble_lookup_notes P pb pn l :
  assemble P pb pn l !! "notes" = Some (JObj (merged_part pn DEFAULT_notes)).
Proof. unfold assemble. rewrite lookup_insert_ne by key_ne. apply lookup_insert_eq. Qed.

Lemma assemble_lookup_baselines P pb pn l :
  assemble P pb pn l !! "baselines" = Some (JObj (merged_part pb DEFAULT_baselines)).
Proof.
  unfold assemble. rewrite !lookup_insert_ne by key_ne. apply lookup_insert_eq.
Qed.

Lemma assemble_lookup_other P pb pn l k :
  k <> "log" -> k <> "notes" -> k <> "baselines" ->
  assemble P pb pn l !! k = (P ∪ DEFAULT_STATE) !! k.
Proof. intros. unfold assemble. by rewrite !lookup_insert_ne. Qed.

Lemma union_lookup (m d : obj) k :
  (m ∪ d) !! k = match m !! k with Some v => Some v | None => d !! k end.
Proof. rewrite lookup_union. by destruct (m !! k), (d !! k). Qed.

(** C3: [loadState] never throws, whatever the stored input: it always
    returns a state object; for an absent input, a text that does not parse,
    and the blob [null] that state is the default state, with the default
    baselines and notes, the empty log and the default focus label. *)
Theorem loadState_never_throws :
  (forall raw, exists st, loadState raw = Ok (JObj st))
  /\ loadState absent = Ok (JObj DEFAULT_STATE)
  /\ loadState malformed = Ok (JObj DEFAULT_STATE)
  /\ loadState (wellformed JNull) = Ok (JObj DEFAULT_STATE)
  /\ (forall raw e, loadState_try raw = Throw e -> loadState raw = Ok (JObj DEFAULT_STATE))
  /\ DEFAULT_STATE !! "baselines" = Some (JObj DEFAULT_baselines)
  /\ DEFAULT_STATE !! "notes" = Some (JObj DEFAULT_notes)
  /\ DEFAULT_STATE !! "log" = Some (JArr [])
  /\ DEFAULT_STATE !! "todayFocus" = Some (JStr NO_FOCUS).
Proof.
  split; [exact loadState_returns|].
  split; [exact loadState_absent|].
  split; [exact loadState_malformed|].
  split; [exact loadState_null|].
  split; [exact loadState_caught|].
  repeat split; vm_compute; reflexivity.
Qed.

(** C5: for a blob that parses to an object [p], the object [st] that
    [loadState] builds before it migrates the entries has every field that
    [p] lacks from the defaults and every other field of [p] as it is; its
    [baselines] and [notes] hold the keys of [p]'s, and the default keys that
    [p]'s lack; its [log] is [p]'s exactly when that is an array, and empty
    otherwise.  [loadState] returns [st] with the entries of [log] migrated. *)
Theorem loadState_merges_defaults (p : obj) :
  exists st l,
    merge_defaults (JObj p) = Ok st
    /\ st !! "log" = Some (JArr l)
    /\ loadState (wellformed (JObj p))
       = Ok (JObj (<["log" := JArr (map migrate_entry l)]> st))
    /\ (forall k, p !! k = None -> st !! k = DEFAULT_STATE !! k)
    /\ (forall k, k <> "baselines" -> k <> "notes" -> k <> "log" ->
          is_Some (p !! k) -> st !! k = p !! k)
    /\ (forall b, p !! "baselines" = Some (JObj b) ->
          exists b', st !! "baselines" = Some (JObj b')
            /\ forall k, b' !! k = match b !! k with
                                   | Some v => Some v
                                   | None => DEFAULT_baselines !! k
                                   end)
    /\ (forall n, p !! "notes" = Some (JObj n) ->
          exists n', st !! "notes" = Some (JObj n')
            /\ forall k, n' !! k = match n !! k with
                                   | Some v => Some v
                                   | None => DEFAULT_notes !! k
                                   end)
    /\ (st !! "log" = p !! "log" <-> exists l0, p !! "log" = Some (JArr l0))
    /\ ((forall l0, p !! "log" <> Some (JArr l0)) -> st !! "log" = Some (JArr [])).
Proof.
  pose proof (merge_defaults_assemble (JObj p) _ _ _ eq_refl eq_refl eq_refl) as Hm.
  pose proof (loadState_assemble (JObj p) _ _ _ eq_refl eq_refl eq_refl) as Hl.
  cbn [own_props] in Hm, Hl.
  eexists _, _. split; [exact Hm|]. split; [apply assemble_lookup_log|].
  split. { rewrite Hl. unfold assemble. by rewrite insert_insert_eq. }
  split; [|split; [|split; [|split; [|split]]]].
  - intros k Hk.
    destruct (decide (k = "log")) as [->|Hlog].
    { rewrite assemble_lookup_log, Hk. vm_compute. reflexivity. }
    destruct (decide (k = "notes")) as [->|Hnotes].
    { rewrite assemble_lookup_notes, Hk. unfold merged_part. cbn [or_else own_props].
      rewrite (left_id_L ∅ (∪)). vm_compute. reflexivity. }
    destruct (decide (k = "baselines")) as [->|Hbase].
    { rewrite assemble_lookup_baselines, Hk. unfold merged_part. cbn [or_else own_props].
      rewrite (left_id_L ∅ (∪)). vm_compute. reflexivity. }
    rewrite assemble_lookup_other by done. by rewrite union_lookup, Hk.
  - intros k Hb Hn Hlg [v Hv]. rewrite assemble_lookup_other by done.
    by rewrite union_lookup, Hv.
  - intros b Hb. eexists. split; [apply assemble_lookup_baselines|].
    intros k. rewrite Hb. unfold merged_part. cbn [or_else truthy own_props].
    apply union_lookup.
  - intros n Hn. eexists. split; [apply assemble_lookup_notes|].
    intros k. rewrite Hn. unfold merged_part. cbn [or_else truthy own_props].
    apply union_lookup.
  - rewrite assemble_lookup_log. split.
    + intros <-. eauto.
    + intros [l0 Hl0]. by rewrite Hl0.
  - intros Hno. rewrite assemble_lookup_log. f_equal.
    destruct (p !! "log") as [[| | | |l0|]|] eqn:E; try reflexivity.
    by destruct (Hno l0).
Qed.

Example loadState_partial_blob_ex :
  (st ← loadState (wellformed partial_blob);
   mret (nested_field "baselines" "Quick Math" st, nested_field "baselines" "Chess" st,
         nested_field "baselines" "Vocabulary" st,
         nested_field "notes" "Working Memory" st,
         get_prop st "todayFocus", get_prop st "log"))
  = Ok (Some (JNum (Fin 9)), Some (JNum (Fin 3)), Some (JNum (Fin 8)),
        Some (JStr "Strong filter under interference."),
        Ok (Some (JStr "Vocabulary")), Ok (Some (JArr []))).
Proof. vm_compute. reflexivity. Qed.

(** ** Entry migration, one statement and one lookup at a time *)

Lemma default_empty_ne k k' (out : obj) :
  k <> k' -> default_empty k out !! k' = out !! k'.
Proof.
  intros Hne. unfold default_empty.
  destruct (out !! k) as [[]|]; try reflexivity; by rewrite lookup_insert_ne.
Qed.

Lemma default_empty_eq k (out : obj) :
  default_empty k out !! k = if nullish (out !! k) then Some (JStr "") else out !! k.
Proof.
  unfold default_empty.
  destruct (out !! k) as [[]|] eqn:E; rewrite ?lookup_insert_eq, ?E; done.
Qed.

Lemma default_empty_keep k k' (out : obj) :
  nullish (out !! k') = false -> default_empty k out !! k' = out !! k'.
Proof.
  intros Hv. destruct (decide (k = k')) as [->|Hne].
  - by rewrite default_empty_eq, Hv.
  - by apply default_empty_ne.
Qed.

Lemma default_empty_id k (out : obj) :
  nullish (out !! k) = false -> default_empty k out = out.
Proof. unfold default_empty. by destruct (out !! k) as [[]|]. Qed.

Lemma default_empty_filled k (out : obj) :
  nullish (default_empty k out !! k) = false.
Proof. rewrite default_empty_eq. by destruct (nullish (out !! k)) eqn:E. Qed.

Lemma copy_legacy_xp_ne k (out : obj) :
  k <> "xpPotential" -> copy_legacy_xp out !! k = out !! k.
Proof.
  intros Hne. unfold copy_legacy_xp.
  destruct (out !! "xpPotential") as [[]|]; destruct (out !! "xp") as [[]|];
    try reflexivity; by rewrite lookup_insert_ne.
Qed.

Lemma copy_legacy_xp_eq (out : obj) :
  copy_legacy_xp out !! "xpPotential" =
  match out !! "xpPotential", out !! "xp" with
  | Some (JNum n), _ => Some (JNum n)
  | _, Some (JNum xp) => Some (JNum xp)
  | v, _ => v
  end.
Proof.
  unfold copy_legacy_xp.
  destruct (out !! "xpPotential") as [[]|] eqn:E1; destruct (out !! "xp") as [[]|];
    rewrite ?lookup_insert_eq, ?E1; reflexivity.
Qed.

Lemma default_completed_ne k (out : obj) :
  k <> "completed" -> default_completed out !! k = out !! k.
Proof.
  intros Hne. unfold default_completed.
  destruct (out !! "completed") as [[]|]; try reflexivity; by rewrite lookup_insert_ne.
Qed.

Lemma default_completed_eq (out : obj) :
  default_completed out !! "completed" =
  match out !! "completed" with
  | Some (JBool b) => Some (JBool b)
  | _ => Some (JBool true)
  end.
Proof.
  unfold default_completed.
  destruct (out !! "completed") as [[]|] eqn:E; rewrite ?lookup_insert_eq, ?E; reflexivity.
Qed.

Lemma coerce_xpPotential_ne k (out : obj) :
  k <> "xpPotential" -> coerce_xpPotential out !! k = out !! k.
Proof.
  intros Hne. unfold coerce_xpPotential.
  destruct (out !! "xpPotential") as [[]|]; by rewrite lookup_insert_ne.
Qed.

Lemma coerce_xpPotential_eq (out : obj) :
  coerce_xpPotential out !! "xpPotential" =
  match out !! "xpPotential" with
  | Some (JNum n) => Some (JNum n)
  | _ => Some (JNum (Fin 0))
  end.
Proof.
  unfold coerce_xpPotential.
  destruct (out !! "xpPotential") as [[]|]; by rewrite lookup_insert_eq.
Qed.

Lemma migrate_entry_unfold e :
  migrate_entry e =
  JObj (fill_text_fields (coerce_xpPotential (delete "xp"
         (default_completed (copy_legacy_xp (own_props (Some e))))))).
Proof. unfold migrate_entry, fill_text_fields, text_fields. cbn [foldl]. reflexivity. Qed.

Lemma migrate_entry_is_obj e : exists out, migrate_entry e = JObj out.
Proof. rewrite migrate_entry_unfold. eauto. Qed.

Lemma fill_keep ks k (out : obj) :
  nullish (out !! k) = false -> foldl (fun o k => default_empty k o) out ks !! k = out !! k.
Proof.
  revert out. induction ks as [|k' ks IH]; intros out Hv; [done|].
  simpl. rewrite IH; rewrite default_empty_keep; done.
Qed.

Lemma fill_ne ks k (out : obj) :
  k ∉ ks -> foldl (fun o k => default_empty k o) out ks !! k = out !! k.
Proof.
  revert out. induction ks as [|k' ks IH]; intros out Hk; [done|].
  apply not_elem_of_cons in Hk as [Hne Hk].
  simpl. rewrite IH by done. by apply default_empty_ne.
Qed.

Lemma fill_filled ks k (out : obj) :
  k ∈ ks -> nullish (foldl (fun o k => default_empty k o) out ks !! k) = false.
Proof.
  revert out. induction ks as [|k' ks IH]; intros out Hk; [by apply elem_of_nil in Hk|].
  simpl. destruct (decide (k ∈ ks)) as [Hin|Hnin]; [by apply IH|].
  apply elem_of_cons in Hk as [->|]; [|done].
  rewrite fill_ne by done. apply default_empty_filled.
Qed.

Lemma fill_id ks (out : obj) :
  (forall k, k ∈ ks -> nullish (out !! k) = false) ->
  foldl (fun o k => default_empty k o) out ks = out.
Proof.
  induction ks as [|k' ks IH]; intros Hk; [done|].
  simpl. rewrite default_empty_id by (apply Hk; left). apply IH.
  intros k Hin. apply Hk. by right.
Qed.

Lemma xp_not_text_field : "xp" ∉ text_fields.
Proof.
  intros Hin. apply list_elem_of_In in Hin.
  assert (Hb : forallb (fun f => negb (String.eqb f "xp")) text_fields = true)
    by (vm_compute; reflexivity).
  rewrite forallb_forall in Hb. specialize (Hb _ Hin). by rewrite String.eqb_refl in Hb.
Qed.

Lemma migrate_entry_lookups e :
  exists out,
    migrate_entry e = JObj out
    /\ out !! "xp" = None
    /\ out !! "xpPotential" = Some (migrated_xpPotential (own_props (Some e)))
    /\ out !! "completed" = Some (migrated_completed (own_props (Some e)))
    /\ forall k, k ∈ text_fields -> nullish (out !! k) = false.
Proof.
  rewrite migrate_entry_unfold. eexists. split; [reflexivity|].
  set (props := own_props (Some e)). unfold fill_text_fields.
  repeat split.
  - rewrite (fill_ne _ _ _ xp_not_text_field).
    rewrite coerce_xpPotential_ne by key_ne. apply lookup_delete_eq.
  - assert (Hx : coerce_xpPotential (delete "xp" (default_completed (copy_legacy_xp props)))
                   !! "xpPotential" = Some (migrated_xpPotential props)).
    { rewrite coerce_xpPotential_eq, lookup_delete_ne by key_ne.
      rewrite default_completed_ne by key_ne. rewrite copy_legacy_xp_eq.
      unfold migrated_xpPotential.
      destruct (props !! "xpPotential") as [[]|]; destruct (props !! "xp") as [[]|];
        reflexivity. }
    rewrite fill_keep; rewrite Hx; [done|]. unfold migrated_xpPotential.
    destruct (props !! "xpPotential") as [[]|]; destruct (props !! "xp") as [[]|];
      reflexivity.
  - assert (Hc : coerce_xpPotential (delete "xp" (default_completed (copy_legacy_xp props)))
                   !! "completed" = Some (migrated_completed props)).
    { rewrite coerce_xpPotential_ne, lookup_delete_ne by key_ne.
      rewrite default_completed_eq. rewrite copy_legacy_xp_ne by key_ne.
      unfold migrated_completed. destruct (props !! "completed") as [[]|]; reflexivity. }
    rewrite fill_keep; rewrite Hc; [done|]. unfold migrated_completed.
    destruct (props !! "completed") as [[]|]; reflexivity.
  - intros k Hk. by apply fill_filled.
Qed.

Lemma migrate_entry_normal e out : migrate_entry e = JObj out -> entry_normal out.
Proof.
  destruct (migrate_entry_lookups e) as (out' & -> & Hxp & Hpot & Hc & Htxt).
  intros [= <-]. set (props := own_props (Some e)) in *.
  split; [|split; [|split]]; [| |exact Hxp|exact Htxt].
  - rewrite Hpot. unfold migrated_xpPotential.
    destruct (props !! "xpPotential") as [[]|]; destruct (props !! "xp") as [[]|];
      eexists; reflexivity.
  - rewrite Hc. unfold migrated_completed.
    destruct (props !! "completed") as [[]|]; eexists; reflexivity.
Qed.

Lemma migrate_entry_fixed out : entry_normal out -> migrate_entry (JObj out) = JObj out.
Proof.
  intros ([n Hn] & [b Hb] & Hxp & Htxt).
  rewrite migrate_entry_unfold. cbn [own_props].
  assert (copy_legacy_xp out = out) as -> by (unfold copy_legacy_xp; by rewrite Hn).
  assert (default_completed out = out) as -> by (unfold default_completed; by rewrite Hb).
  rewrite (delete_id _ _ Hxp).
  assert (coerce_xpPotential out = out) as ->.
  { unfold coerce_xpPotential. rewrite Hn. by apply insert_id. }
  unfold fill_text_fields. by rewrite fill_id.
Qed.

Lemma migrate_entry_idempotent e : migrate_entry (migrate_entry e) = migrate_entry e.
Proof.
  destruct (migrate_entry_is_obj e) as [out Hout].
  rewrite Hout. apply migrate_entry_fixed. by eapply migrate_entry_normal.
Qed.

Lemma migrate_entry_legacy e :
  exists out, migrate_entry e = JObj out /\ legacy_migrated e out.
Proof.
  destruct (migrate_entry_lookups e) as (out & Hout & Hxp & Hpot & Hc & _).
  exists out. split; [done|]. unfold legacy_migrated.
  set (props := own_props (Some e)) in *.
  unfold migrated_xpPotential in Hpot. unfold migrated_completed in Hc.
  split; [done|].
  split. { intros b Hb. by rewrite Hc, Hb. }
  split.
  { intros Hnb. rewrite Hc. destruct (props !! "completed") as [[|b| | | |]|]; try done.
    by destruct (Hnb b). }
  split. { intros n Hn. by rewrite Hpot, Hn. }
  split.
  { intros xp H1 E2. rewrite Hpot, E2.
    destruct (props !! "xpPotential") as [[| |n| | |]|]; try done. by destruct (H1 n). }
  split.
  { intros H1 H2. rewrite Hpot.
    destruct (props !! "xpPotential") as [[| |n| | |]|]; try (by destruct (H1 n));
      destruct (props !! "xp") as [[| |n'| | |]|]; try (by destruct (H2 n')); done. }
  intros E1 E2 E3. by rewrite Hpot, Hc, E1, E2, E3.
Qed.

Lemma migrate_entries_legacy l :
  exists outs, map migrate_entry l = JObj <$> outs /\ Forall2 legacy_migrated l outs.
Proof.
  induction l as [|e l (outs & Hmap & Hall)]; [by exists []|].
  destruct (migrate_entry_legacy e) as (out & Hout & Hleg).
  exists (out :: outs). split; [cbn; by rewrite Hout, Hmap|]. by constructor.
Qed.

(** C2: when the stored blob has an array [l] as its [log], the log of the
    loaded state has, for each entry of [l] in order, an object without
    [xp], whose [completed] is the stored boolean, [true] where there was
    none, and whose [xpPotential] is the stored number where there was one,
    else a numeric legacy [xp], also where an [xpPotential] that is not a
    number was stored, else 0; so an entry with [xp = 12] and neither of the
    other fields ends with [xpPotential = 12], [completed = true] and no
    [xp]. *)
Theorem loadState_migrates_entries (parsed : json) (l : list json) :
  get_prop parsed "log" = Ok (Some (JArr l)) ->
  exists st outs,
    loadState (wellformed parsed) = Ok (JObj st)
    /\ st !! "log" = Some (JArr (JObj <$> outs))
    /\ Forall2 legacy_migrated l outs.
Proof.
  intros Hlog.
  assert (Hn : parsed <> JNull) by (intros ->; discriminate).
  destruct (get_prop_total parsed "baselines" Hn) as [pb Hb].
  destruct (get_prop_total parsed "notes" Hn) as [pn Hnn].
  destruct (migrate_entries_legacy l) as (outs & Hmap & Hall).
  eexists _, outs. split; [by eapply loadState_assemble|].
  split; [|done]. rewrite assemble_lookup_log. cbn [merged_log]. by rewrite Hmap.
Qed.

Lemma loadState_migrates_entries_witness :
  get_prop legacy_blob "log" = Ok (Some (JArr [JObj {[ "xp" := JNum (Fin 12) ]}]))
  /\ exists st outs,
       loadState (wellformed legacy_blob) = Ok (JObj st)
       /\ st !! "log" = Some (JArr (JObj <$> outs))
       /\ Forall2 legacy_migrated [JObj {[ "xp" := JNum (Fin 12) ]}] outs.
Proof.
  split; [vm_compute; reflexivity|].
  apply loadState_migrates_entries. vm_compute. reflexivity.
Defined.

(** C2 fails as stated: the entry [{"xp": 4, "xpPotential": "7"}] has an
    [xpPotential], so the spec's words copy nothing and turn the text into
    0; [loadState] copies the 4. *)
Lemma loadState_copies_xp_over_text :
  (st ← loadState (wellformed text_xp_blob);
   mret (log_field 0 "xpPotential" st)) = Ok (Some (JNum (Fin 4)))
  /\ ~ exists st out,
         loadState (wellformed text_xp_blob) = Ok (JObj st)
         /\ st !! "log" = Some (JArr [JObj out])
         /\ spec_legacy_migrated text_xp_entry out.
Proof.
  assert (H1 : (st ← loadState (wellformed text_xp_blob);
                mret (log_field 0 "xpPotential" st)) = Ok (Some (JNum (Fin 4))))
    by (vm_compute; reflexivity).
  split; [exact H1|].
  intros (st & out & Hst & Hlog & Hspec).
  rewrite Hst, bind_Ok in H1. unfold mret, result_ret, log_field in H1.
  rewrite Hlog in H1. cbn [lookup list_lookup] in H1.
  destruct Hspec as (_ & _ & _ & _ & Hzero).
  assert (Hp : own_props (Some text_xp_entry) !! "xpPotential" = Some (JStr "7"))
    by (vm_compute; reflexivity).
  specialize (Hzero _ Hp ltac:(discriminate)).
  rewrite Hzero in H1. discriminate.
Qed.

Example loadState_legacy_entry_ex :
  (st ← loadState (wellformed legacy_blob);
   mret (log_field 0 "xpPotential" st, log_field 0 "completed" st, log_field 0 "xp" st))
  = Ok (Some (JNum (Fin 12)), Some (JBool true), None).
Proof. vm_compute. reflexivity. Qed.

(** ** Loading a loaded state *)

Lemma union_absorb (X D : obj) : (X ∪ D) ∪ D = X ∪ D.
Proof. by rewrite <-(assoc_L (∪)), (idemp_L (∪)). Qed.

Lemma merged_part_fixed pv dflt :
  merged_part (Some (JObj (merged_part pv dflt))) dflt = merged_part pv dflt.
Proof. unfold merged_part at 1. cbn [or_else truthy own_props]. apply union_absorb. Qed.

Lemma assemble_absorbs_defaults P pb pn l :
  assemble P pb pn l ∪ DEFAULT_STATE = assemble P pb pn l.
Proof.
  apply map_eq. intros k. rewrite lookup_union.
  destruct (assemble P pb pn l !! k) as [v|] eqn:Ev; [by destruct (DEFAULT_STATE !! k)|].
  destruct (DEFAULT_STATE !! k) as [d|] eqn:Ed; [|done]. exfalso.
  destruct (decide (k = "log")) as [->|Hl]; [by rewrite assemble_lookup_log in Ev|].
  destruct (decide (k = "notes")) as [->|Hn]; [by rewrite assemble_lookup_notes in Ev|].
  destruct (decide (k = "baselines")) as [->|Hb];
    [by rewrite assemble_lookup_baselines in Ev|].
  rewrite assemble_lookup_other in Ev by done.
  apply lookup_union_None in Ev as [_ Ev]. congruence.
Qed.

(** [normalize(normalize(x)) == normalize(x)]: loading a state that
    [loadState] has returned, as it is in memory, gives that state again. *)
Lemma loadState_fixed raw st :
  loadState raw = Ok st -> loadState (wellformed st) = Ok st.
Proof.
  intros Hst.
  destruct (loadState_cases raw) as [Hd|(P & pb & pn & l & Hl & _)];
    rewrite Hst in *.
  - injection Hd as ->. vm_compute. reflexivity.
  - injection Hl as ->.
    rewrite (loadState_assemble _ _ _ _ (eq_refl : get_prop (JObj _) "baselines" = Ok _)
               eq_refl eq_refl).
    cbn [own_props].
    rewrite assemble_lookup_baselines, assemble_lookup_notes, assemble_lookup_log.
    cbn [merged_log]. do 2 f_equal.
    rewrite map_map, (map_ext _ _ migrate_entry_idempotent).
    unfold assemble at 1. rewrite !merged_part_fixed, assemble_absorbs_defaults.
    rewrite (insert_id (assemble _ _ _ _) "baselines") by apply assemble_lookup_baselines.
    rewrite (insert_id (assemble _ _ _ _) "notes") by apply assemble_lookup_notes.
    apply insert_id, assemble_lookup_log.
Qed.

(** ** What a save keeps: values without [NaN] and infinities *)

Lemma json_ind' (P : json -> Prop) :
  P JNull -> (forall b, P (JBool b)) -> (forall n, P (JNum n)) -> (forall s, P (JStr s)) ->
  (forall l, Forall P l -> P (JArr l)) ->
  (forall m, map_Forall (fun _ => P) m -> P (JObj m)) ->
  forall v, P v.
Proof.
  intros Hnull Hbool Hnum Hstr Harr Hobj v.
  remember (json_size v) as n eqn:Hn. revert v Hn.
  induction (lt_wf n) as [n _ IH]; intros v ->.
  destruct v as [| | | |l|m]; auto.
  - apply Harr. cbn [json_size] in IH. induction l as [|x l IHl]; constructor.
    + apply (IH (json_size x)); [cbn [foldr]; lia|done].
    + apply IHl. intros k Hk. apply IH. cbn [foldr]. lia.
  - apply Hobj. cbn [json_size] in IH.
    induction m as [|k x m Hk Hfold IHm] using map_first_key_ind.
    + apply map_Forall_empty.
    + apply map_Forall_insert; [done|]. split.
      * apply (IH (json_size x)); [|done]. rewrite map_fold_insert_first_key by done. lia.
      * apply IHm. intros y Hy. apply IH. rewrite map_fold_insert_first_key by done. lia.
Qed.

Lemma json_finite_obj m : json_finite (JObj m) = true <-> obj_finite m.
Proof.
  cbn [json_finite]. unfold obj_finite.
  induction m as [|k x m Hk Hfold IHm] using map_first_key_ind.
  - rewrite map_fold_empty. split; [intros _; apply map_Forall_empty|done].
  - rewrite map_fold_insert_first_key by done.
    rewrite andb_true_iff, map_Forall_insert by done. by rewrite IHm.
Qed.

Lemma json_finite_arr l :
  json_finite (JArr l) = true <-> Forall (fun v => json_finite v = true) l.
Proof. cbn [json_finite]. rewrite forallb_forall, List.Forall_forall. reflexivity. Qed.

Lemma clone_finite v : json_finite v = true -> structuredCloneSafe v = v.
Proof.
  induction v as [|b|n|s|l IH|m IH] using json_ind'; intros Hf; try reflexivity.
  - by destruct n.
  - cbn [structuredCloneSafe]. f_equal. apply json_finite_arr in Hf.
    induction IH as [|x l Hx _ IHl]; [done|]. inversion Hf; subst.
    cbn [map]. f_equal; auto.
  - cbn [structuredCloneSafe]. f_equal. apply json_finite_obj in Hf.
    apply map_eq. intros k. rewrite lookup_fmap.
    destruct (m !! k) as [v|] eqn:Ev; [|done]. cbn. f_equal.
    apply (IH _ _ Ev), (Hf _ _ Ev).
Qed.

Lemma obj_finite_insert k v (m : obj) :
  json_finite v = true -> obj_finite m -> obj_finite (<[k := v]> m).
Proof. intros. by apply map_Forall_insert_2. Qed.

Lemma obj_finite_delete k (m : obj) : obj_finite m -> obj_finite (delete k m).
Proof. intros. by apply map_Forall_delete. Qed.

Lemma obj_finite_union (m1 m2 : obj) :
  obj_finite m1 -> obj_finite m2 -> obj_finite (m1 ∪ m2).
Proof.
  intros H1 H2 k v Hk. apply lookup_union_Some_raw in Hk as [Hk|[_ Hk]]; eauto.
Qed.

Lemma indexed_elem l k v : indexed l !! k = Some v -> v ∈ l.
Proof.
  unfold indexed. intros Hk. apply elem_of_list_to_map_2 in Hk.
  apply elem_of_lookup_imap in Hk as (i & x & [= _ ->] & Hx).
  by eapply list_elem_of_lookup_2.
Qed.

Lemma obj_finite_indexed l :
  Forall (fun v => json_finite v = true) l -> obj_finite (indexed l).
Proof.
  intros Hl k v Hk. rewrite Forall_forall in Hl. apply Hl.
  by eapply indexed_elem.
Qed.

Lemma chars_finite s : Forall (fun v => json_finite v = true) (chars s).
Proof. unfold chars. apply Forall_fmap, Forall_forall. done. Qed.

Lemma obj_finite_own_props v : json_finite v = true -> obj_finite (own_props (Some v)).
Proof.
  intros Hv. destruct v; cbn [own_props]; try apply map_Forall_empty.
  - apply obj_finite_indexed, chars_finite.
  - by apply obj_finite_indexed, json_finite_arr.
  - by apply json_finite_obj.
Qed.

Lemma get_prop_finite v k x :
  json_finite v = true -> get_prop v k = Ok (Some x) -> json_finite x = true.
Proof.
  intros Hv. destruct v; cbn [get_prop]; try congruence.
  - destruct (String.eqb k "length"); intros [= Hx].
    + by rewrite <- Hx.
    + eapply obj_finite_indexed; [apply chars_finite|done].
  - destruct (String.eqb k "length"); intros [= Hx].
    + by rewrite <- Hx.
    + eapply obj_finite_indexed; [by apply json_finite_arr|done].
  - intros [= Hx]. apply json_finite_obj in Hv. exact (Hv _ _ Hx).
Qed.

Lemma DEFAULT_STATE_finite : obj_finite DEFAULT_STATE.
Proof. apply json_finite_obj. vm_compute. reflexivity. Qed.

Lemma DEFAULT_baselines_finite : obj_finite DEFAULT_baselines.
Proof. apply json_finite_obj. vm_compute. reflexivity. Qed.

Lemma DEFAULT_notes_finite : obj_finite DEFAULT_notes.
Proof. apply json_finite_obj. vm_compute. reflexivity. Qed.

Lemma default_empty_finite k (out : obj) : obj_finite out -> obj_finite (default_empty k out).
Proof.
  intros Ho. unfold default_empty.
  destruct (out !! k) as [[]|]; try done; by apply obj_finite_insert.
Qed.

Lemma copy_legacy_xp_finite (out : obj) : obj_finite out -> obj_finite (copy_legacy_xp out).
Proof.
  intros Ho. unfold copy_legacy_xp.
  destruct (out !! "xpPotential") as [[]|]; try done;
    destruct (out !! "xp") as [[]|] eqn:E; try done;
    (apply obj_finite_insert; [exact (Ho _ _ E)|done]).
Qed.

Lemma default_completed_finite (out : obj) :
  obj_finite out -> obj_finite (default_completed out).
Proof.
  intros Ho. unfold default_completed.
  destruct (out !! "completed") as [[]|]; try done; by apply obj_finite_insert.
Qed.

Lemma coerce_xpPotential_finite (out : obj) :
  obj_finite out -> obj_finite (coerce_xpPotential out).
Proof.
  intros Ho. unfold coerce_xpPotential.
  destruct (out !! "xpPotential") as [[]|] eqn:E;
    (apply obj_finite_insert; [first [exact (Ho _ _ E)|done]|done]).
Qed.

Lemma migrate_entry_finite e : json_finite e = true -> json_finite (migrate_entry e) = true.
Proof.
  intros He. rewrite migrate_entry_unfold. apply json_finite_obj.
  unfold fill_text_fields.
  assert (Hfill : forall ks o, obj_finite o ->
            obj_finite (foldl (fun o k => default_empty k o) o ks)).
  { induction ks as [|k ks IH]; intros o Ho; [done|]. cbn [foldl].
    by apply IH, default_empty_finite. }
  apply Hfill, coerce_xpPotential_finite, obj_finite_delete,
    default_completed_finite, copy_legacy_xp_finite, obj_finite_own_props, He.
Qed.

Lemma merged_part_finite pv dflt :
  (forall x, pv = Some x -> json_finite x = true) -> obj_finite dflt ->
  obj_finite (merged_part pv dflt).
Proof.
  intros Hpv Hd. unfold merged_part. apply obj_finite_union; [|done].
  apply obj_finite_own_props. unfold or_else.
  destruct pv as [x|]; [|done]. destruct (truthy (Some x)); [by apply Hpv|done].
Qed.

Lemma assemble_finite P pb pn l :
  obj_finite P ->
  (forall x, pb = Some x -> json_finite x = true) ->
  (forall x, pn = Some x -> json_finite x = true) ->
  Forall (fun v => json_finite v = true) l ->
  obj_finite (assemble P pb pn l).
Proof.
  intros HP Hb Hn Hl. unfold assemble.
  apply obj_finite_insert; [by apply json_finite_arr|].
  apply obj_finite_insert;
    [by apply json_finite_obj, merged_part_finite, DEFAULT_notes_finite|].
  apply obj_finite_insert;
    [by apply json_finite_obj, merged_part_finite, DEFAULT_baselines_finite|].
  apply obj_finite_union; [done|apply DEFAULT_STATE_finite].
Qed.

Lemma loadState_finite raw st :
  raw_finite raw = true -> loadState raw = Ok st -> json_finite st = true.
Proof.
  intros Hraw Hst.
  destruct (loadState_cases raw) as [Hd|(P & pb & pn & l & Hl & Hparts)];
    rewrite Hst in *.
  - injection Hd as ->. apply json_finite_obj, DEFAULT_STATE_finite.
  - injection Hl as ->. destruct raw as [| |parsed]; try done.
    destruct Hparts as (-> & Hb & Hn & pl & Hpl & ->). cbn [raw_finite] in Hraw.
    apply json_finite_obj, assemble_finite.
    + by apply obj_finite_own_props.
    + intros x ->. by eapply get_prop_finite.
    + intros x ->. by eapply get_prop_finite.
    + apply Forall_fmap, Forall_forall. intros e He. cbn.
      apply migrate_entry_finite.
      destruct pl as [[| | | |l|]|]; cbn [merged_log] in He;
        try (by apply elem_of_nil in He).
      apply (get_prop_finite _ _ _ Hraw) in Hpl.
      apply json_finite_arr in Hpl. rewrite Forall_forall in Hpl. by apply Hpl.
Qed.

(** C1, as amended: for every stored input in which every number is finite,
    loading, saving and loading again gives the state that loading gave: no
    field of the state or of a log entry changes over load/save cycles. *)
Theorem loadState_idempotent_on_finite raw :
  raw_finite raw = true ->
  exists st, loadState raw = Ok st /\ reloadState st = Ok st.
Proof.
  intros Hraw. destruct (loadState_returns raw) as [st Hst].
  exists (JObj st). split; [done|]. unfold reloadState.
  rewrite (clone_finite _ (loadState_finite _ _ Hraw Hst)).
  by eapply loadState_fixed.
Qed.

Lemma loadState_idempotent_on_finite_witness :
  raw_finite (wellformed legacy_blob) = true
  /\ exists st, loadState (wellformed legacy_blob) = Ok st /\ reloadState st = Ok st.
Proof.
  split; [vm_compute; reflexivity|].
  apply loadState_idempotent_on_finite. vm_compute. reflexivity.
Defined.

(** C1 fails as stated: an [xpPotential] that the stored text writes as
    [1e999] loads as [Infinity], is saved as [null], and loads the next time
    as 0; no state is returned by both loads. *)
Lemma loadState_overflow_drifts :
  (st ← loadState (wellformed overflow_blob);
   mret (log_field 0 "xpPotential" st)) = Ok (Some (JNum PInf))
  /\ (st ← loadState (wellformed overflow_blob);
      st' ← reloadState st;
      mret (log_field 0 "xpPotential" st')) = Ok (Some (JNum (Fin 0)))
  /\ ~ exists st, loadState (wellformed overflow_blob) = Ok st /\ reloadState st = Ok st.
Proof.
  assert (H1 : (st ← loadState (wellformed overflow_blob);
                mret (log_field 0 "xpPotential" st)) = Ok (Some (JNum PInf)))
    by (vm_compute; reflexivity).
  assert (H2 : (st ← loadState (wellformed overflow_blob);
                st' ← reloadState st;
                mret (log_field 0 "xpPotential" st')) = Ok (Some (JNum (Fin 0))))
    by (vm_compute; reflexivity).
  split; [exact H1|]. split; [exact H2|].
  intros (st & Hst & Hre). rewrite Hst, bind_Ok in H1, H2.
  rewrite Hre, bind_Ok in H2. unfold mret, result_ret in H1, H2. congruence.
Qed.

Example loadState_default_idempotent_ex :
  loadState (wellformed (JObj DEFAULT_STATE)) = Ok (JObj DEFAULT_STATE)
  /\ reloadState (JObj DEFAULT_STATE) = Ok (JObj DEFAULT_STATE).
Proof. split; vm_compute; reflexivity. Qed.

(** ** The random category draw *)

Section Draw.
Context {A : Type}.
Variable rnd : nat -> Q.
Hypothesis rnd_range : forall c, (0 <= rnd c /\ rnd c < 1)%Q.

Lemma random_index_lt c (n : nat) :
  (0 < n)%nat ->
  (Z.to_nat (Qfloor (rnd c * inject_Z (Z.of_nat n))) < n)%nat.
Proof using rnd_range.
  intros Hn. destruct (rnd_range c) as [H0 H1].
  assert (Hpos : (0 < inject_Z (Z.of_nat n))%Q).
  { change 0%Q with (inject_Z 0). rewrite <- Zlt_Qlt. lia. }
  assert (Hlo : (0 <= Qfloor (rnd c * inject_Z (Z.of_nat n)))%Z).
  { rewrite <- (Qfloor_Z 0). apply Qfloor_resp_le.
    change (inject_Z 0) with 0%Q. apply Qmult_le_0_compat; [done|].
    by apply Qlt_le_weak. }
  assert (Hhi : (Qfloor (rnd c * inject_Z (Z.of_nat n)) < Z.of_nat n)%Z).
  { rewrite Zlt_Qlt. eapply Qle_lt_trans; [apply Qfloor_le|].
    rewrite <- (Qmult_1_l (inject_Z (Z.of_nat n))) at 2.
    by apply Qmult_lt_compat_r. }
  lia.
Qed.

(** The loop moves elements from [a] to [out], one per turn, for as many
    turns as are left and as [a] has elements. *)
Lemma pickRandom_loop_spec todo : forall calls (a : list A) out,
  exists picked rest,
    pickRandom_loop rnd calls todo a out = (out ++ (Some <$> picked))%list
    /\ a ≡ₚ (picked ++ rest)%list
    /\ length picked = Nat.min todo (length a).
Proof using rnd_range.
  induction todo as [|todo IH]; intros calls a out.
  - exists [], a. cbn. by rewrite app_nil_r.
  - destruct a as [|x a'].
    + exists [], []. cbn. by rewrite app_nil_r.
    + set (a := x :: a'). cbn [pickRandom_loop].
      set (i := Z.to_nat (Qfloor (rnd calls * inject_Z (Z.of_nat (length a))))).
      assert (Hi : (i < length a)%nat) by (apply random_index_lt; cbn; lia).
      destruct (lookup_lt_is_Some_2 a i Hi) as [y Hy].
      fold a. rewrite Hy.
      destruct (IH (S calls) (delete i a) (out ++ [Some y])%list)
        as (picked & rest & -> & Hp & Hl).
      exists (y :: picked), rest. split; [|split].
      * by rewrite <- app_assoc.
      * rewrite (delete_Permutation _ _ _ Hy). cbn. by rewrite Hp.
      * cbn [length]. rewrite Hl, length_delete by eauto.
        subst a. cbn [length]. lia.
Qed.

(** C8: with [Math.random()] in [[0, 1)], the draw of [k] from a list of [n]
    elements returns defined elements only, [min k n] of them: exactly [k]
    when [k <= n], and all [n] elements when [k > n].  They are elements of
    the list, each taken from its own position, so distinct when the
    elements of the list are. *)
Theorem pickRandom_draw (arr : list A) (k : nat) :
  exists picked rest,
    pickRandom rnd arr k = Some <$> picked
    /\ arr ≡ₚ (picked ++ rest)%list
    /\ length picked = Nat.min k (length arr)
    /\ ((k <= length arr)%nat -> length picked = k)
    /\ ((length arr < k)%nat -> picked ≡ₚ arr)
    /\ (forall x, x ∈ picked -> x ∈ arr)
    /\ (NoDup arr -> NoDup picked).
Proof using rnd_range.
  destruct (pickRandom_loop_spec k 0 arr []) as (picked & rest & Hr & Hp & Hl).
  exists picked, rest.
  split; [exact Hr|]. split; [exact Hp|]. split; [exact Hl|].
  split; [lia|]. split; [|split].
  - intros Hk. assert (rest = []) as ->.
    { apply Permutation_length in Hp. rewrite length_app in Hp.
      apply length_zero_iff_nil. lia. }
    by rewrite app_nil_r in Hp.
  - intros x Hx. rewrite Hp. apply elem_of_app. by left.
  - intros Hnd. rewrite Hp in Hnd. by apply NoDup_app in Hnd as [? _].
Qed.
End Draw.

Lemma pickRandom_draw_witness :
  (forall c : nat, (0 <= 1 # 2 /\ 1 # 2 < 1)%Q)
  /\ exists picked rest,
       pickRandom (fun _ => 1 # 2) ["Vocabulary"; "Quick Math"; "Visualization"] 2
         = Some <$> picked
       /\ ["Vocabulary"; "Quick Math"; "Visualization"] ≡ₚ (picked ++ rest)%list
       /\ length picked = Nat.min 2 3
       /\ ((2 <= 3)%nat -> length picked = 2%nat)
       /\ ((3 < 2)%nat -> picked ≡ₚ ["Vocabulary"; "Quick Math"; "Visualization"])
       /\ (forall x, x ∈ picked -> x ∈ ["Vocabulary"; "Quick Math"; "Visualization"])
       /\ (NoDup ["Vocabulary"; "Quick Math"; "Visualization"] -> NoDup picked).
Proof.
  split; [intros c; split; [discriminate|reflexivity]|].
  apply (pickRandom_draw (fun _ => 1 # 2)).
  intros c; split; [discriminate|reflexivity].
Defined.

Example pickRandom_ex :
  pickRandom (fun c => if Nat.eqb c 0 then 9 # 10 else 0%Q)
             ["Vocabulary"; "Quick Math"; "Visualization"] 2
    = [Some "Visualization"; Some "Vocabulary"]
  /\ pickRandom (fun _ => 1 # 2) ["Vocabulary"; "Quick Math"] 5
     = [Some "Quick Math"; Some "Vocabulary"].
Proof. split; vm_compute; reflexivity. Qed.

(** ** Earned XP *)

Lemma Qplus_comm_L (x y : Q) : (x + y = y + x)%Q.
Proof. unfold Qplus. f_equal; [ring|apply Pos.mul_comm]. Qed.

Lemma Qplus_assoc_L (x y z : Q) : (x + (y + z) = (x + y) + z)%Q.
Proof.
  destruct x, y, z. unfold Qplus. cbn. f_equal.
  - rewrite !Pos2Z.inj_mul. ring.
  - apply Pos.mul_assoc.
Qed.

Lemma Qplus_0_r_L (x : Q) : (x + 0 = x)%Q.
Proof.
  destruct x. unfold Qplus. cbn. f_equal; [lia|apply Pos.mul_1_r].
Qed.

Lemma num_add_comm a b : num_add a b = num_add b a.
Proof. destruct a, b; cbn; try reflexivity. f_equal. apply Qplus_comm_L. Qed.

Lemma num_add_assoc a b c : num_add a (num_add b c) = num_add (num_add a b) c.
Proof. destruct a, b, c; cbn; try reflexivity. f_equal. apply Qplus_assoc_L. Qed.

Lemma num_add_0_r a : num_add a (Fin 0) = a.
Proof. destruct a; cbn; try reflexivity. f_equal. apply Qplus_0_r_L. Qed.

#[global] Instance num_eqv_equiv : Equivalence num_eqv.
Proof.
  split.
  - intros []; cbn; done.
  - intros [] []; cbn; done.
  - intros [] [] []; cbn; try done. intros. by etransitivity.
Qed.

#[global] Instance num_add_proper : Proper (num_eqv ==> num_eqv ==> num_eqv) num_add.
Proof.
  intros [] [] Ha [] [] Hb; cbn in *; try done. by rewrite Ha, Hb.
Qed.

Section Totals.
Context `{Host}.

Lemma sum_from_shift l start x :
  sum_from (num_add start x) l = num_add (sum_from start l) x.
Proof.
  revert start. induction l as [|e l IH]; intros start; [done|].
  cbn [sum_from fold_left]. fold (sum_from (num_add (num_add start x) (earned e)) l).
  fold (sum_from (num_add start (earned e)) l).
  rewrite <- IH. f_equal.
  rewrite <- !num_add_assoc. f_equal. apply num_add_comm.
Qed.

Lemma sum_from_cons e l start :
  sum_from start (e :: l) = num_add (sum_from start l) (earned e).
Proof.
  cbn [sum_from fold_left]. fold (sum_from (num_add start (earned e)) l).
  apply sum_from_shift.
Qed.

Lemma sum_from_middle (before : list obj) e after :
  sum_from (Fin 0) (before ++ e :: after)%list =
  num_add (sum_from (Fin 0) (before ++ after)%list) (earned e).
Proof.
  unfold sum_from. rewrite !fold_left_app. cbn [fold_left].
  apply sum_from_shift.
Qed.

Lemma complete_found_finds id checked l before e after :
  finds id l before e after ->
  complete_found id checked l = (before ++ <["completed" := JBool checked]> e :: after)%list.
Proof.
  intros (-> & Hb & He). induction Hb as [|e' before He' _ IH].
  - cbn. by rewrite He.
  - cbn. by rewrite He', IH.
Qed.

Lemma complete_found_none id checked l :
  Forall (fun e' => has_id id e' = false) l -> complete_found id checked l = l.
Proof. induction 1 as [|e l He _ IH]; [done|]. cbn. by rewrite He, IH. Qed.

End Totals.

(** ** Binary64 rounding *)

(** *** Powers of two *)

Lemma pow2_pos k : (0 < 2 ^ k)%Q.
Proof. by apply Qpower_0_lt. Qed.


Lemma pow2_lt j k : (j < k)%Z -> (2 ^ j < 2 ^ k)%Q.
Proof. intros. by apply Qpower_lt_compat_l. Qed.

Lemma pow2_lt_inv j k : (2 ^ j < 2 ^ k)%Q -> (j < k)%Z.
Proof. intros. by eapply Qpower_lt_compat_l_inv. Qed.

Lemma pow2_plus j k : (2 ^ (j + k) == 2 ^ j * 2 ^ k)%Q.
Proof. by apply Qpower_plus. Qed.

Lemma pow2_Z k : (0 <= k)%Z -> (inject_Z (2 ^ k) == 2 ^ k)%Q.
Proof. intros. by rewrite Zpower_Qpower. Qed.

Lemma Qmult_le_r_pos (x y z : Q) : (0 < z)%Q -> (x <= y)%Q -> (x * z <= y * z)%Q.
Proof. intros Hz Hxy. apply Qmult_le_compat_r; [done|]. by apply Qlt_le_weak. Qed.

Lemma Qmult_lt_cancel_r (x y z : Q) : (0 < z)%Q -> (x * z < y * z)%Q -> (x < y)%Q.
Proof. intros Hz H. by apply (Qmult_lt_r _ _ z). Qed.

Lemma ilog2_spec a : (0 < a)%Q -> (2 ^ ilog2 a <= a)%Q /\ (a < 2 ^ (ilog2 a + 1))%Q.
Proof.
  destruct a as [n d]. intros Ha.
  assert (Hn : (0 < n)%Z) by (unfold Qlt in Ha; cbn in Ha; lia).
  unfold ilog2. cbn [Qnum Qden].
  destruct (Z.log2_spec n Hn) as [Hn1 Hn2].
  destruct (Z.log2_spec (Z.pos d) ltac:(lia)) as [Hd1 Hd2].
  pose proof (Z.log2_nonneg n) as Hln. pose proof (Z.log2_nonneg (Z.pos d)) as Hld.
  set (ln := Z.log2 n) in *. set (ld := Z.log2 (Z.pos d)) in *.
  rewrite Zle_Qle, pow2_Z in Hn1, Hd1 by lia.
  rewrite Zlt_Qlt, pow2_Z in Hn2, Hd2 by lia.
  assert (HND : (inject_Z n == (n # d) * inject_Z (Z.pos d))%Q).
  { rewrite (Qmake_Qdiv n d). field. discriminate. }
  assert (HD : (0 < inject_Z (Z.pos d))%Q) by (unfold Qlt; cbn; lia).
  set (a := n # d) in *. set (N := inject_Z n) in *. set (D := inject_Z (Z.pos d)) in *.
  assert (Hup : (a < 2 ^ (ln - ld + 1))%Q).
  { apply (Qmult_lt_cancel_r _ _ D HD). rewrite <- HND.
    eapply Qlt_le_trans; [exact Hn2|].
    replace (Z.succ ln) with ((ln - ld + 1) + ld)%Z by lia. rewrite pow2_plus.
    apply Qmult_le_l; [apply pow2_pos|done]. }
  assert (Hlo : (2 ^ (ln - ld - 1) <= a)%Q).
  { apply Qlt_le_weak, (Qmult_lt_cancel_r _ _ D HD). rewrite <- HND.
    eapply Qlt_le_trans; [|exact Hn1].
    replace ln with ((ln - ld - 1) + Z.succ ld)%Z at 2 by lia. rewrite pow2_plus.
    apply Qmult_lt_l; [apply pow2_pos|done]. }
  destruct (Qle_bool (2 ^ (ln - ld)) a) eqn:E.
  - apply Qle_bool_iff in E. done.
  - split; [done|]. replace (ln - ld - 1 + 1)%Z with (ln - ld)%Z by lia.
    apply Qnot_le_lt. intros Hle. apply Qle_bool_iff in Hle. congruence.
Qed.

(** *** Rounding to an integer *)

Lemma round_half_even_floor m :
  (Qfloor m <= round_half_even m <= Qfloor m + 1)%Z.
Proof.
  unfold round_half_even.
  destruct (Qcompare _ _); [destruct (Z.even _)|..]; lia.
Qed.

Lemma round_half_even_Z m k : (m == inject_Z k)%Q -> round_half_even m = k.
Proof.
  intros Hm. unfold round_half_even. rewrite (Qfloor_comp _ _ Hm), Qfloor_Z.
  assert (Qcompare (m - inject_Z k) (1 # 2) = Lt) as ->; [|done].
  apply (proj1 (Qlt_alt _ _)). lra.
Qed.

Lemma round_half_even_mono m1 m2 :
  (m1 <= m2)%Q -> (round_half_even m1 <= round_half_even m2)%Z.
Proof.
  intros H. pose proof (Qfloor_resp_le _ _ H) as Hf.
  destruct (Z.eq_dec (Qfloor m1) (Qfloor m2)) as [E|NE].
  - unfold round_half_even. rewrite E.
    destruct (Qcompare_spec (m1 - inject_Z (Qfloor m2)) (1 # 2));
      destruct (Qcompare_spec (m2 - inject_Z (Qfloor m2)) (1 # 2));
      try lia; try (destruct (Z.even _); lia); exfalso; lra.
  - pose proof (round_half_even_floor m1). pose proof (round_half_even_floor m2). lia.
Qed.

Lemma round_half_even_ge m k : (inject_Z k <= m)%Q -> (k <= round_half_even m)%Z.
Proof.
  intros H. apply round_half_even_mono in H.
  by rewrite (round_half_even_Z (inject_Z k) k) in H.
Qed.

Lemma round_half_even_le m k : (m <= inject_Z k)%Q -> (round_half_even m <= k)%Z.
Proof.
  intros H. apply round_half_even_mono in H.
  by rewrite (round_half_even_Z (inject_Z k) k) in H.
Qed.

(** *** The nearest double of a positive rational *)

Lemma ulp_pos a : (0 < ulp a)%Q.
Proof. apply pow2_pos. Qed.

Lemma binary64_abs_ge a k :
  (inject_Z k * ulp a <= a)%Q -> (inject_Z k * ulp a <= binary64_abs a)%Q.
Proof.
  intros H. unfold binary64_abs. apply Qmult_le_r_pos; [apply ulp_pos|].
  rewrite <- Zle_Qle. apply round_half_even_ge.
  apply Qle_shift_div_l; [apply ulp_pos|done].
Qed.

Lemma binary64_abs_le a k :
  (a <= inject_Z k * ulp a)%Q -> (binary64_abs a <= inject_Z k * ulp a)%Q.
Proof.
  intros H. unfold binary64_abs. apply Qmult_le_r_pos; [apply ulp_pos|].
  rewrite <- Zle_Qle. apply round_half_even_le.
  apply Qle_shift_div_r; [apply ulp_pos|done].
Qed.

Lemma binary64_abs_multiple a k :
  (a == inject_Z k * ulp a)%Q -> (binary64_abs a == a)%Q.
Proof.
  intros H. apply Qle_antisym.
  - rewrite H at 2. apply binary64_abs_le. rewrite <- H. apply Qle_refl.
  - rewrite H at 1. apply binary64_abs_ge. rewrite <- H. apply Qle_refl.
Qed.







(** A whole number below [2^53] is a double. *)
Lemma binary64_abs_whole a z :
  (0 < z < 2 ^ 53)%Z -> (a == inject_Z z)%Q -> (binary64_abs a == inject_Z z)%Q.
Proof.
  intros Hz Ha. rewrite <- Ha. 
  assert (Hpos : (0 < a)%Q) by (rewrite Ha; unfold Qlt; cbn; lia).
  destruct (ilog2_spec a Hpos) as [Hlo _].
  assert (He : (ilog2 a < 53)%Z).
  { apply pow2_lt_inv. eapply Qle_lt_trans; [exact Hlo|].
    rewrite Ha, <- pow2_Z by lia. rewrite <- Zlt_Qlt. lia. }
  set (e := Z.max (ilog2 a) (-1022)).
  apply (binary64_abs_multiple a (z * 2 ^ (52 - e))).
  unfold ulp. fold e. rewrite inject_Z_mult, pow2_Z by lia.
  rewrite <- Qmult_assoc, <- pow2_plus.
  replace (52 - e + (e - 52))%Z with 0%Z by lia. rewrite Ha. cbn. ring.
Qed.

(** *** The nearest double *)

Lemma Qred_inject_Z z : Qred (inject_Z z) = inject_Z z.
Proof.
  unfold Qred, inject_Z.
  pose proof (Z.ggcd_gcd z 1) as Hg. pose proof (Z.ggcd_correct_divisors z 1) as Hd.
  destruct (Z.ggcd z 1) as [g [aa bb]]. cbn in Hg, Hd. destruct Hd as [Ha Hb].
  rewrite Z.gcd_1_r in Hg. subst g. f_equal; [lia|]. 
  assert (bb = 1%Z) as -> by lia. reflexivity.
Qed.



Lemma binary64_cases q :
  ((q == 0)%Q /\ binary64 q = Fin 0)
  \/ ((0 < q)%Q /\ (2 ^ 1024 <= mag q)%Q /\ binary64 q = PInf)
  \/ ((0 < q)%Q /\ (mag q < 2 ^ 1024)%Q /\ binary64 q = Fin (mag q))
  \/ ((q < 0)%Q /\ (2 ^ 1024 <= mag q)%Q /\ binary64 q = NInf)
  \/ ((q < 0)%Q /\ (mag q < 2 ^ 1024)%Q /\ binary64 q = Fin (- mag q)).
Proof.
  unfold binary64.
  destruct (Qeq_bool q 0) eqn:E0.
  { left. by apply Qeq_bool_iff in E0. }
  assert (H0 : ~ (q == 0)%Q) by (intros H; apply Qeq_bool_iff in H; congruence).
  right.
  destruct (Qle_bool (2 ^ 1024) (mag q)) eqn:Eo; destruct (Qle_bool 0 q) eqn:Es.
  - left. apply Qle_bool_iff in Eo, Es. split; [|done].
    destruct (Qlt_le_dec 0 q); [done|]. exfalso. apply H0. lra.
  - right; right; left. apply Qle_bool_iff in Eo. split; [|done].
    apply Qnot_le_lt. intros H. apply Qle_bool_iff in H. congruence.
  - right; left. apply Qle_bool_iff in Es. split.
    { destruct (Qlt_le_dec 0 q); [done|]. exfalso. apply H0. lra. }
    split; [|done]. apply Qnot_le_lt. intros H. apply Qle_bool_iff in H. congruence.
  - right; right; right. split.
    { apply Qnot_le_lt. intros H. apply Qle_bool_iff in H. congruence. }
    split; [|done]. apply Qnot_le_lt. intros H. apply Qle_bool_iff in H. congruence.
Qed.


(** A whole number from 0 to below [2^53] is its own nearest double. *)
Lemma binary64_whole q z :
  (0 <= z < 2 ^ 53)%Z -> (q == inject_Z z)%Q -> binary64 q = Fin (inject_Z z).
Proof.
  intros Hz Hq. destruct (Z.eq_dec z 0%Z) as [->|Hnz].
  { unfold binary64. assert (Qeq_bool q 0 = true) as -> by by apply Qeq_bool_iff. done. }
  assert (Hpos : (0 < q)%Q) by (rewrite Hq; unfold Qlt; cbn; lia).
  assert (Hm : mag q = inject_Z z).
  { unfold mag. rewrite <- Qred_inject_Z. apply Qred_complete.
    apply binary64_abs_whole; [lia|]. rewrite Qabs_pos by lra. done. }
  destruct (binary64_cases q) as [[H _]|[(_ & Ho & _)|[(_ & _ & ->)|[(H & _)|(H & _)]]]];
    try (exfalso; lra).
  - exfalso. rewrite Hm in Ho.
    assert (H : (inject_Z z < 2 ^ 1024)%Q).
    { rewrite <- pow2_Z by lia. rewrite <- Zlt_Qlt.
      eapply Z.lt_le_trans; [apply Hz|]. apply Z.pow_le_mono_r; lia. }
    lra.
  - by rewrite Hm.
Qed.

(** ** Earned XP, with the sums rounded *)

Lemma num_add64_whole a q z :
  (0 <= a)%Z -> (0 <= z)%Z -> (a + z < 2 ^ 53)%Z -> (q == inject_Z z)%Q ->
  num_add64 (Fin (inject_Z a)) (Fin q) = Fin (inject_Z (a + z)).
Proof.
  intros Ha Hz Hlt Hq. unfold num_add64. cbn [num_add].
  apply binary64_whole; [lia|]. rewrite inject_Z_plus, Hq. reflexivity.
Qed.

Section Whole.
Context `{Host}.

Lemma whole_inv e :
  whole e = true ->
  exists c q, e !! "completed" = Some (JBool c)
    /\ e !! "xpPotential" = Some (JNum (Fin q))
    /\ (0 <= q)%Q /\ (q == inject_Z (Qfloor q))%Q.
Proof.
  unfold whole. intros Hw.
  destruct (e !! "completed") as [[|c| | | |]|]; try done.
  destruct (e !! "xpPotential") as [[| |[| | |q]| | |]|]; try done.
  apply andb_true_iff in Hw as [H0 Hi].
  exists c, q. split; [done|]. split; [done|].
  split; [by apply Qle_bool_iff|by apply Qeq_bool_iff].
Qed.

Lemma whole_units e : whole e = true -> (0 <= xp_units e)%Z.
Proof.
  intros Hw. destruct (whole_inv e Hw) as (c & q & _ & Hq & H0 & _).
  unfold xp_units. rewrite Hq. 
  change 0%Z with (Qfloor 0). by apply Qfloor_resp_le.
Qed.

Lemma earned_whole e :
  whole e = true ->
  exists q, earned e = Fin q
    /\ (q == inject_Z (if is_completed e then xp_units e else 0))%Q.
Proof.
  intros Hw. destruct (whole_inv e Hw) as (c & q & Hc & Hq & H0 & Hi).
  unfold earned, is_completed, xp_units. rewrite Hc, Hq. cbn [truthy].
  destruct c; [|by exists 0%Q].
  unfold Number_or_0. cbn [ToNumber num_truthy].
  destruct (Qeq_bool q 0) eqn:E; cbn [negb].
  - exists 0%Q. split; [done|]. apply Qeq_bool_iff in E. by rewrite <- Hi, E.
  - by exists q.
Qed.

Lemma units_bounds l :
  Forall (fun e => whole e = true) l -> (0 <= units_earned l <= units_total l)%Z.
Proof.
  induction 1 as [|e l He _ IH]; [done|].
  cbn [units_earned units_total foldr]. fold (units_earned l). fold (units_total l).
  pose proof (whole_units e He). destruct (is_completed e); lia.
Qed.

Lemma units_earned_app l1 l2 :
  units_earned (l1 ++ l2) = (units_earned l1 + units_earned l2)%Z.
Proof.
  induction l1 as [|e l1 IH]; [done|]. cbn [app units_earned foldr].
  fold (units_earned (l1 ++ l2)). fold (units_earned l1). rewrite IH. lia.
Qed.

Lemma units_total_app l1 l2 :
  units_total (l1 ++ l2) = (units_total l1 + units_total l2)%Z.
Proof.
  induction l1 as [|e l1 IH]; [done|]. cbn [app units_total foldr].
  fold (units_total (l1 ++ l2)). fold (units_total l1). rewrite IH. lia.
Qed.

(** No sum is rounded where the entries are whole and their XP add up to
    less than [2^53]. *)
Lemma sum_from64_whole l a :
  Forall (fun e => whole e = true) l ->
  (0 <= a)%Z -> (a + units_total l < 2 ^ 53)%Z ->
  sum_from64 (Fin (inject_Z a)) l = Fin (inject_Z (a + units_earned l)).
Proof.
  intros Hl. revert a. induction Hl as [|e l He Hl IH]; intros a Ha Hlt.
  { cbn. by rewrite Z.add_0_r. }
  cbn [sum_from64 fold_left units_earned units_total foldr] in *.
  fold (units_earned l). fold (units_total l) in Hlt.
  destruct (earned_whole e He) as (q & -> & Hq).
  pose proof (whole_units e He) as Hu. pose proof (units_bounds l Hl) as Hb.
  set (z := if is_completed e then xp_units e else 0%Z) in *.
  assert (Hz : (0 <= z <= xp_units e)%Z) by (unfold z; destruct (is_completed e); lia).
  rewrite (num_add64_whole a q z) by (done || lia).
  fold (sum_from64 (Fin (inject_Z (a + z))) l).
  rewrite IH by lia. do 2 f_equal. lia.
Qed.

Lemma calcXP64_sum_from64 state : calcXP64 state = sum_from64 (Fin 0) (log state).
Proof. reflexivity. Qed.

Lemma calcXP64_whole state :
  Forall (fun e => whole e = true) (log state) ->
  (units_total (log state) < 2 ^ 53)%Z ->
  calcXP64 state = Fin (inject_Z (units_earned (log state))).
Proof.
  intros Hl Hlt. rewrite calcXP64_sum_from64.
  change (Fin 0) with (Fin (inject_Z 0)). by rewrite sum_from64_whole.
Qed.

(** The exact sum is then the same number. *)
Lemma sum_from_whole l a q :
  Forall (fun e => whole e = true) l -> (q == inject_Z a)%Q ->
  num_eqv (sum_from (Fin q) l) (Fin (inject_Z (a + units_earned l))).
Proof.
  intros Hl. revert a q. induction Hl as [|e l He Hl IH]; intros a q Hq.
  { cbn. rewrite Z.add_0_r. done. }
  cbn [sum_from fold_left units_earned foldr]. fold (units_earned l).
  destruct (earned_whole e He) as (q' & -> & Hq'). cbn [num_add].
  fold (sum_from (Fin (q + q')) l).
  set (z := if is_completed e then xp_units e else 0%Z) in *.
  rewrite (IH (a + z)%Z); [by rewrite Z.add_assoc|].
  rewrite inject_Z_plus, Hq, Hq'. reflexivity.
Qed.

Lemma calcXP64_exact state :
  Forall (fun e => whole e = true) (log state) ->
  (units_total (log state) < 2 ^ 53)%Z ->
  num_eqv (calcXP64 state) (calcXP state).
Proof.
  intros Hl Hlt. rewrite (calcXP64_whole _ Hl Hlt). symmetry.
  apply (sum_from_whole (log state) 0 0 Hl). reflexivity.
Qed.

Lemma whole_set_completed e b :
  whole e = true -> whole (<["completed" := JBool b]> e) = true.
Proof.
  intros Hw. destruct (whole_inv e Hw) as (c & q & Hc & Hq & H0 & Hi).
  unfold whole in *. rewrite lookup_insert_eq, lookup_insert_ne by key_ne.
  by rewrite Hc in Hw.
Qed.

Lemma xp_units_set k v (e : obj) :
  k <> "xpPotential" -> xp_units (<[k := v]> e) = xp_units e.
Proof. intros Hk. unfold xp_units. by rewrite lookup_insert_ne. Qed.

Lemma is_completed_set e b : is_completed (<["completed" := JBool b]> e) = b.
Proof. unfold is_completed. by rewrite lookup_insert_eq. Qed.

(** C4: in a state whose entries have a boolean [completed] and a whole
    [xpPotential] that is not negative, with all [xpPotential] adding up to
    less than [2^53], the total that [calcXP] computes, [calcXP64], is the
    sum of [xpPotential] over exactly the entries whose [completed] is
    [true].  Changing the flag of the entry that
    the check box with a given id finds changes the total by exactly that
    entry's [xpPotential]: up when the entry becomes completed, down when it
    no longer is; a box set to [checked] gives the sum with that entry
    counted as [checked] says, and a box whose id no entry has changes
    nothing. *)
Theorem calcXP_total_and_toggle (state : State) :
  Forall (fun e => whole e = true) (log state) ->
  (units_total (log state) < 2 ^ 53)%Z ->
  calcXP64 state = Fin (inject_Z (units_earned (log state)))
  /\ (forall id before e after,
        finds id (log state) before e after ->
        calcXP64 (handleCompleteToggle id (negb (is_completed e)) state)
        = Fin (inject_Z (if is_completed e
                         then units_earned (log state) - xp_units e
                         else units_earned (log state) + xp_units e)))
  /\ (forall id checked before e after,
        finds id (log state) before e after ->
        calcXP64 (handleCompleteToggle id checked state)
        = Fin (inject_Z (units_earned (before ++ after)
                         + (if checked then xp_units e else 0))))
  /\ (forall id checked,
        Forall (fun e => has_id id e = false) (log state) ->
        handleCompleteToggle id checked state = state).
Proof.
  intros Hl Hlt.
  assert (Hset : forall id checked before e after,
             finds id (log state) before e after ->
             calcXP64 (handleCompleteToggle id checked state)
             = Fin (inject_Z (units_earned (before ++ after)
                              + (if checked then xp_units e else 0)))).
  { intros id checked before e after Hf.
    pose proof (complete_found_finds _ checked _ _ _ _ Hf) as Hcf.
    destruct Hf as (Hlog & _ & _). rewrite Hlog in Hl, Hlt.
    apply Forall_app in Hl as [Hb Hea]. apply Forall_cons in Hea as [He Ha].
    rewrite units_total_app in Hlt. cbn [units_total foldr] in Hlt.
    fold (units_total after) in Hlt.
    rewrite calcXP64_whole.
    - unfold handleCompleteToggle. cbn [log set_log]. rewrite Hcf.
      rewrite !units_earned_app. cbn [units_earned foldr]. fold (units_earned after).
      rewrite is_completed_set, xp_units_set by key_ne. do 2 f_equal.
      destruct checked; lia.
    - unfold handleCompleteToggle. cbn [log set_log]. rewrite Hcf.
      apply Forall_app. split; [done|]. constructor; [|done].
      by apply whole_set_completed.
    - unfold handleCompleteToggle. cbn [log set_log]. rewrite Hcf.
      rewrite units_total_app. cbn [units_total foldr]. fold (units_total after).
      by rewrite xp_units_set by key_ne. }
  split; [by apply calcXP64_whole|]. split; [|split; [exact Hset|]].
  - intros id before e after Hf. rewrite (Hset _ _ _ _ _ Hf).
    destruct Hf as (-> & _ & _). rewrite !units_earned_app.
    cbn [units_earned foldr]. fold (units_earned after).
    do 2 f_equal. destruct (is_completed e); cbn [negb]; lia.
  - intros id checked Hno. unfold handleCompleteToggle.
    rewrite complete_found_none by done. by destruct state.
Qed.
End Whole.

Lemma sample_state_whole : Forall (fun e => whole e = true) (log sample_state).
Proof. unfold sample_state. cbn [log]. repeat constructor; vm_compute; reflexivity. Qed.

Lemma calcXP_total_and_toggle_witness :
  Forall (fun e => whole e = true) (log sample_state)
  /\ (units_total (log sample_state) < 2 ^ 53)%Z
  /\ calcXP64 sample_state = Fin (inject_Z (units_earned (log sample_state)))
  /\ units_earned (log sample_state) = 35%Z.
Proof.
  assert (H2 : (units_total (log sample_state) < 2 ^ 53)%Z) by (vm_compute; reflexivity).
  split; [exact sample_state_whole|]. split; [exact H2|].
  split; [|vm_compute; reflexivity].
  exact (proj1 (calcXP_total_and_toggle sample_state sample_state_whole H2)).
Defined.

(** C4 fails as stated for XP that is not whole: with three completed
    entries of 0.7, 0.1 and 0.3 XP the total is 1.0999999999999999, without
    the first of them 0.4, and neither the exact difference of the two nor
    the rounded sum of 0.4 and 0.7 gives back the entry's [xpPotential]; the
    total is not the exact sum of the three numbers either. *)
Lemma calcXP_rounds_fractions :
  calcXP64 fraction_state = Fin (4953959590107545 # 4503599627370496)
  /\ calcXP64 (handleCompleteToggle "a" false fraction_state)
     = Fin (3602879701896397 # 9007199254740992)
  /\ ~ num_eqv (calcXP64 fraction_state)
         (num_add (calcXP64 (handleCompleteToggle "a" false fraction_state))
                  (Fin double_0_7))
  /\ ~ num_eqv (calcXP64 fraction_state)
         (num_add64 (calcXP64 (handleCompleteToggle "a" false fraction_state))
                    (Fin double_0_7))
  /\ ~ num_eqv (calcXP64 fraction_state) (spec_earned_total (log fraction_state)).
Proof.
  assert (H1 : calcXP64 fraction_state = Fin (4953959590107545 # 4503599627370496))
    by (vm_compute; reflexivity).
  assert (H2 : calcXP64 (handleCompleteToggle "a" false fraction_state)
               = Fin (3602879701896397 # 9007199254740992))
    by (vm_compute; reflexivity).
  split; [exact H1|]. split; [exact H2|]. rewrite H1, H2.
  split; [|split]; intros E; vm_compute in E; discriminate.
Qed.

(** ** Session actions *)

Section ActionFacts.
Context `{Host}.

Lemma clamp_range n :
  Number_isNaN n = false ->
  exists q, clamp n (Fin 0) (Fin 10) = Fin q /\ (0 <= q /\ q <= 10)%Q.
Proof.
  intros Hn. destruct n as [| | |q]; [done|..].
  - exists 10%Q. split; [reflexivity|]. split; discriminate.
  - exists 0%Q. split; [reflexivity|]. split; discriminate.
  - unfold clamp, Math_min, Math_max. cbn [num_leb].
    destruct (Qle_bool 10 q) eqn:E1.
    + exists 10%Q. split; [reflexivity|]. split; discriminate.
    + cbn [num_leb]. destruct (Qle_bool 0 q) eqn:E2.
      * exists q. split; [reflexivity|]. split; [by apply Qle_bool_iff|].
        apply Qnot_lt_le. intros Hlt. apply Qlt_le_weak, Qle_bool_iff in Hlt. congruence.
      * exists 0%Q. split; [reflexivity|]. split; discriminate.
Qed.

Lemma new_entry_completed id time title categories xpPotential :
  new_entry id time title categories xpPotential !! "completed" = Some (JBool false).
Proof. vm_compute. reflexivity. Qed.

Lemma new_entry_title id time title categories xpPotential :
  new_entry id time title categories xpPotential !! "title" = Some title.
Proof. vm_compute. reflexivity. Qed.

Lemma new_entry_xpPotential id time title categories xpPotential :
  new_entry id time title categories xpPotential !! "xpPotential"
  = Some (JNum (ToNumber (Some (or_else xpPotential (JNum (Fin 0)))))).
Proof.
  unfold new_entry. rewrite !list_to_map_cons. cbn [fst snd].
  rewrite !lookup_insert_ne by key_ne. apply lookup_insert_eq.
Qed.

Lemma session_xp_truthy kind :
  ToNumber (Some (or_else (Some (JNum (session_xp kind))) (JNum (Fin 0)))) = session_xp kind.
Proof.
  unfold session_xp.
  destruct (String.eqb kind "Daily Neural Roll"); [reflexivity|].
  destruct (String.eqb kind "Tri-Skill Sprint"); reflexivity.
Qed.

Lemma quickRetest_create_log id time category score overwrite state :
  log (quickRetest_create id time category score overwrite state)
  = new_entry id time (JStr "Re-test") (JArr [JStr category]) (Some (JNum (Fin 6)))
      :: log state.
Proof. unfold quickRetest_create. by destruct overwrite. Qed.

(** C6: the entry that [addLogEntry] puts at the head of the log has
    [completed = false] and the [xpPotential] it was called with: 10, 18 and
    25 for the sessions Daily Neural Roll, Tri-Skill Sprint and Full Circuit,
    and 6 for the entry that the re-test handler creates. *)
Theorem new_entries_start_incomplete id time (state : State) :
  (forall title categories xpPotential,
     exists e, log (addLogEntry id time title categories xpPotential state) = e :: log state
       /\ e !! "completed" = Some (JBool false)
       /\ e !! "xpPotential"
          = Some (JNum (ToNumber (Some (or_else xpPotential (JNum (Fin 0)))))))
  /\ (forall rnd kind count,
        exists e, log (runSession rnd id time kind count state) = e :: log state
          /\ e !! "title" = Some (JStr kind)
          /\ e !! "completed" = Some (JBool false)
          /\ e !! "xpPotential" = Some (JNum (session_xp kind)))
  /\ session_xp "Daily Neural Roll" = Fin 10
  /\ session_xp "Tri-Skill Sprint" = Fin 18
  /\ session_xp "Full Circuit" = Fin 25
  /\ (forall category score overwrite,
        exists e, log (quickRetest_create id time category score overwrite state)
                  = e :: log state
          /\ e !! "title" = Some (JStr "Re-test")
          /\ e !! "completed" = Some (JBool false)
          /\ e !! "xpPotential" = Some (JNum (Fin 6))).
Proof.
  split; [|split; [|split; [|split; [|split]]]]; try reflexivity.
  - intros title categories xpPotential. eexists. split; [reflexivity|].
    split; [apply new_entry_completed|apply new_entry_xpPotential].
  - intros rnd kind count. eexists. split; [reflexivity|].
    split; [apply new_entry_title|]. split; [apply new_entry_completed|].
    by rewrite new_entry_xpPotential, session_xp_truthy.
  - intros category score overwrite. eexists.
    split; [apply quickRetest_create_log|].
    split; [apply new_entry_title|]. split; [apply new_entry_completed|].
    by rewrite new_entry_xpPotential.
Qed.

(** When the re-test handler returns, it has marked the entry it created
    as completed. *)
Lemma quickRetest_ends_completed id time category newScore overwrite state state' :
  Number_isNaN (ToNumber (Some (JStr newScore))) = false ->
  quickRetest_onConfirm id time category newScore overwrite state = Ok state' ->
  exists e, log state' = e :: log state /\ e !! "completed" = Some (JBool true).
Proof.
  intros Hnum. unfold quickRetest_onConfirm. rewrite Hnum.
  unfold set_latest at 2. rewrite quickRetest_create_log. rewrite bind_Ok.
  unfold set_latest. cbn [log set_log]. intros [= <-]. cbn [log].
  eexists. split; [reflexivity|]. apply lookup_insert_eq.
Qed.

(** *** The baseline editor *)

Lemma coerce_scores_ok entries : forall o,
  Forall (fun kv => Number_isNaN (ToNumber (Some kv.2)) = false) entries ->
  coerce_scores entries o
  = Ok (foldl (fun o kv => <[kv.1 := stored_score kv.2]> o) o entries).
Proof.
  induction entries as [|[k v] entries IH]; intros o Hall; [done|].
  inversion Hall as [|? ? Hv Hrest]; subst. cbn [coerce_scores foldl].
  cbn [snd] in Hv. rewrite Hv. by apply IH.
Qed.

Lemma coerce_scores_throw entries : forall o,
  Exists (fun kv => Number_isNaN (ToNumber (Some kv.2)) = true) entries ->
  coerce_scores entries o = Throw (Error "Non-number score found.").
Proof.
  induction entries as [|[k v] entries IH]; intros o Hex;
    [by apply Exists_nil in Hex|].
  cbn [coerce_scores].
  destruct (Number_isNaN (ToNumber (Some v))) eqn:Ev; [done|].
  apply IH. apply Exists_cons in Hex as [Hv|Hrest]; [|done].
  cbn [snd] in Hv. congruence.
Qed.

Lemma foldl_insert_lookup (f : json -> json) entries : forall (o : obj) k,
  NoDup entries.*1 ->
  foldl (fun o kv => <[kv.1 := f kv.2]> o) o entries !! k
  = match (list_to_map entries : obj) !! k with
    | Some v => Some (f v)
    | None => o !! k
    end.
Proof.
  induction entries as [|[k0 v0] entries IH]; intros o k Hnd; [done|].
  apply NoDup_cons in Hnd as [Hk0 Hnd]. cbn [foldl fst snd].
  rewrite IH by done. rewrite list_to_map_cons. cbn [fst snd].
  destruct (decide (k0 = k)) as [->|Hne].
  - rewrite (not_elem_of_list_to_map_1 _ _ Hk0), !lookup_insert_eq. done.
  - rewrite !(lookup_insert_ne _ k0 k) by done. done.
Qed.

Lemma coerce_scores_map (m : obj) :
  map_Forall (fun _ v => Number_isNaN (ToNumber (Some v)) = false) m ->
  coerce_scores (map_to_list m) m = Ok (stored_score <$> m).
Proof.
  intros Hm. rewrite coerce_scores_ok.
  - f_equal. apply map_eq. intros k.
    rewrite foldl_insert_lookup by apply NoDup_fst_map_to_list.
    rewrite list_to_map_to_list, lookup_fmap. by destruct (m !! k).
  - apply Forall_forall. intros [k v] Hkv. apply elem_of_map_to_list in Hkv.
    exact (Hm _ _ Hkv).
Qed.

(** C7: a baseline edit is applied as a whole or not at all.  If every
    value of the submitted mapping coerces to a number, the baselines become
    the mapping with every value coerced and clamped, so every stored score
    is in [[0, 10]], and no error is reported; if a value does not, or the
    text does not parse, the state is as before and the error is reported. *)
Theorem editBaselines_all_or_nothing (m : obj) (state : State) :
  ((forall k v, m !! k = Some v -> Number_isNaN (ToNumber (Some v)) = false) ->
   editBaselines_onConfirm (mapping m) state
     = (set_baselines (stored_score <$> m) state, None)
   /\ forall k s, (stored_score <$> m) !! k = Some s ->
        exists q, s = JNum (Fin q) /\ (0 <= q /\ q <= 10)%Q)
  /\ ((exists k v, m !! k = Some v /\ Number_isNaN (ToNumber (Some v)) = true) ->
      editBaselines_onConfirm (mapping m) state
        = (state, Some (Error "Non-number score found.")))
  /\ editBaselines_onConfirm unparsable state = (state, Some SyntaxError).
Proof.
  split; [|split; [|reflexivity]].
  - intros Hm. split.
    + unfold editBaselines_onConfirm, editBaselines_try. rewrite bind_Ok.
      by rewrite (coerce_scores_map m Hm).
    + intros k s. rewrite lookup_fmap. destruct (m !! k) as [v|] eqn:Ev; [|done].
      intros [= <-]. destruct (clamp_range _ (Hm _ _ Ev)) as (q & Hq & Hr).
      exists q. unfold stored_score. by rewrite Hq.
  - intros (k & v & Hk & Hv).
    unfold editBaselines_onConfirm, editBaselines_try. rewrite bind_Ok.
    rewrite coerce_scores_throw; [done|].
    apply Exists_exists. exists (k, v). split; [|done]. by apply elem_of_map_to_list.
Qed.

(** *** The re-test dialog *)



Lemma quickRetest_not_a_number id time category newScore overwrite state :
  Number_isNaN (ToNumber (Some (JStr newScore))) = true ->
  quickRetest_onConfirm id time category newScore overwrite state = Ok state.
Proof. intros Hnan. unfold quickRetest_onConfirm. by rewrite Hnan. Qed.
End ActionFacts.


Example quickRetest_ex :
  (state' ← quickRetest_onConfirm "id-9" "Jan 06, 2026, 08:00 AM" "Quick Math" "12" true
             sample_state;
   mret (baselines state' !! "Quick Math", baselines state' !! "Vocabulary",
         calcXP state', (fun e => e !! "answerText") <$> head (log state')))
  = Ok (Some (JNum (Fin 10)), Some (JNum (Fin 8)), Fin 41,
        Some (Some (JStr "Re-test score: 10 / 10 (was 4.5). Baseline updated.")))
  /\ (state' ← quickRetest_onConfirm "id-9" "Jan 06, 2026, 08:00 AM" "Quick Math" "12" false
                sample_state;
      mret (baselines state' !! "Quick Math")) = Ok (Some (JNum (Fin 4.5))).
Proof. split; vm_compute; reflexivity. Qed.

Example calcXP_ex :
  calcXP sample_state = Fin 35
  /\ calcXP (handleCompleteToggle "b" true sample_state) = Fin 53
  /\ calcXP (handleCompleteToggle "a" false sample_state) = Fin 25
  /\ spec_earned_total (log sample_state) = Fin 35.
Proof. repeat split; vm_compute; reflexivity. Qed.

Example editBaselines_ex :
  (let '(state', alert) :=
     editBaselines_onConfirm
       (mapping {[ "Quick Math" := JNum (Fin 12); "Vocabulary" := JStr "7.5" ]})
       sample_state in
   (baselines state' !! "Quick Math", baselines state' !! "Vocabulary",
    baselines state' !! "Visualization", alert))
  = (Some (JNum (Fin 10)), Some (JNum (Fin 7.5)), None, None)
  /\ editBaselines_onConfirm
       (mapping {[ "Quick Math" := JNum (Fin 12); "Vocabulary" := JStr "high" ]})
       sample_state
     = (sample_state, Some (Error "Non-number score found.")).
Proof. split; vm_compute; reflexivity. Qed.

(** ** From the loaded object to the state *)

Lemma mapM_as_obj_migrated l :
  exists entries, mapM as_obj (map migrate_entry l) = Some entries
                  /\ Forall entry_normal entries.
Proof.
  induction l as [|e l (entries & IH & Hall)]; [by exists []|].
  destruct (migrate_entry_is_obj e) as [out Hout].
  exists (out :: entries). cbn [map]. rewrite Hout. cbn. rewrite IH.
  split; [done|]. constructor; [by eapply migrate_entry_normal|done].
Qed.

(** The object that [loadState] returns always reads as a [State], with
    every entry in the current shape. *)
Lemma loadState_state_view raw :
  exists st state,
    loadState raw = Ok st /\ state_view st = Some state
    /\ Forall entry_normal (log state).
Proof.
  destruct (loadState_cases raw) as [Hd|(P & pb & pn & l & Hl & _)].
  - eexists _, _. split; [exact Hd|]. split; [vm_compute; reflexivity|]. constructor.
  - destruct (mapM_as_obj_migrated l) as (entries & He & Hall).
    eexists _, _. split; [exact Hl|]. unfold state_view.
    rewrite assemble_lookup_baselines, assemble_lookup_notes, assemble_lookup_log.
    assert (Hf : assemble P pb pn (map migrate_entry l) !! "todayFocus"
                 = Some (default (JStr NO_FOCUS) (P !! "todayFocus"))).
    { rewrite assemble_lookup_other by key_ne. rewrite lookup_union.
      destruct (P !! "todayFocus"); reflexivity. }
    rewrite Hf, He. split; [reflexivity|exact Hall].
Qed.

(** * More properties *)

(** ** [clamp] and [scoreToPct] *)

Lemma num_leb_refl a : Number_isNaN a = false -> num_leb a a = true.
Proof. destruct a; cbn; try done. intros _. apply Qle_bool_iff, Qle_refl. Qed.

Lemma num_leb_total a b :
  Number_isNaN a = false -> Number_isNaN b = false ->
  num_leb a b = false -> num_leb b a = true.
Proof.
  destruct a, b; cbn; try done. intros _ _ Hab.
  apply Qle_bool_iff. apply Qlt_le_weak, Qnot_le_lt. intros Hle.
  apply Qle_bool_iff in Hle. congruence.
Qed.

Lemma num_leb_trans a b c :
  num_leb a b = true -> num_leb b c = true -> num_leb a c = true.
Proof.
  destruct a, b, c; cbn; try done. rewrite !Qle_bool_iff. apply Qle_trans.
Qed.

Lemma num_leb_antisym a b :
  num_leb a b = true -> num_leb b a = true -> num_eqv a b.
Proof.
  destruct a, b; cbn; try done. rewrite !Qle_bool_iff. apply Qle_antisym.
Qed.

Lemma num_leb_not_NaN a b : num_leb a b = true -> Number_isNaN a = false /\ Number_isNaN b = false.
Proof. by destruct a, b. Qed.

Lemma Math_min_cases a b :
  Number_isNaN a = false -> Number_isNaN b = false ->
  (Math_min a b = a /\ num_leb a b = true) \/ (Math_min a b = b /\ num_leb b a = true).
Proof.
  intros Ha Hb. unfold Math_min. destruct (num_leb a b) eqn:E.
  - left. by destruct a, b.
  - right. split; [by destruct a, b|]. by apply num_leb_total.
Qed.

Lemma Math_max_cases a b :
  Number_isNaN a = false -> Number_isNaN b = false ->
  (Math_max a b = b /\ num_leb a b = true) \/ (Math_max a b = a /\ num_leb b a = true).
Proof.
  intros Ha Hb. unfold Math_max. destruct (num_leb a b) eqn:E.
  - left. by destruct a, b.
  - right. split; [by destruct a, b|]. by apply num_leb_total.
Qed.

Lemma clamp_in_bounds n lo hi :
  Number_isNaN n = false -> num_leb lo hi = true ->
  num_leb lo (clamp n lo hi) = true /\ num_leb (clamp n lo hi) hi = true
  /\ (num_leb lo n = true -> num_leb n hi = true -> num_eqv (clamp n lo hi) n)
  /\ (num_leb n lo = true -> num_eqv (clamp n lo hi) lo)
  /\ (num_leb hi n = true -> num_eqv (clamp n lo hi) hi).
Proof.
  intros Hn Hlh. destruct (num_leb_not_NaN _ _ Hlh) as [Hlo Hhi]. unfold clamp.
  destruct (Math_min_cases hi n Hhi Hn) as [[-> H1]|[-> H1]];
    [destruct (Math_max_cases lo hi Hlo Hhi) as [[-> H2]|[-> H2]]
    |destruct (Math_max_cases lo n Hlo Hn) as [[-> H2]|[-> H2]]];
    (split; [|split; [|split; [|split]]]); intros;
    try reflexivity;
    eauto 6 using num_leb_refl, num_leb_trans, num_leb_antisym.
Qed.

Lemma clamp_NaN lo hi : clamp NaN lo hi = NaN.
Proof. unfold clamp. by destruct lo, hi. Qed.

Lemma clamp_crossed n lo hi :
  Number_isNaN n = false -> Number_isNaN lo = false -> Number_isNaN hi = false ->
  num_leb lo hi = false -> num_eqv (clamp n lo hi) lo.
Proof.
  intros Hn Hlo Hhi Hx. unfold clamp.
  assert (Hlh := num_leb_total _ _ Hlo Hhi Hx).
  destruct (Math_min_cases hi n Hhi Hn) as [[-> H1]|[-> H1]];
    [destruct (Math_max_cases lo hi Hlo Hhi) as [[-> H2]|[-> H2]]
    |destruct (Math_max_cases lo n Hlo Hn) as [[-> H2]|[-> H2]]];
    try reflexivity;
    eauto 6 using num_leb_refl, num_leb_trans, num_leb_antisym.
Qed.

(** X1: [clamp(n, min, max)] is [NaN] for [n = NaN]; for another [n] and
    [min <= max] it lies between [min] and [max], is [n] when [n] does,
    [min] when [n <= min] and [max] when [n >= max], and clamping the
    result again changes nothing; with the bounds crossed, [min > max], it
    is [min] whatever [n] is. *)
Theorem clamp_between n lo hi :
  (Number_isNaN n = true -> clamp n lo hi = NaN)
  /\ (Number_isNaN n = false -> num_leb lo hi = true ->
        num_leb lo (clamp n lo hi) = true /\ num_leb (clamp n lo hi) hi = true
        /\ (num_leb lo n = true -> num_leb n hi = true -> num_eqv (clamp n lo hi) n)
        /\ (num_leb n lo = true -> num_eqv (clamp n lo hi) lo)
        /\ (num_leb hi n = true -> num_eqv (clamp n lo hi) hi)
        /\ num_eqv (clamp (clamp n lo hi) lo hi) (clamp n lo hi))
  /\ (Number_isNaN n = false -> Number_isNaN lo = false -> Number_isNaN hi = false ->
      num_leb lo hi = false -> num_eqv (clamp n lo hi) lo).
Proof.
  split; [|split].
  - intros Hn. destruct n; try done. apply clamp_NaN.
  - intros Hn Hlh. destruct (clamp_in_bounds n lo hi Hn Hlh) as (H1 & H2 & H3 & H4 & H5).
    repeat (split; [assumption|]).
    destruct (num_leb_not_NaN _ _ H1) as [_ Hc].
    by apply (clamp_in_bounds (clamp n lo hi) lo hi Hc Hlh).
  - apply clamp_crossed.
Qed.






Lemma Math_min_not_NaN a b :
  Number_isNaN a = false -> Number_isNaN b = false -> Number_isNaN (Math_min a b) = false.
Proof. intros Ha Hb. by destruct (Math_min_cases a b Ha Hb) as [[-> _]|[-> _]]. Qed.



Section Percent.
Context `{Host}.




End Percent.

Example scoreToPct_ex :
  scoreToPct (Some (JNum (Fin 8.5))) = Fin 85
  /\ scoreToPct (Some (JNum (Fin 5.5))) = Fin (7740561859543041 # 140737488355328)
  /\ scoreToPct (Some (JNum (Fin (-5)))) = Fin 0
  /\ scoreToPct (Some (JNum (Fin 15))) = Fin 100
  /\ scoreToPct (Some (JStr "7.5")) = Fin 75
  /\ scoreToPct (Some (JStr "high")) = NaN
  /\ scoreToPct None = NaN.
Proof. vm_compute. repeat split; reflexivity. Qed.

(** ** [escapeHtml] *)

Lemma string_app_cons x (a b : string) : String x a ++ b = String x (a ++ b).
Proof. reflexivity. Qed.

Lemma string_app_nil (b : string) : EmptyString ++ b = b.
Proof. reflexivity. Qed.

Lemma string_app_assoc (a b c : string) : (a ++ b) ++ c = a ++ (b ++ c).
Proof.
  induction a as [|x a IH]; [done|]. rewrite !string_app_cons. by rewrite IH.
Qed.

Lemma replaceAll_app c r s1 s2 :
  replaceAll c r (s1 ++ s2) = replaceAll c r s1 ++ replaceAll c r s2.
Proof.
  induction s1 as [|a s1 IH]; [done|]. rewrite string_app_cons. cbn [replaceAll].
  destruct (Ascii.eqb a c); rewrite IH; [by rewrite string_app_assoc|done].
Qed.

Lemma escapeHtml_string_cons a s :
  escapeHtml_string (String a s) = escape_char a ++ escapeHtml_string s.
Proof.
  unfold escapeHtml_string.
  change (String a s) with (String a EmptyString ++ s).
  rewrite !replaceAll_app. f_equal.
  destruct a as [[] [] [] [] [] [] [] []]; vm_compute; reflexivity.
Qed.

Lemma escapeHtml_string_app s1 s2 :
  escapeHtml_string (s1 ++ s2) = escapeHtml_string s1 ++ escapeHtml_string s2.
Proof. unfold escapeHtml_string. by rewrite !replaceAll_app. Qed.

Lemma occurs_app c s1 s2 : occurs c (s1 ++ s2) = occurs c s1 || occurs c s2.
Proof.
  induction s1 as [|a s1 IH]; [done|]. rewrite string_app_cons. cbn [occurs].
  by rewrite IH, orb_assoc.
Qed.

Lemma escape_char_no_markup a c : is_markup c = true -> occurs c (escape_char a) = false.
Proof.
  unfold is_markup. intros Hc.
  repeat (apply orb_true_iff in Hc as [Hc|Hc]); apply Ascii.eqb_eq in Hc; subst c;
    destruct a as [[] [] [] [] [] [] [] []]; vm_compute; reflexivity.
Qed.

Lemma escapeHtml_string_no_markup s c :
  is_markup c = true -> occurs c (escapeHtml_string s) = false.
Proof.
  intros Hc. induction s as [|a s IH]; [done|].
  by rewrite escapeHtml_string_cons, occurs_app, IH, escape_char_no_markup.
Qed.

Lemma escapeHtml_plain s :
  occurs AMP s = false -> (forall c, is_markup c = true -> occurs c s = false) ->
  escapeHtml_string s = s.
Proof.
  induction s as [|a s IH]; [done|]. intros Hamp Hm.
  rewrite escapeHtml_string_cons. cbn in Hamp. apply orb_false_iff in Hamp as [Ha Hamp].
  rewrite IH; [|done|].
  - assert (Hl := Hm LT eq_refl). assert (Hg := Hm GT eq_refl).
    assert (Hq := Hm QUOT eq_refl). assert (Hp := Hm APOS eq_refl).
    cbn in Hl, Hg, Hq, Hp.
    apply orb_false_iff in Hl as [Hl _]. apply orb_false_iff in Hg as [Hg _].
    apply orb_false_iff in Hq as [Hq _]. apply orb_false_iff in Hp as [Hp _].
    unfold escape_char. by rewrite Ha, Hl, Hg, Hq, Hp.
  - intros c Hc. specialize (Hm c Hc). cbn in Hm. by apply orb_false_iff in Hm as [_ ?].
Qed.

Lemma decode_escape s : forall fuel,
  (String.length s <= fuel)%nat -> decode_entities_loop fuel (escapeHtml_string s) = s.
Proof.
  induction s as [|a s IH]; intros fuel Hf.
  - by destruct fuel.
  - cbn [String.length] in Hf. destruct fuel as [|fuel]; [lia|].
    rewrite escapeHtml_string_cons.
    assert (IH' := IH fuel ltac:(lia)). revert IH'.
    generalize (escapeHtml_string s). intros t IH'.
    destruct a as [[] [] [] [] [] [] [] []];
      match goal with
      | |- context [escape_char ?a] =>
          let e := eval vm_compute in (escape_char a) in
          change (escape_char a) with e
      end;
      rewrite ?string_app_cons, ?string_app_nil; cbn; by rewrite IH'.
Qed.

Lemma well_escaped_cons a t :
  well_escaped t = true -> well_escaped (escape_char a ++ t) = true.
Proof.
  intros Ht.
  destruct a as [[] [] [] [] [] [] [] []];
    match goal with
    | |- context [escape_char ?a] =>
        let e := eval vm_compute in (escape_char a) in
        change (escape_char a) with e
    end;
    rewrite ?string_app_cons, ?string_app_nil; cbn; by rewrite ?Ht.
Qed.

Lemma escapeHtml_string_well_escaped s : well_escaped (escapeHtml_string s) = true.
Proof.
  induction s as [|a s IH]; [done|].
  rewrite escapeHtml_string_cons. by apply well_escaped_cons.
Qed.

Lemma string_length_app (a b : string) :
  String.length (a ++ b) = (String.length a + String.length b)%nat.
Proof.
  induction a as [|x a IH]; [done|]. rewrite string_app_cons. cbn [String.length].
  by rewrite IH.
Qed.

Lemma escape_char_length a : (1 <= String.length (escape_char a))%nat.
Proof. unfold escape_char. repeat case_match; cbn; lia. Qed.

Lemma escapeHtml_string_length s :
  (String.length s <= String.length (escapeHtml_string s))%nat.
Proof.
  induction s as [|a s IH]; [done|]. rewrite escapeHtml_string_cons.
  rewrite string_length_app. cbn [String.length].
  pose proof (escape_char_length a). lia.
Qed.

Lemma escapeHtml_string_inj s1 s2 :
  escapeHtml_string s1 = escapeHtml_string s2 -> s1 = s2.
Proof.
  intros Heq.
  assert (H1 := decode_escape s1 (String.length s1 + String.length s2) ltac:(lia)).
  assert (H2 := decode_escape s2 (String.length s1 + String.length s2) ltac:(lia)).
  rewrite Heq in H1. congruence.
Qed.

Section Escape.
Context `{Host}.

(** X3: the text that [escapeHtml] returns has no [<], no [>], no double
    and no single quote, and every [&] in it begins one of the entities
    [&amp;], [&lt;], [&gt;], [&quot;] and [&#039;]. *)
Theorem escapeHtml_safe (str : value) :
  well_escaped (escapeHtml str) = true
  /\ occurs LT (escapeHtml str) = false
  /\ occurs GT (escapeHtml str) = false
  /\ occurs QUOT (escapeHtml str) = false
  /\ occurs APOS (escapeHtml str) = false.
Proof.
  unfold escapeHtml. split; [apply escapeHtml_string_well_escaped|].
  repeat split; by apply escapeHtml_string_no_markup.
Qed.

(** X4: [escapeHtml] loses nothing: two texts with the same escaped text
    are equal, and [decode_entities] reads the text back.  It escapes a
    concatenation part by part, leaves a text without the five characters
    as it is, and never returns a shorter text. *)
Theorem escapeHtml_lossless :
  (forall s1 s2, escapeHtml_string s1 = escapeHtml_string s2 -> s1 = s2)
  /\ (forall s, decode_entities (escapeHtml_string s) = s)
  /\ (forall s1 s2,
        escapeHtml_string (s1 ++ s2) = escapeHtml_string s1 ++ escapeHtml_string s2)
  /\ (forall s, occurs AMP s = false -> occurs LT s = false -> occurs GT s = false ->
        occurs QUOT s = false -> occurs APOS s = false -> escapeHtml_string s = s)
  /\ (forall s, (String.length s <= String.length (escapeHtml_string s))%nat).
Proof.
  split; [exact escapeHtml_string_inj|]. split; [|split; [exact escapeHtml_string_app|split]].
  - intros s. unfold decode_entities. apply decode_escape, escapeHtml_string_length.
  - intros s Ha Hl Hg Hq Hp. apply escapeHtml_plain; [done|].
    intros c Hc. unfold is_markup in Hc.
    repeat (apply orb_true_iff in Hc as [Hc|Hc]); apply Ascii.eqb_eq in Hc; by subst.
  - exact escapeHtml_string_length.
Qed.
End Escape.

(** ** The reset menu and the delete dialog *)

Lemma fresh_default_eq :
  fresh_default = mkState DEFAULT_baselines DEFAULT_notes (JStr NO_FOCUS) [] ∅.
Proof.
  unfold fresh_default. rewrite clone_DEFAULT_baselines, clone_DEFAULT_notes. reflexivity.
Qed.

Lemma boot_absent : boot absent = Some fresh_default.
Proof. rewrite fresh_default_eq. vm_compute. reflexivity. Qed.

Section ResetAndDelete.
Context `{Host}.

Lemma calcXP_sum_from state : calcXP state = sum_from (Fin 0) (log state).
Proof. reflexivity. Qed.

Lemma value_or_empty_str s : value_or_empty s = JStr s.
Proof.
  unfold value_or_empty, or_else. cbn [truthy].
  destruct (String.eqb s "") eqn:E; [|done]. apply String.eqb_eq in E. by subst.
Qed.

(** X12: "Reset EVERYTHING" gives the state of a first start, whatever the
    other two boxes say; without it, the log box empties the log, as the
    clear-log button does, the baselines box puts the default baselines and
    notes, the focus label and the other properties stay, no box ticked
    changes nothing, applying a choice twice is applying it once, and an
    emptied log earns 0. *)
Theorem resetMenu_resets rLog rBase state :
  resetMenu_onConfirm rLog rBase true state = fresh_default
  /\ boot absent = Some (resetMenu_onConfirm rLog rBase true state)
  /\ resetMenu_onConfirm false false false state = state
  /\ log (resetMenu_onConfirm rLog rBase false state) = (if rLog then [] else log state)
  /\ baselines (resetMenu_onConfirm rLog rBase false state)
     = (if rBase then DEFAULT_baselines else baselines state)
  /\ notes (resetMenu_onConfirm rLog rBase false state)
     = (if rBase then DEFAULT_notes else notes state)
  /\ todayFocus (resetMenu_onConfirm rLog rBase false state) = todayFocus state
  /\ other (resetMenu_onConfirm rLog rBase false state) = other state
  /\ (forall rAll,
        resetMenu_onConfirm rLog rBase rAll (resetMenu_onConfirm rLog rBase rAll state)
        = resetMenu_onConfirm rLog rBase rAll state)
  /\ (rLog = true -> calcXP (resetMenu_onConfirm rLog rBase false state) = Fin 0)
  /\ clearLog_onConfirm state = resetMenu_onConfirm true false false state.
Proof.
  split; [reflexivity|]. split; [apply boot_absent|].
  split; [by destruct state|].
  unfold resetMenu_onConfirm. cbn [negb].
  rewrite clone_DEFAULT_baselines, clone_DEFAULT_notes. cbn [own_props].
  split; [by destruct rLog, rBase|]. split; [by destruct rLog, rBase|].
  split; [by destruct rLog, rBase|]. split; [by destruct rLog, rBase|].
  split; [by destruct rLog, rBase|]. split; [|split].
  - intros rAll. destruct rAll; [done|]. by destruct rLog, rBase.
  - intros ->. by destruct rBase.
  - reflexivity.
Qed.

Lemma filter_none_id id (l : list obj) :
  Forall (fun e => has_id id e = false) l ->
  List.filter (fun e => negb (has_id id e)) l = l.
Proof. induction 1 as [|e l He _ IH]; [done|]. cbn. by rewrite He, IH. Qed.

Lemma filter_sublist {A} (p : A -> bool) (l : list A) : sublist (List.filter p l) l.
Proof.
  induction l as [|e l IH]; [constructor|]. cbn [List.filter].
  destruct (p e); [by apply sublist_skip|by apply sublist_cons].
Qed.

Lemma units_earned_filter (p : obj -> bool) l :
  units_earned l
  = (units_earned (List.filter (fun e => negb (p e)) l)
     + units_earned (List.filter p l))%Z.
Proof.
  induction l as [|e l IH]; [done|]. cbn [List.filter units_earned foldr].
  fold (units_earned l). rewrite IH.
  destruct (p e); cbn [negb units_earned foldr];
    fold (units_earned (List.filter p l));
    fold (units_earned (List.filter (fun e => negb (p e)) l)); lia.
Qed.

Lemma units_total_filter (p : obj -> bool) l :
  Forall (fun e => whole e = true) l ->
  (units_total (List.filter p l) <= units_total l)%Z.
Proof.
  induction 1 as [|e l He _ IH]; [done|]. cbn [List.filter units_total foldr].
  fold (units_total l). pose proof (whole_units e He).
  destruct (p e); cbn [units_total foldr]; fold (units_total (List.filter p l)); lia.
Qed.

(** X11: after a confirmed delete no entry has the id; the other entries
    are all there, in their order; a delete of an id that no entry has
    changes nothing, as does a second delete and a tick of the deleted id;
    baselines and notes are as before.  With whole entries whose XP add up to
    less than [2^53], the earned total before is the total after plus what
    the removed entries had earned, exactly. *)
Theorem deleteEntry_removes id state :
  Forall (fun e => has_id id e = false) (log (deleteEntry_onConfirm id state))
  /\ (forall e, has_id id e = false ->
        (e ∈ log (deleteEntry_onConfirm id state) <-> e ∈ log state))
  /\ sublist (log (deleteEntry_onConfirm id state)) (log state)
  /\ (Forall (fun e => whole e = true) (log state) ->
      (units_total (log state) < 2 ^ 53)%Z ->
      exists after,
        calcXP64 (deleteEntry_onConfirm id state) = Fin (inject_Z after)
        /\ calcXP64 state
           = Fin (inject_Z (after
                            + units_earned (List.filter (has_id id) (log state)))))
  /\ (Forall (fun e => has_id id e = false) (log state) ->
        deleteEntry_onConfirm id state = state)
  /\ deleteEntry_onConfirm id (deleteEntry_onConfirm id state)
     = deleteEntry_onConfirm id state
  /\ (forall checked,
        handleCompleteToggle id checked (deleteEntry_onConfirm id state)
        = deleteEntry_onConfirm id state)
  /\ baselines (deleteEntry_onConfirm id state) = baselines state
  /\ notes (deleteEntry_onConfirm id state) = notes state.
Proof.
  assert (Hnone : Forall (fun e => has_id id e = false)
                    (List.filter (fun e => negb (has_id id e)) (log state))).
  { apply List.Forall_forall. intros e He. apply List.filter_In in He as [_ He].
    by apply negb_true_iff. }
  unfold deleteEntry_onConfirm. cbn [log set_log baselines notes].
  split; [exact Hnone|]. split; [|split; [|split; [|split; [|split; [|split]]]]].
  - intros e He. rewrite !list_elem_of_In, List.filter_In. rewrite He. cbn. tauto.
  - apply filter_sublist.
  - intros Hw Hlt.
    exists (units_earned (List.filter (fun e => negb (has_id id e)) (log state))).
    split.
    + apply calcXP64_whole; cbn [log set_log].
      * apply List.Forall_forall. intros e He. apply List.filter_In in He as [He _].
        revert e He. by apply List.Forall_forall.
      * pose proof (units_total_filter (fun e => negb (has_id id e)) _ Hw). lia.
    + rewrite (calcXP64_whole _ Hw Hlt). do 2 f_equal. apply units_earned_filter.
  - intros Hno. rewrite filter_none_id by done. by destruct state.
  - rewrite filter_none_id by done. reflexivity.
  - intros checked. unfold handleCompleteToggle. cbn [log set_log].
    rewrite complete_found_none by done. reflexivity.
  - done.
Qed.
End ResetAndDelete.

(** ** Writes to an entry *)

Lemma write_all_lookup kvs e k :
  write_all kvs e !! k = match assoc k kvs with Some v => Some v | None => e !! k end.
Proof.
  induction kvs as [|[k' v] kvs IH]; [reflexivity|].
  cbn [write_all foldr assoc fst snd]. fold (write_all kvs e).
  destruct (String.eqb k' k) eqn:E.
  - apply String.eqb_eq in E as ->. apply lookup_insert_eq.
  - apply String.eqb_neq in E. rewrite lookup_insert_ne by done. apply IH.
Qed.

Lemma assoc_None k kvs : k ∉ kvs.*1 -> assoc k kvs = None.
Proof.
  induction kvs as [|[k' v] kvs IH]; [done|]. cbn. intros Hk.
  apply not_elem_of_cons in Hk as [Hne Hk].
  destruct (String.eqb k' k) eqn:E; [|by apply IH].
  apply String.eqb_eq in E. congruence.
Qed.

Lemma assoc_is_Some k kvs : k ∈ kvs.*1 -> is_Some (assoc k kvs).
Proof.
  induction kvs as [|[k' v] kvs IH]; cbn; [by intros ?%elem_of_nil|].
  intros Hk. destruct (String.eqb k' k) eqn:E; [by eexists|].
  apply String.eqb_neq in E. apply elem_of_cons in Hk as [?|?]; [congruence|by apply IH].
Qed.

(** Writes to the same properties overwrite earlier ones. *)
Lemma write_all_absorb kvs' kvs e :
  kvs.*1 ⊆ kvs'.*1 -> write_all kvs' (write_all kvs e) = write_all kvs' e.
Proof.
  intros Hsub. apply map_eq. intros k. rewrite !write_all_lookup.
  destruct (assoc k kvs') eqn:E'; [done|].
  destruct (decide (k ∈ kvs.*1)) as [Hin|Hout].
  - apply Hsub, assoc_is_Some in Hin as [? ?]. congruence.
  - by rewrite assoc_None.
Qed.

Section Writes.
Context `{Host}.

Lemma saveConsoleToLatest_cons form state latest rest :
  log state = latest :: rest ->
  saveConsoleToLatest form state
  = (set_log (write_all (console_writes form) latest :: rest) state, None).
Proof.
  intros Hl. unfold saveConsoleToLatest. rewrite Hl.
  rewrite !value_or_empty_str.
  assert (match c_insightText form with
          | Some s => value_or_empty s | None => JStr "" end
          = JStr (console_insight form)) as ->.
  { unfold console_insight. destruct (c_insightText form); [apply value_or_empty_str|done]. }
  unfold write_all, console_writes. cbn [foldr fst snd]. reflexivity.
Qed.

Lemma edit_fields_writes form e : edit_fields form e = write_all (edit_writes form) e.
Proof.
  unfold edit_fields. rewrite !value_or_empty_str.
  unfold write_all, edit_writes. cbn [foldr fst snd]. reflexivity.
Qed.

Lemma earned_depends e e' :
  e' !! "completed" = e !! "completed" ->
  e' !! "xpPotential" = e !! "xpPotential" -> earned e' = earned e.
Proof. unfold earned. by intros -> ->. Qed.

Lemma has_id_depends id e e' : e' !! "id" = e !! "id" -> has_id id e' = has_id id e.
Proof. unfold has_id. by intros ->. Qed.

Lemma sum_from_app start l1 l2 :
  sum_from start (l1 ++ l2)%list = sum_from (sum_from start l1) l2.
Proof. unfold sum_from. apply fold_left_app. Qed.

End Writes.

(** ** Whole entries and what is written to them *)

Section WholeWrites.
Context `{Host}.

(** An entry with a boolean [completed] and the [xpPotential] of a whole
    entry is whole, with the same XP. *)
Lemma whole_depends e e' b :
  e' !! "completed" = Some (JBool b) ->
  e' !! "xpPotential" = e !! "xpPotential" ->
  whole e = true ->
  whole e' = true /\ xp_units e' = xp_units e /\ is_completed e' = b.
Proof.
  intros Hc Hx Hw. destruct (whole_inv e Hw) as (c & q & Hc0 & Hq & _).
  unfold whole, xp_units, is_completed in *. rewrite Hc, Hx. rewrite Hc0 in Hw.
  done.
Qed.

Lemma session_xp_units kind :
  exists xp, session_xp kind = Fin (inject_Z xp) /\ xp ∈ [10; 18; 25]%Z.
Proof.
  unfold session_xp. repeat case_match; eexists; (split; [reflexivity|]).
  - apply list_elem_of_here.
  - apply list_elem_of_further, list_elem_of_here.
  - do 2 apply list_elem_of_further. apply list_elem_of_here.
Qed.

Lemma new_entry_whole id time title categories (xp : Z) :
  (0 < xp)%Z ->
  let e := new_entry id time title categories (Some (JNum (Fin (inject_Z xp)))) in
  whole e = true /\ xp_units e = xp /\ is_completed e = false.
Proof.
  intros Hxp e.
  assert (Hx : e !! "xpPotential" = Some (JNum (Fin (inject_Z xp)))).
  { unfold e. rewrite new_entry_xpPotential. unfold or_else. cbn [truthy num_truthy].
    assert (Qeq_bool (inject_Z xp) 0 = false) as ->; [|done].
    apply not_true_is_false. intros E. apply Qeq_bool_iff in E.
    unfold Qeq in E. cbn in E. lia. }
  assert (Hc : e !! "completed" = Some (JBool false)) by apply new_entry_completed.
  unfold whole, xp_units, is_completed. rewrite Hc, Hx, Qfloor_Z.
  split; [|done]. apply andb_true_intro. split.
  - apply Qle_bool_iff. unfold Qle. cbn. lia.
  - apply Qeq_bool_iff. reflexivity.
Qed.
(** The total of a log whose head is a whole entry. *)
Lemma calcXP64_head state e l b xp :
  log state = e :: l ->
  whole e = true -> xp_units e = xp -> is_completed e = b ->
  Forall (fun e => whole e = true) l ->
  (xp + units_total l < 2 ^ 53)%Z ->
  calcXP64 state = Fin (inject_Z (units_earned l + (if b then xp else 0))).
Proof.
  intros Hlog He Hxp Hb Hl Hlt. rewrite calcXP64_whole.
  - rewrite Hlog. cbn [units_earned foldr]. fold (units_earned l).
    rewrite Hxp, Hb. do 2 f_equal. lia.
  - rewrite Hlog. by constructor.
  - rewrite Hlog. cbn [units_total foldr]. fold (units_total l). by rewrite Hxp.
Qed.
End WholeWrites.

(** ** The console and the edit dialog *)

Section ConsoleAndEdit.
Context `{Host}.

Lemma update_found_finds id f l before e after :
  finds id l before e after ->
  update_found id f l = (before ++ f e :: after)%list.
Proof.
  intros (-> & Hb & He). induction Hb as [|e' before He' _ IH].
  - cbn. by rewrite He.
  - cbn. by rewrite He', IH.
Qed.

Lemma update_found_none id f l :
  Forall (fun e' => has_id id e' = false) l -> update_found id f l = l.
Proof. induction 1 as [|e l He _ IH]; [done|]. cbn. by rewrite He, IH. Qed.

(** [find] returns an entry or none has the id. *)
Lemma finds_or_none id (l : list obj) :
  (exists before e after, finds id l before e after)
  \/ Forall (fun e' => has_id id e' = false) l.
Proof.
  induction l as [|e l IH]; [right; constructor|].
  destruct (has_id id e) eqn:He.
  - left. exists [], e, l. by repeat split.
  - destruct IH as [(before & e' & after & -> & Hb & He')|Hn].
    + left. exists (e :: before), e', after. split; [done|]. split; [|done].
      by constructor.
    + right. by constructor.
Qed.

Lemma update_found_sum id f l :
  (forall e, earned (f e) = earned e) ->
  sum_from (Fin 0) (update_found id f l) = sum_from (Fin 0) l.
Proof.
  intros Hf. destruct (finds_or_none id l) as [(before & e & after & Hfind)|Hn].
  - rewrite (update_found_finds _ _ _ _ _ _ Hfind). destruct Hfind as (-> & _).
    by rewrite !sum_from_middle, Hf.
  - by rewrite update_found_none.
Qed.

Lemma update_found_twice id f g l :
  (forall e, has_id id (f e) = has_id id e) ->
  update_found id g (update_found id f l) = update_found id (fun e => g (f e)) l.
Proof.
  intros Hf. induction l as [|e l IH]; [done|]. cbn.
  destruct (has_id id e) eqn:He; cbn.
  - by rewrite Hf, He.
  - by rewrite He, IH.
Qed.

Lemma update_found_ext id f g l :
  (forall e, f e = g e) -> update_found id f l = update_found id g l.
Proof.
  intros Hext. induction l as [|e l IH]; [done|]. cbn. by rewrite Hext, IH.
Qed.

Lemma write_all_other kvs e k : k ∉ kvs.*1 -> write_all kvs e !! k = e !! k.
Proof. intros Hk. by rewrite write_all_lookup, assoc_None. Qed.

Lemma edit_fields_earned form e : earned (edit_fields form e) = earned e.
Proof.
  rewrite edit_fields_writes.
  apply earned_depends; rewrite write_all_lookup; reflexivity.
Qed.

Lemma edit_fields_id id form e : has_id id (edit_fields form e) = has_id id e.
Proof.
  rewrite edit_fields_writes.
  apply has_id_depends; rewrite write_all_lookup; reflexivity.
Qed.

Lemma edit_writes_keys form : (edit_writes form).*1 ≡ₚ edit_keys.
Proof.
  cbn. unfold edit_keys.
  change ["liked"; "difficulty"; "sleepHrs"; "mood"; "insightText"; "answerText"; "challengeText"]
    with (reverse edit_keys). apply reverse_Permutation.
Qed.

(** X10: Save in the edit dialog leaves the earned total, the length of
    the log, the baselines and the notes as they are; it changes nothing if
    no entry has the id; otherwise the first entry with the id gets the
    seven fields of the form and keeps every other property, [completed]
    and [xpPotential] among them; of two edits of the same id the second
    decides. *)
Theorem editEntry_edits id form state :
  calcXP (editEntry_onConfirm id form state) = calcXP state
  /\ length (log (editEntry_onConfirm id form state)) = length (log state)
  /\ baselines (editEntry_onConfirm id form state) = baselines state
  /\ notes (editEntry_onConfirm id form state) = notes state
  /\ (Forall (fun e => has_id id e = false) (log state) ->
        editEntry_onConfirm id form state = state)
  /\ (forall before e after, finds id (log state) before e after ->
        exists e',
          log (editEntry_onConfirm id form state) = (before ++ e' :: after)%list
          /\ e' !! "challengeText" = Some (JStr (editChallenge form))
          /\ e' !! "answerText" = Some (JStr (editNotes form))
          /\ e' !! "insightText" = Some (JStr (editInsights form))
          /\ e' !! "mood" = Some (JStr (editMood form))
          /\ e' !! "sleepHrs" = Some (JStr (editSleep form))
          /\ e' !! "difficulty" = Some (JStr (editDiff form))
          /\ e' !! "liked" = Some (JStr (editLike form))
          /\ forall k, k ∉ edit_keys -> e' !! k = e !! k)
  /\ (forall form',
        editEntry_onConfirm id form' (editEntry_onConfirm id form state)
        = editEntry_onConfirm id form' state).
Proof.
  unfold editEntry_onConfirm. cbn [log set_log baselines notes].
  split; [|split; [|split; [|split; [|split; [|split]]]]].
  - rewrite !calcXP_sum_from. cbn [log set_log].
    apply update_found_sum, edit_fields_earned.
  - destruct (finds_or_none id (log state)) as [(before & e & after & Hfind)|Hn].
    + rewrite (update_found_finds _ _ _ _ _ _ Hfind). destruct Hfind as (-> & _).
      by rewrite !length_app.
    + by rewrite update_found_none.
  - done.
  - done.
  - intros Hn. rewrite update_found_none by done. by destruct state.
  - intros before e after Hfind. exists (edit_fields form e).
    split; [by apply update_found_finds|].
    rewrite edit_fields_writes.
    repeat (split; [rewrite write_all_lookup; reflexivity|]).
    intros k Hk. apply write_all_other. by rewrite edit_writes_keys.
  - intros form'. unfold set_log. cbn [log baselines notes todayFocus other].
    rewrite update_found_twice by apply edit_fields_id.
    f_equal. apply update_found_ext. intros e.
    rewrite !edit_fields_writes. apply write_all_absorb.
    intros k. by rewrite !edit_writes_keys.
Qed.

Lemma console_writes_keys form : (console_writes form).*1 ≡ₚ console_keys.
Proof.
  cbn. unfold console_keys.
  change ["completed"; "liked"; "difficulty"; "sleepHrs"; "mood"; "insightText";
          "answerText"; "challengeText"]
    with (reverse console_keys). apply reverse_Permutation.
Qed.

Lemma saveConsoleToLatest_earned form latest :
  earned (write_all (console_writes form) latest)
  = if c_completeToggle form then Number_or_0 (latest !! "xpPotential") else Fin 0.
Proof.
  unfold earned. rewrite !write_all_lookup.
  change (assoc "completed" (console_writes form))
    with (Some (JBool (c_completeToggle form))).
  change (assoc "xpPotential" (console_writes form)) with (@None json).
  cbn [truthy]. reflexivity.
Qed.

(** X9: with an empty log, Save in the console changes nothing and reports
    that there is no entry; otherwise it writes the seven text fields and
    [completed] from the form to the newest entry, leaves the other
    properties of that entry (id, time, title, categories, xpPotential) and
    all other entries as they are, and the earned total is the sum that
    starts with the newest entry's [xpPotential] if the box is ticked, with 0
    if it is not, and goes on over the other entries in their order; with
    whole entries whose XP add up to less than [2^53] that is the sum of the
    others and the newest entry's [xpPotential], exactly. *)
Theorem saveConsoleToLatest_saves form state :
  (log state = [] -> saveConsoleToLatest form state = (state, Some NO_ENTRY_YET))
  /\ (forall latest rest, log state = latest :: rest ->
        exists latest',
          saveConsoleToLatest form state = (set_log (latest' :: rest) state, None)
          /\ latest' !! "challengeText" = Some (JStr (c_challengeText form))
          /\ latest' !! "answerText" = Some (JStr (c_answerText form))
          /\ latest' !! "insightText" = Some (JStr (default "" (c_insightText form)))
          /\ latest' !! "mood" = Some (JStr (c_moodSel form))
          /\ latest' !! "sleepHrs" = Some (JStr (c_sleepHrs form))
          /\ latest' !! "difficulty" = Some (JStr (c_diffSel form))
          /\ latest' !! "liked" = Some (JStr (c_likeSel form))
          /\ latest' !! "completed" = Some (JBool (c_completeToggle form))
          /\ (forall k, k ∉ console_keys -> latest' !! k = latest !! k)
          /\ calcXP64 (saveConsoleToLatest form state).1
             = sum_from64
                 (num_add64 (Fin 0)
                    (if c_completeToggle form
                     then Number_or_0 (latest !! "xpPotential") else Fin 0))
                 rest
          /\ (Forall (fun e => whole e = true) (log state) ->
              (units_total (log state) < 2 ^ 53)%Z ->
              calcXP64 (saveConsoleToLatest form state).1
              = Fin (inject_Z (units_earned rest
                               + (if c_completeToggle form then xp_units latest else 0))))).
Proof.
  split.
  - intros Hl. unfold saveConsoleToLatest. by rewrite Hl.
  - intros latest rest Hl. exists (write_all (console_writes form) latest).
    rewrite (saveConsoleToLatest_cons _ _ _ _ Hl).
    split; [reflexivity|].
    repeat (split; [rewrite write_all_lookup; reflexivity|]).
    split; [|split].
    + intros k Hk. apply write_all_other. by rewrite console_writes_keys.
    + cbn [fst]. rewrite calcXP64_sum_from64. cbn [log set_log].
      cbn [sum_from64 fold_left]. by rewrite saveConsoleToLatest_earned.
    + intros Hw Hlt. cbn [fst]. rewrite Hl in Hw, Hlt.
      apply Forall_cons in Hw as [Hw Hrest].
      cbn [units_total foldr] in Hlt. fold (units_total rest) in Hlt.
      destruct (whole_depends latest (write_all (console_writes form) latest)
                  (c_completeToggle form)) as (Hw' & Hu' & Hc');
        [by rewrite write_all_lookup|by rewrite write_all_lookup|done|].
      by apply (calcXP64_head _ (write_all (console_writes form) latest) rest
                  (c_completeToggle form) (xp_units latest)).
Qed.
End ConsoleAndEdit.

(** ** Sessions and their XP *)

Section Credit.
Context `{Host}.

Lemma new_entry_id id time title categories xpPotential :
  new_entry id time title categories xpPotential !! "id" = Some (JStr id).
Proof.
  unfold new_entry. cbn [list_to_map foldr]. unfold curry; cbn [fst snd].
  by rewrite lookup_insert_eq.
Qed.

Lemma new_entry_has_id id time title categories xpPotential :
  has_id id (new_entry id time title categories xpPotential) = true.
Proof. unfold has_id. rewrite new_entry_id. apply String.eqb_refl. Qed.

Lemma new_entry_earned id time title categories xpPotential :
  earned (new_entry id time title categories xpPotential) = Fin 0.
Proof. unfold earned. by rewrite new_entry_completed. Qed.

Lemma new_entry_categories id time title categories xpPotential :
  new_entry id time title categories xpPotential !! "categories" = Some categories.
Proof.
  unfold new_entry. cbn [list_to_map foldr]. unfold curry; cbn [fst snd].
  do 3 (rewrite lookup_insert_ne by key_ne). by rewrite lookup_insert_eq.
Qed.

Lemma new_entry_time id time title categories xpPotential :
  new_entry id time title categories xpPotential !! "time" = Some (JStr time).
Proof.
  unfold new_entry. cbn [list_to_map foldr]. unfold curry; cbn [fst snd].
  do 1 (rewrite lookup_insert_ne by key_ne). by rewrite lookup_insert_eq.
Qed.

Lemma has_id_insert id k v (e : obj) : k <> "id" -> has_id id (<[k := v]> e) = has_id id e.
Proof. intros Hk. apply has_id_depends. by rewrite lookup_insert_ne. Qed.

Lemma runSession_log rnd id time kind count state :
  log (runSession rnd id time kind count state)
  = new_entry id time (JStr kind)
      (JArr (from_option JStr JNull
               <$> pickRandom rnd (Object_keys (baselines state)) count))
      (Some (JNum (session_xp kind))) :: log state.
Proof. reflexivity. Qed.

(** X6: in a state of whole entries whose XP add up to less than
    [2^53 - 25], rolling a session leaves the earned total as it is; ticking
    the entry just rolled adds the XP of its kind, 10, 18 or 25, to the
    total, and unticking it again gives the total before; saving the console
    after the roll adds that XP if the console's box is ticked and nothing
    if it is not.  No sum is rounded. *)
Theorem completing_a_roll_credits_xp rnd id time kind count state :
  Forall (fun e => whole e = true) (log state) ->
  (units_total (log state) + 25 < 2 ^ 53)%Z ->
  exists xp,
    session_xp kind = Fin (inject_Z xp) /\ xp ∈ [10; 18; 25]%Z
    /\ calcXP64 state = Fin (inject_Z (units_earned (log state)))
    /\ calcXP64 (runSession rnd id time kind count state) = calcXP64 state
    /\ calcXP64 (handleCompleteToggle id true (runSession rnd id time kind count state))
       = Fin (inject_Z (units_earned (log state) + xp))
    /\ calcXP64 (handleCompleteToggle id false
                   (handleCompleteToggle id true (runSession rnd id time kind count state)))
       = calcXP64 state
    /\ (forall form,
          calcXP64 (saveConsoleToLatest form (runSession rnd id time kind count state)).1
          = Fin (inject_Z (units_earned (log state)
                           + (if c_completeToggle form then xp else 0)))).
Proof.
  intros Hl Hlt. destruct (session_xp_units kind) as (xp & Hxp & Hin).
  assert (Hr : (0 < xp <= 25)%Z).
  { rewrite !elem_of_cons, elem_of_nil in Hin. lia. }
  exists xp. split; [exact Hxp|]. split; [exact Hin|].
  assert (H0 : calcXP64 state = Fin (inject_Z (units_earned (log state))))
    by (apply calcXP64_whole; [done|lia]).
  split; [exact H0|]. rewrite H0.
  set (rolled := runSession rnd id time kind count state).
  assert (Hlog := runSession_log rnd id time kind count state). fold rolled in Hlog.
  rewrite Hxp in Hlog.
  destruct (new_entry_whole id time (JStr kind)
              (JArr (from_option JStr JNull
                       <$> pickRandom rnd (Object_keys (baselines state)) count))
              xp ltac:(lia)) as (Hw & Hu & Hc).
  set (fresh := new_entry _ _ _ _ _) in *.
  assert (Hid : has_id id fresh = true) by apply new_entry_has_id.
  assert (Hb : (xp + units_total (log state) < 2 ^ 53)%Z) by lia.
  split; [|split; [|split]].
  - rewrite (calcXP64_head rolled fresh (log state) false xp) by done.
    by rewrite Z.add_0_r.
  - destruct (whole_depends fresh (<["completed" := JBool true]> fresh) true)
      as (Hw' & Hu' & Hc'); [apply lookup_insert_eq|by rewrite lookup_insert_ne by key_ne|done|].
    rewrite Hu in Hu'.
    apply (calcXP64_head _ (<["completed" := JBool true]> fresh) (log state) true xp);
      try done.
    unfold handleCompleteToggle. cbn [log set_log]. rewrite Hlog. cbn [complete_found].
    by rewrite Hid.
  - destruct (whole_depends fresh
                (<["completed" := JBool false]> (<["completed" := JBool true]> fresh)) false)
      as (Hw' & Hu' & Hc');
      [apply lookup_insert_eq|by rewrite !lookup_insert_ne by key_ne|done|].
    rewrite Hu in Hu'.
    rewrite (calcXP64_head _ (<["completed" := JBool false]>
                                (<["completed" := JBool true]> fresh))
               (log state) false xp); try done; [by rewrite Z.add_0_r|].
    unfold handleCompleteToggle. cbn [log set_log]. rewrite Hlog. cbn [complete_found].
    rewrite Hid. cbn [complete_found]. by rewrite has_id_insert, Hid by key_ne.
  - intros form. rewrite (saveConsoleToLatest_cons _ _ _ _ Hlog). cbn [fst].
    destruct (whole_depends fresh (write_all (console_writes form) fresh)
                (c_completeToggle form)) as (Hw' & Hu' & Hc');
      [by rewrite write_all_lookup|by rewrite write_all_lookup|done|].
    rewrite Hu in Hu'.
    by apply (calcXP64_head _ (write_all (console_writes form) fresh) (log state)
                (c_completeToggle form) xp).
Qed.
End Credit.

Section Retest.
Context `{Host}.
Variable render_returns : State -> bool.

Lemma quickRetest_onConfirm_state_unfold id time category newScore overwrite state :
  Number_isNaN (ToNumber (Some (JStr newScore))) = false ->
  converts (baselines state !! category) = true ->
  let score := clamp (ToNumber (Some (JStr newScore))) (Fin 0) (Fin 10) in
  let created := quickRetest_create id time category score overwrite state in
  let fresh := new_entry id time (JStr "Re-test") (JArr [JStr category])
                 (Some (JNum (Fin 6))) in
  quickRetest_onConfirm_state render_returns id time category newScore overwrite state
  = if render_returns created
    then set_log
           (<["completed" := JBool true]>
              (<["answerText" :=
                   JStr (retest_note score (ToNumber (baselines state !! category))
                           overwrite)]> fresh) :: log state) created
    else created.
Proof.
  intros Hnum Hconv score created fresh.
  unfold quickRetest_onConfirm_state. rewrite Hnum, Hconv. cbn [negb].
  fold score. fold created. destruct (render_returns created); [|done].
  unfold set_latest at 2. unfold created at 1. rewrite quickRetest_create_log.
  rewrite bind_Ok. unfold set_latest. cbn [log set_log].
  unfold set_log. cbn [baselines notes todayFocus log other]. reflexivity.
Qed.

(** X7: in a state of whole entries whose XP add up to less than
    [2^53 - 6], a re-test whose score field does not read as a number, or for
    a category whose stored baseline [Number] does not convert, changes
    nothing.  Otherwise the handler puts an entry at the head of the log with
    the given id, the re-tested category and 6 XP.  If the [render()] of
    [addLogEntry] returns, the handler does too, the entry is completed, the
    earned total is 6 more, exactly, and unticking the entry gives the
    total before.  If that [render()] throws, the entry stays as
    [addLogEntry] made it, not completed and without its note, and the
    earned total is as before. *)
Theorem quickRetest_credits_xp id time category newScore overwrite state created state' :
  Forall (fun e => whole e = true) (log state) ->
  (units_total (log state) + 6 < 2 ^ 53)%Z ->
  created = quickRetest_create id time category
              (clamp (ToNumber (Some (JStr newScore))) (Fin 0) (Fin 10)) overwrite state ->
  state' = quickRetest_onConfirm_state render_returns id time category newScore
             overwrite state ->
  (Number_isNaN (ToNumber (Some (JStr newScore))) = true -> state' = state)
  /\ (converts (baselines state !! category) = false -> state' = state)
  /\ (Number_isNaN (ToNumber (Some (JStr newScore))) = false ->
      converts (baselines state !! category) = true ->
      exists e,
        log state' = e :: log state
        /\ e !! "id" = Some (JStr id)
        /\ e !! "xpPotential" = Some (JNum (Fin 6))
        /\ e !! "categories" = Some (JArr [JStr category])
        /\ (render_returns created = true ->
              quickRetest_onConfirm id time category newScore overwrite state = Ok state'
              /\ e !! "completed" = Some (JBool true)
              /\ calcXP64 state' = Fin (inject_Z (units_earned (log state) + 6))
              /\ calcXP64 (handleCompleteToggle id false state') = calcXP64 state)
        /\ (render_returns created = false ->
              state' = created
              /\ e !! "completed" = Some (JBool false)
              /\ e !! "answerText" = Some (JStr "")
              /\ calcXP64 state' = calcXP64 state)).
Proof.
  intros Hl Hlt -> ->. split; [|split].
  { intros Hnan. unfold quickRetest_onConfirm_state. by rewrite Hnan. }
  { intros Hconv. unfold quickRetest_onConfirm_state. rewrite Hconv.
    by destruct (Number_isNaN _). }
  intros Hnum Hconv.
  rewrite (quickRetest_onConfirm_state_unfold _ _ _ _ _ _ Hnum Hconv). cbn zeta.
  set (score := clamp _ _ _).
  set (created := quickRetest_create id time category score overwrite state).
  assert (Hclog := quickRetest_create_log id time category score overwrite state).
  fold created in Hclog.
  destruct (new_entry_whole id time (JStr "Re-test") (JArr [JStr category]) 6 ltac:(lia))
    as (Hw & Hu & Hc).
  change (Fin (inject_Z 6)) with (Fin 6) in Hw, Hu, Hc.
  set (fresh := new_entry id time (JStr "Re-test") (JArr [JStr category])
                  (Some (JNum (Fin 6)))) in *.
  assert (H0 : calcXP64 state = Fin (inject_Z (units_earned (log state))))
    by (apply calcXP64_whole; [done|lia]).
  assert (Hb : (6 + units_total (log state) < 2 ^ 53)%Z) by lia.
  assert (Hxp : fresh !! "xpPotential" = Some (JNum (Fin 6))).
  { unfold fresh. by rewrite new_entry_xpPotential. }
  destruct (render_returns created) eqn:Hrender.
  - set (note := retest_note _ _ _).
    set (e := <["completed" := JBool true]> (<["answerText" := JStr note]> fresh)).
    exists e. split; [reflexivity|].
    split; [unfold e; do 2 (rewrite lookup_insert_ne by key_ne); apply new_entry_id|].
    split; [unfold e; by do 2 (rewrite lookup_insert_ne by key_ne)|].
    split; [unfold e; do 2 (rewrite lookup_insert_ne by key_ne);
            apply new_entry_categories|].
    split; [|done]. intros _.
    destruct (whole_depends fresh e true) as (Hw' & Hu' & Hc');
      [apply lookup_insert_eq|by unfold e; rewrite !lookup_insert_ne by key_ne|done|].
    rewrite Hu in Hu'.
    split; [|split; [apply lookup_insert_eq|split]].
    + unfold quickRetest_onConfirm. rewrite Hnum. fold score. fold created.
      unfold set_latest at 2. rewrite Hclog. rewrite bind_Ok.
      unfold set_latest. cbn [log set_log]. unfold set_log.
      cbn [baselines notes todayFocus log other]. reflexivity.
    + by apply (calcXP64_head _ e (log state) true 6).
    + destruct (whole_depends fresh (<["completed" := JBool false]> e) false)
        as (Hw'' & Hu'' & Hc'');
        [apply lookup_insert_eq|by unfold e; rewrite !lookup_insert_ne by key_ne|done|].
      rewrite Hu in Hu''.
      rewrite (calcXP64_head _ (<["completed" := JBool false]> e) (log state) false 6);
        try done; [by rewrite Z.add_0_r, H0|].
      unfold handleCompleteToggle. cbn [log set_log complete_found].
      assert (has_id id e = true) as ->; [|done].
      unfold e. rewrite !has_id_insert by key_ne. apply new_entry_has_id.
  - exists fresh. split; [exact Hclog|].
    split; [apply new_entry_id|]. split; [exact Hxp|].
    split; [apply new_entry_categories|]. split; [done|]. intros _.
    split; [done|]. split; [apply new_entry_completed|].
    split; [unfold fresh; vm_compute; reflexivity|].
    rewrite (calcXP64_head created fresh (log state) false 6) by done.
    by rewrite Z.add_0_r, H0.
Qed.
End Retest.

Lemma completing_a_roll_credits_xp_witness :
  Forall (fun e => whole e = true) (log sample_state)
  /\ (units_total (log sample_state) + 25 < 2 ^ 53)%Z
  /\ calcXP64 sample_state = Fin 35
  /\ calcXP64 (handleCompleteToggle "id-4" true
                 (runSession (fun _ => 1 # 2) "id-4" "Jan 07, 2026, 07:45 AM"
                    "Tri-Skill Sprint" 3 sample_state)) = Fin 53.
Proof.
  assert (H2 : (units_total (log sample_state) + 25 < 2 ^ 53)%Z)
    by (vm_compute; reflexivity).
  split; [exact sample_state_whole|]. split; [exact H2|].
  destruct (completing_a_roll_credits_xp (fun _ => 1 # 2) "id-4" "Jan 07, 2026, 07:45 AM"
              "Tri-Skill Sprint" 3 sample_state sample_state_whole H2)
    as (xp & Hxp & _ & H0 & _ & Ht & _).
  rewrite H0, Ht. vm_compute in Hxp. injection Hxp as <-.
  split; vm_compute; reflexivity.
Defined.

Lemma quickRetest_credits_xp_witness :
  Forall (fun e => whole e = true) (log sample_state)
  /\ (units_total (log sample_state) + 6 < 2 ^ 53)%Z
  /\ calcXP64 (quickRetest_onConfirm_state (fun _ => true) "id-9"
                 "Jan 06, 2026, 08:00 AM" "Quick Math" "7.5" true sample_state) = Fin 41
  /\ calcXP64 (quickRetest_onConfirm_state (fun _ => false) "id-9"
                 "Jan 06, 2026, 08:00 AM" "Quick Math" "7.5" true sample_state) = Fin 35.
Proof.
  assert (H2 : (units_total (log sample_state) + 6 < 2 ^ 53)%Z)
    by (vm_compute; reflexivity).
  assert (Hn : Number_isNaN (ToNumber (Some (JStr "7.5"))) = false)
    by (vm_compute; reflexivity).
  assert (Hc : converts (baselines sample_state !! "Quick Math") = true)
    by (vm_compute; reflexivity).
  split; [exact sample_state_whole|]. split; [exact H2|]. split.
  - destruct (quickRetest_credits_xp (fun _ => true) "id-9" "Jan 06, 2026, 08:00 AM"
                "Quick Math" "7.5" true sample_state _ _ sample_state_whole H2
                eq_refl eq_refl) as (_ & _ & H3).
    destruct (H3 Hn Hc) as (e & _ & _ & _ & _ & Hyes & _).
    destruct (Hyes eq_refl) as (_ & _ & Ht & _). rewrite Ht.
    vm_compute. reflexivity.
  - destruct (quickRetest_credits_xp (fun _ => false) "id-9" "Jan 06, 2026, 08:00 AM"
                "Quick Math" "7.5" true sample_state _ _ sample_state_whole H2
                eq_refl eq_refl) as (_ & _ & H3).
    destruct (H3 Hn Hc) as (e & _ & _ & _ & _ & _ & Hno).
    destruct (Hno eq_refl) as (_ & _ & _ & Ht). rewrite Ht.
    vm_compute. reflexivity.
Defined.

Example quickRetest_render_throws_ex :
  (fun state' => (length (log state'), (fun e => e !! "completed") <$> head (log state'),
                  baselines state' !! "Quick Math", calcXP64 state'))
    (quickRetest_onConfirm_state (fun _ => false) "id-9" "Jan 06, 2026, 08:00 AM"
       "Quick Math" "7.5" true sample_state)
  = (4%nat, Some (Some (JBool false)), Some (JNum (Fin 7.5)), Fin 35).
Proof. vm_compute. reflexivity. Qed.

Section Roll.
Context `{Host}.
Variable rnd : nat -> Q.
Hypothesis rnd_range : forall c, (0 <= rnd c /\ rnd c < 1)%Q.

Lemma fmap_default_Some (l : list string) : (default "" <$> (Some <$> l)) = l.
Proof. induction l as [|x l IH]; [done|]. cbn. by rewrite IH. Qed.

Lemma fmap_from_option_Some (l : list string) :
  (from_option JStr JNull <$> (Some <$> l)) = JStr <$> l.
Proof. induction l as [|x l IH]; [done|]. cbn. by rewrite IH. Qed.

(** X5: with [Math.random()] in [[0, 1)], [runSession(kind, count)] puts
    one entry at the head of the log, with the id and the time it was given
    and, as categories, [min count n] names of the [n] baselines, no name
    twice, all [n] of them when [count >= n]; the focus label is these names
    joined by [" • "]; baselines, notes and the other properties of the
    state are as before. *)
Theorem runSession_rolls id time kind count state :
  exists picked e,
    log (runSession rnd id time kind count state) = e :: log state
    /\ e !! "id" = Some (JStr id)
    /\ e !! "time" = Some (JStr time)
    /\ e !! "categories" = Some (JArr (JStr <$> picked))
    /\ todayFocus (runSession rnd id time kind count state) = JStr (join " • " picked)
    /\ length picked = Nat.min count (size (baselines state))
    /\ NoDup picked
    /\ (forall c, c ∈ picked -> is_Some (baselines state !! c))
    /\ ((size (baselines state) <= count)%nat ->
          forall c, is_Some (baselines state !! c) -> c ∈ picked)
    /\ baselines (runSession rnd id time kind count state) = baselines state
    /\ notes (runSession rnd id time kind count state) = notes state
    /\ other (runSession rnd id time kind count state) = other state.
Proof using rnd_range.
  destruct (pickRandom_loop_spec rnd rnd_range count 0 (Object_keys (baselines state)) [])
    as (picked & rest & Hr & Hp & Hl).
  change (pickRandom_loop rnd 0 count (Object_keys (baselines state)) [])
    with (pickRandom rnd (Object_keys (baselines state)) count) in Hr.
  cbn [app] in Hr.
  assert (Hkeys : forall c, c ∈ Object_keys (baselines state)
                            <-> is_Some (baselines state !! c)).
  { intros c. unfold Object_keys. rewrite list_elem_of_fmap. split.
    - intros ([k v] & -> & Hin). apply elem_of_map_to_list in Hin. by exists v.
    - intros [v Hv]. exists (c, v). split; [done|]. by apply elem_of_map_to_list. }
  assert (Hnd : NoDup (Object_keys (baselines state))) by apply NoDup_fst_map_to_list.
  assert (Hlen : length (Object_keys (baselines state)) = size (baselines state)).
  { unfold Object_keys. by rewrite length_fmap, length_map_to_list. }
  exists picked, (new_entry id time (JStr kind) (JArr (JStr <$> picked))
                    (Some (JNum (session_xp kind)))).
  split; [|split; [|split; [|split; [|split; [|split; [|split; [|split]]]]]]].
  - rewrite runSession_log, Hr, fmap_from_option_Some. reflexivity.
  - apply new_entry_id.
  - apply new_entry_time.
  - apply new_entry_categories.
  - unfold runSession, addLogEntry. cbn [todayFocus set_log set_todayFocus].
    by rewrite Hr, fmap_default_Some.
  - by rewrite Hl, Hlen.
  - rewrite Hp in Hnd. by apply NoDup_app in Hnd as [? _].
  - intros c Hc. apply Hkeys. rewrite Hp. apply elem_of_app. by left.
  - split; [|done]. intros Hall c Hc. apply Hkeys in Hc.
    assert (rest = []) as ->.
    { apply Permutation_length in Hp. rewrite length_app in Hp.
      apply length_zero_iff_nil. lia. }
    rewrite app_nil_r in Hp. by rewrite <- Hp.
Qed.
End Roll.

(** ** What every handler writes *)

(** A property of the baselines [Pb], of the notes [Pn], of the focus
    label [Pf], of every entry [Pe] and of the other properties [Po] that
    the values which the handlers write keep: the default baselines and
    notes, a score in [[0, 10]], a label, a new entry, [completed] and a
    text field. *)
Section Invariant.
Context `{Host}.
Variables (Pb Pn Po : obj -> Prop) (Pf : json -> Prop) (Pe : obj -> Prop).

Hypothesis Pb_default : Pb DEFAULT_baselines.
Hypothesis Pb_insert : forall b c q,
  (0 <= q /\ q <= 10)%Q -> Pb b -> Pb (<[c := JNum (Fin q)]> b).
Hypothesis Pb_scores : forall m : obj,
  map_Forall (fun _ v => score_ok v = true) m -> Pb m.
Hypothesis Pn_default : Pn DEFAULT_notes.
Hypothesis Pf_label : forall s, Pf (JStr s).
Hypothesis Pe_new : forall id time kind cats xp,
  Forall (fun c => c = JNull \/ exists s, c = JStr s) cats ->
  xp ∈ [6; 10; 18; 25]%Q ->
  Pe (new_entry id time (JStr kind) (JArr cats) (Some (JNum (Fin xp)))).
Hypothesis Pe_completed : forall e b, Pe e -> Pe (<["completed" := JBool b]> e).
Hypothesis Pe_text : forall e k s, k ∈ text_fields -> Pe e -> Pe (<[k := JStr s]> e).
Hypothesis Po_empty : Po ∅.

Lemma Pe_write_all kvs e :
  Forall (fun kv => (kv.1 = "completed" /\ exists b, kv.2 = JBool b)
                    \/ (kv.1 ∈ text_fields /\ exists s, kv.2 = JStr s)) kvs ->
  Pe e -> Pe (write_all kvs e).
Proof using Pe_completed Pe_text.
  intros Hkvs He. induction Hkvs as [|[k v] kvs Hkv _ IH]; [done|].
  cbn [write_all foldr fst snd]. fold (write_all kvs e). cbn [fst snd] in Hkv.
  destruct Hkv as [[-> [b ->]]|[Hk [s ->]]]; [by apply Pe_completed|by apply Pe_text].
Qed.

Lemma holds_fresh_default : holds Pb Pn Po Pf Pe fresh_default.
Proof using Pb_default Pn_default Pf_label Po_empty.
  rewrite fresh_default_eq. unfold holds. cbn [baselines notes todayFocus log other].
  split; [done|]. split; [done|]. split; [done|]. split; [constructor|done].
Qed.

Lemma session_xp_cases kind : exists xp, session_xp kind = Fin xp /\ xp ∈ [6; 10; 18; 25]%Q.
Proof.
  unfold session_xp. repeat case_match; eexists; (split; [reflexivity|]).
  - apply list_elem_of_further, list_elem_of_here.
  - do 2 apply list_elem_of_further. apply list_elem_of_here.
  - do 3 apply list_elem_of_further. apply list_elem_of_here.
Qed.

Lemma picked_names (pick : list (option string)) :
  Forall (fun c => c = JNull \/ exists s, c = JStr s) (from_option JStr JNull <$> pick).
Proof.
  induction pick as [|[s|] pick IH]; cbn; constructor; eauto.
Qed.

Lemma holds_runSession rnd id time kind count state :
  holds Pb Pn Po Pf Pe state -> holds Pb Pn Po Pf Pe (runSession rnd id time kind count state).
Proof using Pf_label Pe_new.
  intros (Hb & Hn & Hf & Hl & Ho). unfold holds.
  rewrite runSession_log.
  split; [exact Hb|]. split; [exact Hn|]. split; [apply Pf_label|]. split; [|exact Ho].
  constructor; [|exact Hl].
  destruct (session_xp_cases kind) as (xp & -> & Hxp).
  apply Pe_new; [apply picked_names|exact Hxp].
Qed.

Lemma quickRetest_onConfirm_result id time category newScore overwrite state :
  Number_isNaN (ToNumber (Some (JStr newScore))) = false ->
  exists q note,
    (0 <= q /\ q <= 10)%Q
    /\ quickRetest_onConfirm id time category newScore overwrite state
       = Ok (mkState
               (if overwrite then <[category := JNum (Fin q)]> (baselines state)
                else baselines state)
               (notes state) (todayFocus state)
               (<["completed" := JBool true]>
                  (<["answerText" := JStr note]>
                     (new_entry id time (JStr "Re-test") (JArr [JStr category])
                        (Some (JNum (Fin 6))))) :: log state)
               (other state)).
Proof.
  intros Hnum. destruct (clamp_range _ Hnum) as (q & Hq & Hr).
  exists q. eexists. split; [exact Hr|].
  unfold quickRetest_onConfirm. rewrite Hnum, Hq.
  unfold set_latest at 2. rewrite quickRetest_create_log. rewrite bind_Ok.
  unfold set_latest. cbn [log set_log]. unfold quickRetest_create.
  destruct overwrite; reflexivity.
Qed.

Lemma holds_quickRetest id time category newScore overwrite state state' :
  quickRetest_onConfirm id time category newScore overwrite state = Ok state' ->
  holds Pb Pn Po Pf Pe state -> holds Pb Pn Po Pf Pe state'.
Proof using Pb_insert Pe_new Pe_completed Pe_text.
  intros Hrun Hs.
  destruct (Number_isNaN (ToNumber (Some (JStr newScore)))) eqn:Hnum.
  - rewrite quickRetest_not_a_number in Hrun by done. by injection Hrun as <-.
  - destruct (quickRetest_onConfirm_result id time category newScore overwrite state Hnum)
      as (q & note & Hr & Heq).
    rewrite Heq in Hrun. injection Hrun as <-.
    destruct Hs as (Hb & Hn & Hf & Hl & Ho). unfold holds.
    cbn [baselines notes todayFocus log other].
    split; [destruct overwrite; [by apply Pb_insert|done]|].
    split; [done|]. split; [done|]. split; [|done].
    constructor; [|done]. apply Pe_completed, Pe_text.
    + do 5 apply list_elem_of_further. apply list_elem_of_here.
    + apply (Pe_new id time "Re-test" [JStr category] 6%Q).
      * constructor; [right; by eexists|constructor].
      * apply list_elem_of_here.
Qed.

Lemma stored_score_ok v :
  Number_isNaN (ToNumber (Some v)) = false -> score_ok (stored_score v) = true.
Proof.
  intros Hnum. destruct (clamp_range _ Hnum) as (q & Hq & H0 & H10).
  unfold stored_score. rewrite Hq. cbn [score_ok].
  apply andb_true_intro. split; by apply Qle_bool_iff.
Qed.

Lemma editBaselines_onConfirm_cases txt state :
  (editBaselines_onConfirm txt state).1 = state
  \/ exists m, map_Forall (fun _ v => score_ok v = true) m
               /\ (editBaselines_onConfirm txt state).1 = set_baselines m state.
Proof.
  destruct txt as [|m]; [by left|].
  unfold editBaselines_onConfirm, editBaselines_try. rewrite bind_Ok.
  destruct (decide (map_Forall (fun _ v => Number_isNaN (ToNumber (Some v)) = false) m))
    as [Hm|Hm].
  - right. exists (stored_score <$> m). rewrite (coerce_scores_map m Hm). split; [|done].
    intros k v. rewrite lookup_fmap. destruct (m !! k) as [v0|] eqn:E; [|done].
    intros [= <-]. apply stored_score_ok. exact (Hm _ _ E).
  - left. apply map_not_Forall in Hm; [|apply _]. destruct Hm as (k & v & Hk & Hv).
    rewrite coerce_scores_throw; [done|].
    apply Exists_exists. exists (k, v). split; [by apply elem_of_map_to_list|].
    cbn. by destruct (Number_isNaN _).
Qed.

Lemma holds_editBaselines txt state :
  holds Pb Pn Po Pf Pe state -> holds Pb Pn Po Pf Pe (editBaselines_onConfirm txt state).1.
Proof using Pb_scores.
  intros Hs. destruct (editBaselines_onConfirm_cases txt state) as [->|(m & Hm & ->)];
    [done|].
  destruct Hs as (Hb & Hn & Hf & Hl & Ho). unfold holds.
  cbn [set_baselines baselines notes todayFocus log other]. by split; [apply Pb_scores|].
Qed.

Lemma holds_resetMenu rLog rBase rAll state :
  holds Pb Pn Po Pf Pe state -> holds Pb Pn Po Pf Pe (resetMenu_onConfirm rLog rBase rAll state).
Proof using Pb_default Pn_default Pf_label Po_empty.
  intros (Hb & Hn & Hf & Hl & Ho). unfold resetMenu_onConfirm.
  destruct rAll; [apply holds_fresh_default|].
  rewrite clone_DEFAULT_baselines, clone_DEFAULT_notes. cbn [own_props].
  unfold holds. destruct rLog, rBase; cbn [set_log baselines notes todayFocus log other];
    repeat (split; [done|]); try done; by split; [constructor|].
Qed.

Lemma console_writes_shape form :
  Forall (fun kv => (kv.1 = "completed" /\ exists b, kv.2 = JBool b)
                    \/ (kv.1 ∈ text_fields /\ exists s, kv.2 = JStr s))
         (console_writes form).
Proof.
  unfold console_writes.
  repeat (constructor; [first [left; split; [reflexivity|by eexists]
                               |right; split; [|by eexists]; cbn [fst];
                                unfold text_fields;
                                repeat first [apply list_elem_of_here|apply list_elem_of_further]]|]).
  constructor.
Qed.

Lemma edit_writes_shape form :
  Forall (fun kv => (kv.1 = "completed" /\ exists b, kv.2 = JBool b)
                    \/ (kv.1 ∈ text_fields /\ exists s, kv.2 = JStr s))
         (edit_writes form).
Proof.
  unfold edit_writes.
  repeat (constructor; [right; split; [|by eexists]; cbn [fst];
                        unfold text_fields;
                        repeat first [apply list_elem_of_here|apply list_elem_of_further]|]).
  constructor.
Qed.

Lemma holds_saveConsole form state :
  holds Pb Pn Po Pf Pe state -> holds Pb Pn Po Pf Pe (saveConsoleToLatest form state).1.
Proof using Pe_completed Pe_text.
  intros (Hb & Hn & Hf & Hl & Ho).
  destruct (log state) as [|latest rest] eqn:El.
  - unfold saveConsoleToLatest. rewrite El. cbn [fst]. unfold holds. by rewrite El.
  - rewrite (saveConsoleToLatest_cons _ _ _ _ El). cbn [fst]. unfold holds.
    cbn [set_log baselines notes todayFocus log other].
    apply Forall_cons in Hl as [Hlatest Hrest].
    repeat (split; [done|]). split; [|done].
    constructor; [|done]. apply Pe_write_all; [apply console_writes_shape|done].
Qed.

Lemma Forall_update_found id (f : obj -> obj) l :
  (forall e, Pe e -> Pe (f e)) -> Forall Pe l -> Forall Pe (update_found id f l).
Proof.
  intros Hf Hall. induction Hall as [|e l He Hl IH]; [constructor|]. cbn.
  destruct (has_id id e); constructor; auto.
Qed.

Lemma complete_found_update id checked l :
  complete_found id checked l = update_found id (insert "completed" (JBool checked)) l.
Proof. induction l as [|e l IH]; [done|]. cbn. by rewrite IH. Qed.

Lemma holds_toggle id checked state :
  holds Pb Pn Po Pf Pe state -> holds Pb Pn Po Pf Pe (handleCompleteToggle id checked state).
Proof using Pe_completed.
  intros (Hb & Hn & Hf & Hl & Ho). unfold handleCompleteToggle, holds.
  cbn [set_log baselines notes todayFocus log other].
  repeat (split; [done|]). split; [|done].
  rewrite complete_found_update. apply Forall_update_found; [|done].
  intros e He. by apply Pe_completed.
Qed.

Lemma holds_delete id state :
  holds Pb Pn Po Pf Pe state -> holds Pb Pn Po Pf Pe (deleteEntry_onConfirm id state).
Proof.
  intros (Hb & Hn & Hf & Hl & Ho). unfold deleteEntry_onConfirm, holds.
  cbn [set_log baselines notes todayFocus log other].
  repeat (split; [done|]). split; [|done].
  apply List.Forall_forall. intros e He. apply List.filter_In in He as [He _].
  revert e He. by apply List.Forall_forall.
Qed.

Lemma holds_editEntry id form state :
  holds Pb Pn Po Pf Pe state -> holds Pb Pn Po Pf Pe (editEntry_onConfirm id form state).
Proof using Pe_completed Pe_text.
  intros (Hb & Hn & Hf & Hl & Ho). unfold editEntry_onConfirm, holds.
  cbn [set_log baselines notes todayFocus log other].
  repeat (split; [done|]). split; [|done].
  apply Forall_update_found; [|done].
  intros e He. rewrite edit_fields_writes. apply Pe_write_all; [apply edit_writes_shape|done].
Qed.

(** Every handler keeps a property of the state that its writes keep. *)
Lemma step_holds state a state' :
  step state a state' -> holds Pb Pn Po Pf Pe state -> holds Pb Pn Po Pf Pe state'.
Proof using All.
  intros Hstep Hs. destruct Hstep.
  - by apply holds_runSession.
  - by eapply holds_quickRetest.
  - by apply holds_editBaselines.
  - by apply holds_resetMenu.
  - unfold clearLog_onConfirm. destruct Hs as (Hb & Hn & Hf & Hl & Ho).
    unfold holds. cbn [set_log baselines notes todayFocus log other].
    split; [done|]. split; [done|]. split; [done|]. split; [constructor|done].
  - by apply holds_saveConsole.
  - by apply holds_toggle.
  - by apply holds_delete.
  - by apply holds_editEntry.
Qed.

Lemma reaches_holds state state' :
  reaches state state' -> holds Pb Pn Po Pf Pe state -> holds Pb Pn Po Pf Pe state'.
Proof using All.
  induction 1 as [|mid a state' _ IH Hstep]; [done|].
  intros Hs. eapply step_holds; [exact Hstep|by apply IH].
Qed.
End Invariant.

(** ** The state and the state object *)

Lemma clone_is_finite v : json_finite (structuredCloneSafe v) = true.
Proof.
  induction v as [|b|n|s|l IH|m IH] using json_ind'; try reflexivity.
  - by destruct n.
  - cbn [structuredCloneSafe]. apply json_finite_arr.
    induction IH as [|x l Hx _ IHl]; [constructor|]. cbn [map]. by constructor.
  - cbn [structuredCloneSafe]. apply json_finite_obj.
    intros k v. rewrite lookup_fmap. destruct (m !! k) as [v0|] eqn:E; [|done].
    intros [= <-]. exact (IH _ _ E).
Qed.

Lemma state_keys_cases k :
  k ∈ state_keys <-> k = "baselines" \/ k = "notes" \/ k = "todayFocus" \/ k = "log".
Proof.
  unfold state_keys. rewrite !elem_of_cons, elem_of_nil. tauto.
Qed.

Lemma state_keys_dec k :
  k = "log" \/ k = "todayFocus" \/ k = "notes" \/ k = "baselines" \/ k ∉ state_keys.
Proof.
  destruct (decide (k = "log")) as [?|Hl]; [tauto|].
  destruct (decide (k = "todayFocus")) as [?|Hf]; [tauto|].
  destruct (decide (k = "notes")) as [?|Hn]; [tauto|].
  destruct (decide (k = "baselines")) as [?|Hb]; [tauto|].
  do 4 right. rewrite state_keys_cases. tauto.
Qed.

Lemma not_state_key k :
  k ∉ state_keys ->
  k <> "baselines" /\ k <> "notes" /\ k <> "todayFocus" /\ k <> "log".
Proof. rewrite state_keys_cases. tauto. Qed.

Lemma state_object_lookup state :
  exists m, state_object state = JObj m
    /\ m !! "baselines" = Some (JObj (baselines state))
    /\ m !! "notes" = Some (JObj (notes state))
    /\ m !! "todayFocus" = Some (todayFocus state)
    /\ m !! "log" = Some (JArr (JObj <$> log state))
    /\ forall k, k ∉ state_keys -> m !! k = other state !! k.
Proof.
  eexists. split; [reflexivity|].
  split; [|split; [|split; [|split]]].
  - do 3 (rewrite lookup_insert_ne by key_ne). apply lookup_insert_eq.
  - do 2 (rewrite lookup_insert_ne by key_ne). apply lookup_insert_eq.
  - do 1 (rewrite lookup_insert_ne by key_ne). apply lookup_insert_eq.
  - apply lookup_insert_eq.
  - intros k Hk. apply not_state_key in Hk as (Hb & Hn & Hf & Hl).
    by rewrite !lookup_insert_ne.
Qed.

Lemma mapM_as_obj_fmap (l : list obj) : mapM as_obj (JObj <$> l) = Some l.
Proof. induction l as [|e l IH]; [done|]. cbn. by rewrite IH. Qed.

Lemma mapM_as_obj_inv l entries : mapM as_obj l = Some entries -> l = JObj <$> entries.
Proof.
  revert entries. induction l as [|v l IH]; intros entries.
  - by intros [= <-].
  - cbn. destruct v; try done. cbn. destruct (mapM as_obj l) as [es|]; [|done].
    cbn. intros [= <-]. cbn. f_equal. by apply IH.
Qed.

(** Removing the four properties from a map that agrees with [o] elsewhere
    gives [o], if [o] has none of them. *)
Lemma delete_state_keys (m o : obj) :
  (forall k, k ∉ state_keys -> m !! k = o !! k) ->
  (forall k, k ∈ state_keys -> o !! k = None) ->
  delete "baselines" (delete "notes" (delete "todayFocus" (delete "log" m))) = o.
Proof.
  intros Hm Ho. apply map_eq. intros k.
  destruct (state_keys_dec k) as [->|[->|[->|[->|Hk]]]].
  - do 3 (rewrite lookup_delete_ne by key_ne). rewrite lookup_delete_eq.
    symmetry. apply Ho, state_keys_cases. tauto.
  - do 2 (rewrite lookup_delete_ne by key_ne). rewrite lookup_delete_eq.
    symmetry. apply Ho, state_keys_cases. tauto.
  - do 1 (rewrite lookup_delete_ne by key_ne). rewrite lookup_delete_eq.
    symmetry. apply Ho, state_keys_cases. tauto.
  - rewrite lookup_delete_eq. symmetry. apply Ho, state_keys_cases. tauto.
  - rewrite <- (Hm k Hk). apply not_state_key in Hk as (Hb & Hn & Hf & Hl).
    by rewrite !lookup_delete_ne.
Qed.

Lemma state_view_inv st state :
  state_view st = Some state ->
  exists m, st = JObj m
    /\ m !! "baselines" = Some (JObj (baselines state))
    /\ m !! "notes" = Some (JObj (notes state))
    /\ m !! "todayFocus" = Some (todayFocus state)
    /\ m !! "log" = Some (JArr (JObj <$> log state))
    /\ other state
       = delete "baselines" (delete "notes" (delete "todayFocus" (delete "log" m))).
Proof.
  destruct st as [| | | | |m]; try done. unfold state_view.
  destruct (m !! "baselines") as [[| | | | |b]|] eqn:Eb; try done.
  destruct (m !! "notes") as [[| | | | |n]|] eqn:En; try done.
  destruct (m !! "todayFocus") as [f|] eqn:Ef; try done.
  destruct (m !! "log") as [[| | | |l|]|] eqn:El; try done.
  destruct (mapM as_obj l) as [entries|] eqn:Em; [|done].
  cbn. intros [= <-]. cbn [baselines notes todayFocus log other].
  exists m. rewrite <- (mapM_as_obj_inv _ _ Em). by repeat split.
Qed.

Lemma state_view_other st state :
  state_view st = Some state -> forall k, k ∈ state_keys -> other state !! k = None.
Proof.
  intros Hv k Hk. destruct (state_view_inv _ _ Hv) as (m & _ & _ & _ & _ & _ & Ho).
  rewrite Ho.
  apply state_keys_cases in Hk as [-> | [-> | [-> | -> ]]].
  - apply lookup_delete_eq.
  - rewrite lookup_delete_ne by key_ne. apply lookup_delete_eq.
  - do 2 (rewrite lookup_delete_ne by key_ne). apply lookup_delete_eq.
  - do 3 (rewrite lookup_delete_ne by key_ne). apply lookup_delete_eq.
Qed.

(** The state object of the state that an object reads as is that object. *)
Lemma state_object_view st state : state_view st = Some state -> state_object state = st.
Proof.
  intros Hv. destruct (state_view_inv _ _ Hv) as (m & -> & Hb & Hn & Hf & Hl & Ho).
  unfold state_object. f_equal. rewrite Ho. apply map_eq. intros k.
  destruct (state_keys_dec k) as [->|[->|[->|[->|Hk]]]].
  - by rewrite lookup_insert_eq.
  - rewrite lookup_insert_ne by key_ne. by rewrite lookup_insert_eq.
  - do 2 (rewrite lookup_insert_ne by key_ne). by rewrite lookup_insert_eq.
  - do 3 (rewrite lookup_insert_ne by key_ne). by rewrite lookup_insert_eq.
  - apply not_state_key in Hk as (Hkb & Hkn & Hkf & Hkl).
    rewrite !lookup_insert_ne by done. by rewrite !lookup_delete_ne.
Qed.

(** The state object reads as the state it was made from. *)
Lemma state_view_object state :
  (forall k, k ∈ state_keys -> other state !! k = None) ->
  state_view (state_object state) = Some state.
Proof.
  intros Ho. destruct (state_object_lookup state) as (m & -> & Hb & Hn & Hf & Hl & Hk).
  unfold state_view. rewrite Hb, Hn, Hf, Hl, mapM_as_obj_fmap. cbn.
  rewrite (delete_state_keys m (other state) Hk Ho). by destruct state.
Qed.

Lemma state_finite_parts state :
  state_finite state = true
  <-> holds obj_finite obj_finite obj_finite (fun f => json_finite f = true) obj_finite state.
Proof.
  unfold state_finite, holds. rewrite !andb_true_iff, !json_finite_obj.
  rewrite forallb_forall, <- List.Forall_forall.
  assert (Forall (fun e => json_finite (JObj e) = true) (log state)
          <-> Forall obj_finite (log state)) as ->.
  { apply Forall_iff. intros e. apply json_finite_obj. }
  tauto.
Qed.

Lemma state_object_finite state :
  state_finite state = true -> json_finite (state_object state) = true.
Proof.
  intros (Hb & Hn & Hf & Hl & Ho)%state_finite_parts.
  unfold state_object. apply json_finite_obj.
  apply obj_finite_insert.
  { apply json_finite_arr, Forall_fmap. eapply Forall_impl; [exact Hl|].
    intros e He. by apply json_finite_obj. }
  apply obj_finite_insert; [done|].
  apply obj_finite_insert; [by apply json_finite_obj|].
  apply obj_finite_insert; [by apply json_finite_obj|done].
Qed.

Lemma state_view_finite st state :
  json_finite st = true -> state_view st = Some state -> state_finite state = true.
Proof.
  intros Hfin Hv. destruct (state_view_inv _ _ Hv) as (m & -> & Hb & Hn & Hf & Hl & Ho).
  apply json_finite_obj in Hfin. apply state_finite_parts. unfold holds.
  split; [apply json_finite_obj; exact (Hfin _ _ Hb)|].
  split; [apply json_finite_obj; exact (Hfin _ _ Hn)|].
  split; [exact (Hfin _ _ Hf)|]. split.
  - apply Hfin in Hl. apply json_finite_arr in Hl. apply Forall_fmap in Hl.
    eapply Forall_impl; [exact Hl|]. intros e He. by apply json_finite_obj.
  - rewrite Ho. by do 4 apply obj_finite_delete.
Qed.

Lemma text_field_cases k :
  k ∈ text_fields ->
  k = "mood" \/ k = "sleepHrs" \/ k = "difficulty" \/ k = "liked"
  \/ k = "challengeText" \/ k = "answerText" \/ k = "insightText".
Proof. unfold text_fields. rewrite !elem_of_cons, elem_of_nil. tauto. Qed.

Lemma text_field_other k :
  k ∈ text_fields -> k <> "xpPotential" /\ k <> "completed" /\ k <> "xp".
Proof.
  intros Hk. apply text_field_cases in Hk.
  destruct Hk as [-> | [-> | [-> | [-> | [-> | [-> | -> ]]]]]];
    (split; [key_ne|split; key_ne]).
Qed.

Lemma entry_normal_completed (e : obj) b :
  entry_normal e -> entry_normal (<["completed" := JBool b]> e).
Proof.
  intros ((n & Hn) & _ & Hxp & Htxt). split; [|split; [|split]].
  - exists n. rewrite lookup_insert_ne; [done|key_ne].
  - exists b. apply lookup_insert_eq.
  - rewrite lookup_insert_ne; [done|key_ne].
  - intros k Hk. destruct (text_field_other k Hk) as (_ & Hc & _).
    rewrite lookup_insert_ne by done. by apply Htxt.
Qed.

Lemma entry_normal_text (e : obj) k s :
  k ∈ text_fields -> entry_normal e -> entry_normal (<[k := JStr s]> e).
Proof.
  intros Hk ((n & Hn) & (b & Hb) & Hxp & Htxt).
  destruct (text_field_other k Hk) as (Hkp & Hkc & Hkx).
  split; [|split; [|split]].
  - exists n. by rewrite lookup_insert_ne.
  - exists b. by rewrite lookup_insert_ne.
  - by rewrite lookup_insert_ne.
  - intros k' Hk'. destruct (decide (k = k')) as [->|Hne].
    + by rewrite lookup_insert_eq.
    + rewrite lookup_insert_ne by done. by apply Htxt.
Qed.

Section Instances.
Context `{Host}.

Lemma new_entry_normal id time title categories xpPotential :
  entry_normal (new_entry id time title categories xpPotential).
Proof.
  split; [|split; [|split]].
  - eexists. apply new_entry_xpPotential.
  - eexists. apply new_entry_completed.
  - vm_compute. reflexivity.
  - intros k Hk. apply text_field_cases in Hk.
    destruct Hk as [-> | [-> | [-> | [-> | [-> | [-> | -> ]]]]]]; vm_compute; reflexivity.
Qed.

Lemma new_entry_finite id time kind cats xp :
  Forall (fun c => c = JNull \/ exists s, c = JStr s) cats ->
  obj_finite (new_entry id time (JStr kind) (JArr cats) (Some (JNum (Fin xp)))).
Proof.
  intros Hcats. unfold new_entry. rewrite !list_to_map_cons. cbn [fst snd].
  repeat (apply obj_finite_insert; [try reflexivity|]).
  - apply json_finite_arr. eapply Forall_impl; [exact Hcats|].
    intros c [->|[s ->]]; reflexivity.
  - cbn [or_else truthy num_truthy]. by destruct (negb (Qeq_bool xp 0)).
  - apply map_Forall_empty.
Qed.

Lemma score_ok_inv v : score_ok v = true -> exists q, v = JNum (Fin q) /\ (0 <= q /\ q <= 10)%Q.
Proof.
  destruct v as [| |[| | |q]| | |]; try done. cbn [score_ok].
  intros [H0 H10]%andb_true_iff. exists q. split; [done|].
  split; by apply Qle_bool_iff.
Qed.

Lemma score_ok_finite v : score_ok v = true -> json_finite v = true.
Proof. intros (q & -> & _)%score_ok_inv. reflexivity. Qed.

Lemma score_ok_intro q : (0 <= q /\ q <= 10)%Q -> score_ok (JNum (Fin q)) = true.
Proof. intros [H0 H10]. cbn [score_ok]. apply andb_true_intro. split; by apply Qle_bool_iff. Qed.

(** The handlers keep the state in the current shape. *)
Lemma reaches_state_ok state state' : reaches state state' -> state_ok state -> state_ok state'.
Proof.
  intros Hr (Hl & Ho & Hn).
  assert (Hh : holds (fun _ => True) (fun n => n ∪ DEFAULT_notes = n)
                 (fun o => forall k, k ∈ state_keys -> o !! k = None) (fun _ => True)
                 entry_normal state').
  { eapply reaches_holds; [..|exact Hr|by repeat split].
    - done.
    - done.
    - done.
    - apply (idemp_L (∪)).
    - done.
    - intros. apply new_entry_normal.
    - intros. by apply entry_normal_completed.
    - intros. by apply entry_normal_text.
    - intros. apply lookup_empty. }
  destruct Hh as (_ & Hn' & _ & Hl' & Ho'). by repeat split.
Qed.

(** The handlers write finite numbers only. *)
Lemma reaches_state_finite state state' :
  reaches state state' -> state_finite state = true -> state_finite state' = true.
Proof.
  intros Hr Hs%state_finite_parts. apply state_finite_parts.
  eapply reaches_holds; [..|exact Hr|exact Hs].
  - apply DEFAULT_baselines_finite.
  - intros b c q _ Hb. by apply obj_finite_insert.
  - intros m Hm k v Hk. apply score_ok_finite. exact (Hm _ _ Hk).
  - apply DEFAULT_notes_finite.
  - done.
  - intros. by apply new_entry_finite.
  - intros. by apply obj_finite_insert.
  - intros. by apply obj_finite_insert.
  - apply map_Forall_empty.
Qed.

Lemma DEFAULT_baselines_in_range : map_Forall (fun _ v => score_ok v = true) DEFAULT_baselines.
Proof.
  unfold DEFAULT_baselines. rewrite !list_to_map_cons. cbn [fst snd].
  repeat (apply map_Forall_insert_2; [reflexivity|]). apply map_Forall_empty.
Qed.

Lemma reaches_in_range state state' :
  reaches state state' -> baselines_in_range state -> baselines_in_range state'.
Proof.
  intros Hr Hs.
  assert (Hh : holds (fun b => map_Forall (fun _ v => score_ok v = true) b)
                 (fun _ => True) (fun _ => True) (fun _ => True) (fun _ => True) state').
  { eapply reaches_holds; [..|exact Hr|].
    - apply DEFAULT_baselines_in_range.
    - intros b c q Hq Hb. apply map_Forall_insert_2; [by apply score_ok_intro|done].
    - done.
    - done.
    - done.
    - done.
    - done.
    - done.
    - done.
    - split; [exact Hs|]. split; [done|]. split; [done|]. split; [|done].
      by apply Forall_true. }
  by destruct Hh as (Hb & _).
Qed.

(** ** Start *)

Lemma boot_state_ok raw :
  exists state, boot raw = Some state
    /\ state_ok state
    /\ baselines state ∪ DEFAULT_baselines = baselines state
    /\ (raw_finite raw = true -> state_finite state = true).
Proof.
  unfold boot.
  destruct (loadState_cases raw) as [Hd|(P & pb & pn & l & Hl & _)].
  - rewrite Hd. exists (mkState DEFAULT_baselines DEFAULT_notes (JStr NO_FOCUS) [] ∅).
    split; [vm_compute; reflexivity|]. split; [|split].
    + split; [constructor|]. split; [intros; apply lookup_empty|apply (idemp_L (∪))].
    + apply (idemp_L (∪)).
    + intros _. vm_compute. reflexivity.
  - rewrite Hl. destruct (mapM_as_obj_migrated l) as (entries & He & Hall).
    assert (Hf : assemble P pb pn (map migrate_entry l) !! "todayFocus"
                 = Some (default (JStr NO_FOCUS) (P !! "todayFocus"))).
    { rewrite assemble_lookup_other by key_ne. rewrite lookup_union.
      destruct (P !! "todayFocus"); reflexivity. }
    eexists. split.
    { unfold state_view.
      rewrite assemble_lookup_baselines, assemble_lookup_notes, assemble_lookup_log.
      rewrite Hf, He. reflexivity. }
    assert (Hv : state_view (JObj (assemble P pb pn (map migrate_entry l)))
                 = Some (mkState (merged_part pb DEFAULT_baselines)
                           (merged_part pn DEFAULT_notes)
                           (default (JStr NO_FOCUS) (P !! "todayFocus")) entries
                           (delete "baselines" (delete "notes" (delete "todayFocus"
                              (delete "log" (assemble P pb pn (map migrate_entry l)))))))).
    { unfold state_view.
      rewrite assemble_lookup_baselines, assemble_lookup_notes, assemble_lookup_log.
      rewrite Hf, He. reflexivity. }
    split; [|split].
    + split; [exact Hall|]. split; [exact (state_view_other _ _ Hv)|].
      cbn [notes]. apply union_absorb.
    + cbn [baselines]. apply union_absorb.
    + intros Hfin. eapply state_view_finite; [|exact Hv].
      eapply loadState_finite; [exact Hfin|exact Hl].
Qed.

Lemma DEFAULT_STATE_lookup_other k : k ∉ state_keys -> DEFAULT_STATE !! k = None.
Proof.
  intros (Hb & Hn & Hf & Hl)%not_state_key.
  unfold DEFAULT_STATE. rewrite !list_to_map_cons. cbn [fst snd list_to_map foldr].
  rewrite !lookup_insert_ne by done. apply lookup_empty.
Qed.

Lemma map_migrate_normal (l : list obj) :
  Forall entry_normal l -> map migrate_entry (JObj <$> l) = JObj <$> l.
Proof.
  induction 1 as [|e l He _ IH]; [done|]. cbn. by rewrite migrate_entry_fixed, IH.
Qed.

(** A reload of a finite state in the current shape. *)
Lemma reload_state state :
  state_ok state -> state_finite state = true ->
  reloadState (state_object state) = Ok (state_object (with_default_skills state)).
Proof.
  intros (Hall & Ho & Hnotes) Hfin.
  unfold reloadState. rewrite clone_finite by by apply state_object_finite.
  destruct (state_object_lookup state) as (m & Hm & Hb & Hn & Hf & Hl & Hk).
  rewrite Hm.
  rewrite (loadState_assemble (JObj m) (Some (JObj (baselines state)))
             (Some (JObj (notes state))) (Some (JArr (JObj <$> log state))));
    [|cbn [get_prop]; by f_equal..].
  cbn [own_props merged_log]. rewrite map_migrate_normal by done.
  f_equal. clear Hm. unfold with_default_skills, set_baselines, state_object.
  cbn [baselines notes todayFocus log other]. f_equal. unfold assemble, merged_part.
  cbn [or_else truthy own_props]. rewrite Hnotes.
  apply map_eq. intros k.
  destruct (state_keys_dec k) as [->|[->|[->|[->|Hnk]]]].
  - by rewrite !lookup_insert_eq.
  - do 3 (rewrite lookup_insert_ne by key_ne). rewrite union_lookup, Hf.
    rewrite lookup_insert_ne by key_ne. by rewrite lookup_insert_eq.
  - rewrite lookup_insert_ne by key_ne. rewrite lookup_insert_eq.
    do 2 (rewrite lookup_insert_ne by key_ne). by rewrite lookup_insert_eq.
  - do 2 (rewrite lookup_insert_ne by key_ne). rewrite lookup_insert_eq.
    do 3 (rewrite lookup_insert_ne by key_ne). by rewrite lookup_insert_eq.
  - pose proof (Hk k Hnk) as Hmk. pose proof (DEFAULT_STATE_lookup_other k Hnk) as Hd.
    apply not_state_key in Hnk as (Hkb & Hkn & Hkf & Hkl).
    rewrite !lookup_insert_ne by done. rewrite union_lookup, Hmk, Hd.
    by destruct (other state !! k).
Qed.

Lemma save_and_load_ok state :
  state_ok state -> state_finite state = true ->
  save_and_load state = Some (with_default_skills state).
Proof.
  intros Hok Hfin. unfold save_and_load. rewrite reload_state by done.
  apply state_view_object. by destruct Hok as (_ & Ho & _).
Qed.
End Instances.

Section Toggle.
Context `{Host}.

(** X8: the check box of an id that no entry has changes nothing;
    otherwise it writes [completed] on the first entry with the id and on
    nothing else, which changes nothing if that entry has the value
    already; of two changes in a row the second decides. *)
Theorem handleCompleteToggle_first_match id checked state :
  (Forall (fun e => has_id id e = false) (log state) ->
     handleCompleteToggle id checked state = state)
  /\ (forall before e after, finds id (log state) before e after ->
        log (handleCompleteToggle id checked state)
        = (before ++ <["completed" := JBool checked]> e :: after)%list
        /\ (e !! "completed" = Some (JBool checked) ->
            handleCompleteToggle id checked state = state))
  /\ (forall checked',
        handleCompleteToggle id checked' (handleCompleteToggle id checked state)
        = handleCompleteToggle id checked' state)
  /\ length (log (handleCompleteToggle id checked state)) = length (log state)
  /\ baselines (handleCompleteToggle id checked state) = baselines state
  /\ notes (handleCompleteToggle id checked state) = notes state
  /\ todayFocus (handleCompleteToggle id checked state) = todayFocus state
  /\ other (handleCompleteToggle id checked state) = other state.
Proof.
  unfold handleCompleteToggle.
  split; [|split; [|split; [|split]]].
  - intros Hn. rewrite complete_found_none by done. by destruct state.
  - intros before e after Hfind. cbn [log set_log].
    rewrite (complete_found_finds _ _ _ _ _ _ Hfind). split; [done|].
    intros Hc. rewrite insert_id by done. destruct Hfind as (<- & _). by destruct state.
  - intros checked'. unfold set_log. cbn [log baselines notes todayFocus other].
    f_equal. rewrite !complete_found_update.
    rewrite update_found_twice by (intros e; apply has_id_insert; key_ne).
    apply update_found_ext. intros e. apply insert_insert_eq.
  - cbn [log set_log]. rewrite complete_found_update.
    destruct (finds_or_none id (log state)) as [(before & e & after & Hfind)|Hn].
    + rewrite (update_found_finds _ _ _ _ _ _ Hfind). destruct Hfind as (-> & _).
      by rewrite !length_app.
    + by rewrite update_found_none.
  - done.
Qed.
End Toggle.

Section Reachable.
Context `{Host}.

(** X13: whatever is in storage, the program starts in a state, and every
    state it reaches from there by rolls, re-tests, baseline edits (of a
    text that reads as an object, or does not parse), resets, clearing the
    log, console saves, ticks, deletes and edits is in the current shape:
    every entry has a numeric [xpPotential], a boolean [completed], no [xp]
    and the seven text fields, and the default notes are there; if the
    stored numbers were finite, so are all numbers of the state. *)
Theorem reachable_states_ok raw :
  exists state0, boot raw = Some state0
    /\ forall state, reaches state0 state ->
         state_ok state /\ (raw_finite raw = true -> state_finite state = true).
Proof.
  destruct (boot_state_ok raw) as (state0 & Hb & Hok & _ & Hfin).
  exists state0. split; [exact Hb|]. intros state Hr. split.
  - by eapply reaches_state_ok.
  - intros Hraw. eapply reaches_state_finite; [exact Hr|by apply Hfin].
Qed.

(** X14: if every baseline of a state is a finite number in [[0, 10]], so
    is every baseline of every state that the program reaches from it by
    its actions (a baseline edit being of a text that reads as an object, or
    does not parse); the state of a first start is such a state. *)
Theorem baselines_stay_in_range state state' :
  baselines_in_range state -> reaches state state' ->
  forall k v, baselines state' !! k = Some v ->
    exists q, v = JNum (Fin q) /\ (0 <= q /\ q <= 10)%Q.
Proof.
  intros Hs Hr k v Hk. apply score_ok_inv.
  exact (reaches_in_range _ _ Hr Hs k v Hk).
Qed.

(** X15: saving a state in the current shape whose numbers are finite and
    loading it gives the same state with the default skills that it lacks
    added at their default scores, so the same state if it has them all;
    log, notes, focus label, other properties and earned total are as
    before, and every baseline that it had is as before. *)
Theorem save_and_load_round_trip state :
  state_ok state -> state_finite state = true ->
  save_and_load state = Some (with_default_skills state)
  /\ ((forall k, is_Some (DEFAULT_baselines !! k) -> is_Some (baselines state !! k)) ->
        save_and_load state = Some state)
  /\ (forall state', save_and_load state = Some state' ->
        log state' = log state /\ notes state' = notes state
        /\ todayFocus state' = todayFocus state /\ other state' = other state
        /\ calcXP state' = calcXP state
        /\ (forall k v, baselines state !! k = Some v -> baselines state' !! k = Some v)
        /\ (forall k, baselines state !! k = None ->
              baselines state' !! k = DEFAULT_baselines !! k)).
Proof.
  intros Hok Hfin. pose proof (save_and_load_ok state Hok Hfin) as Hsl.
  split; [exact Hsl|]. split.
  - intros Hall. rewrite Hsl. f_equal. unfold with_default_skills, set_baselines.
    assert (baselines state ∪ DEFAULT_baselines = baselines state) as ->; [|by destruct state].
    apply map_eq. intros k. rewrite union_lookup.
    destruct (baselines state !! k) eqn:E; [done|].
    destruct (DEFAULT_baselines !! k) eqn:Ed; [|done].
    destruct (Hall k) as [v Hv]; [by eexists|]. congruence.
  - intros state'. rewrite Hsl. intros [= <-].
    unfold with_default_skills, set_baselines. cbn [log notes todayFocus other baselines].
    repeat (split; [reflexivity|]). split.
    + intros k v Hk. by rewrite union_lookup, Hk.
    + intros k Hk. by rewrite union_lookup, Hk.
Qed.

(** X16: saving any state and loading it gives a state in the current
    shape with finite numbers, which a further save and load gives back
    unchanged. *)
Theorem save_and_load_settles state :
  exists state', save_and_load state = Some state'
    /\ state_ok state' /\ state_finite state' = true
    /\ save_and_load state' = Some state'.
Proof.
  destruct (boot_state_ok (wellformed (structuredCloneSafe (state_object state))))
    as (state' & Hb & Hok & Hbase & Hfin).
  specialize (Hfin (clone_is_finite _)).
  exists state'. split; [exact Hb|]. split; [exact Hok|]. split; [exact Hfin|].
  rewrite save_and_load_ok by done. unfold with_default_skills, set_baselines.
  rewrite Hbase. by destruct state'.
Qed.
End Reachable.

Lemma sample_state_ok : state_ok sample_state.
Proof.
  split; [|split].
  - unfold sample_state, sample_entry. cbn [log].
    repeat (constructor; [apply entry_normal_completed, new_entry_normal|]). constructor.
  - intros k _. apply lookup_empty.
  - apply (idemp_L (∪)).
Qed.

Lemma runSession_rolls_witness :
  (forall c : nat, (0 <= 1 # 2 /\ 1 # 2 < 1)%Q)
  /\ exists picked e,
    log (runSession (fun _ => 1 # 2) "id-4" "Jan 07, 2026, 07:45 AM" "Tri-Skill Sprint" 3
           sample_state) = e :: log sample_state
    /\ e !! "id" = Some (JStr "id-4")
    /\ e !! "time" = Some (JStr "Jan 07, 2026, 07:45 AM")
    /\ e !! "categories" = Some (JArr (JStr <$> picked))
    /\ todayFocus (runSession (fun _ => 1 # 2) "id-4" "Jan 07, 2026, 07:45 AM"
                     "Tri-Skill Sprint" 3 sample_state) = JStr (join " • " picked)
    /\ length picked = Nat.min 3 (size (baselines sample_state))
    /\ NoDup picked
    /\ (forall c, c ∈ picked -> is_Some (baselines sample_state !! c))
    /\ ((size (baselines sample_state) <= 3)%nat ->
          forall c, is_Some (baselines sample_state !! c) -> c ∈ picked)
    /\ baselines (runSession (fun _ => 1 # 2) "id-4" "Jan 07, 2026, 07:45 AM"
                    "Tri-Skill Sprint" 3 sample_state) = baselines sample_state
    /\ notes (runSession (fun _ => 1 # 2) "id-4" "Jan 07, 2026, 07:45 AM"
                "Tri-Skill Sprint" 3 sample_state) = notes sample_state
    /\ other (runSession (fun _ => 1 # 2) "id-4" "Jan 07, 2026, 07:45 AM"
                "Tri-Skill Sprint" 3 sample_state) = other sample_state.
Proof.
  assert (Hr : forall c : nat, (0 <= 1 # 2 /\ 1 # 2 < 1)%Q).
  { intros _. split; [discriminate|reflexivity]. }
  split; [exact Hr|]. exact (runSession_rolls (fun _ => 1 # 2) Hr _ _ _ _ _).
Defined.

Lemma baselines_stay_in_range_witness :
  baselines_in_range fresh_default
  /\ reaches fresh_default
       (editBaselines_onConfirm (mapping {[ "Quick Math" := JNum (Fin 12) ]})
          fresh_default).1
  /\ forall k v,
       baselines (editBaselines_onConfirm (mapping {[ "Quick Math" := JNum (Fin 12) ]})
                    fresh_default).1 !! k = Some v ->
       exists q, v = JNum (Fin q) /\ (0 <= q /\ q <= 10)%Q.
Proof.
  assert (H0 : baselines_in_range fresh_default).
  { rewrite fresh_default_eq. apply DEFAULT_baselines_in_range. }
  assert (H1 : reaches fresh_default
                 (editBaselines_onConfirm (mapping {[ "Quick Math" := JNum (Fin 12) ]})
                    fresh_default).1).
  { eapply reaches_step; [apply reaches_here|apply step_edit_baselines]. }
  split; [exact H0|]. split; [exact H1|].
  exact (baselines_stay_in_range _ _ H0 H1).
Defined.

Lemma chess_only_state_ok : state_ok chess_only_state.
Proof. destruct sample_state_ok as (Hl & Ho & Hn). by repeat split. Qed.

Lemma save_and_load_round_trip_witness :
  state_ok chess_only_state
  /\ state_finite chess_only_state = true
  /\ save_and_load chess_only_state = Some (with_default_skills chess_only_state)
  /\ baselines (with_default_skills chess_only_state) !! "Chess" = Some (JNum (Fin 3))
  /\ baselines (with_default_skills chess_only_state) !! "Quick Math"
     = Some (JNum (Fin 4.5)).
Proof.
  assert (Hfin : state_finite chess_only_state = true) by (vm_compute; reflexivity).
  split; [exact chess_only_state_ok|]. split; [exact Hfin|].
  split; [exact (proj1 (save_and_load_round_trip _ chess_only_state_ok Hfin))|].
  split; vm_compute; reflexivity.
Defined.

Example save_and_load_ex :
  save_and_load chess_only_state = Some (with_default_skills chess_only_state)
  /\ save_and_load sample_state = Some sample_state
  /\ (state' ← save_and_load
                 (set_baselines {[ "Chess" := JNum PInf ]} sample_state);
      Some (baselines state' !! "Chess")) = Some (Some JNull).
Proof. repeat split; vm_compute; reflexivity. Qed.

(** ** The identity of an entry *)

Lemma kept_refl e : kept e e.
Proof. by intros k _. Qed.

Lemma kept_trans e1 e2 e3 : kept e1 e2 -> kept e2 e3 -> kept e1 e3.
Proof. intros H12 H23 k Hk. by rewrite H23, H12. Qed.

Lemma kept_insert e k v : k ∈ console_keys -> kept e (<[k := v]> e).
Proof.
  intros Hk k' Hk'. rewrite lookup_insert_ne; [done|]. intros ->. by apply Hk'.
Qed.

Lemma edit_keys_console k : k ∈ edit_keys -> k ∈ console_keys.
Proof.
  unfold edit_keys, console_keys. rewrite !elem_of_cons, !elem_of_nil. tauto.
Qed.

Lemma elem_of_update_found id (f : obj -> obj) l e' :
  e' ∈ update_found id f l -> e' ∈ l \/ exists e, e ∈ l /\ e' = f e.
Proof.
  induction l as [|e l IH]; cbn; [by left|].
  destruct (has_id id e).
  - intros [->|Hin]%elem_of_cons.
    + right. exists e. split; [apply list_elem_of_here|done].
    + left. by apply list_elem_of_further.
  - intros [->|Hin]%elem_of_cons.
    + left. apply list_elem_of_here.
    + destruct (IH Hin) as [?|(e0 & ? & ?)].
      * left. by apply list_elem_of_further.
      * right. exists e0. split; [by apply list_elem_of_further|done].
Qed.

Section Identity.
Context `{Host}.

Lemma step_origin state a state' e' :
  step state a state' -> e' ∈ log state' ->
  (exists e, e ∈ log state /\ kept e e') \/ (exists e, created e /\ kept e e').
Proof.
  intros Hstep Hin.
  assert (Hold : forall e, e ∈ log state ->
            (exists e0, e0 ∈ log state /\ kept e0 e) \/ (exists e0, created e0 /\ kept e0 e)).
  { intros e He. left. exists e. split; [done|apply kept_refl]. }
  destruct Hstep as [rnd id time kind count|id time category newScore overwrite state' Hrun
                    |txt|rLog rBase rAll| |form|id checked|id|id form].
  - rewrite runSession_log in Hin. apply elem_of_cons in Hin as [->|Hin]; [|by apply Hold].
    right. destruct (session_xp_cases kind) as (xp & -> & Hxp).
    eexists. split; [|apply kept_refl].
    exists id, time, kind,
      (from_option JStr JNull <$> pickRandom rnd (Object_keys (baselines state)) count), xp.
    split; [exact Hxp|reflexivity].
  - destruct (Number_isNaN (ToNumber (Some (JStr newScore)))) eqn:Hnum.
    + rewrite quickRetest_not_a_number in Hrun by done. injection Hrun as <-.
      by apply Hold.
    + destruct (quickRetest_onConfirm_result id time category newScore overwrite state Hnum)
        as (q & note & _ & Heq).
      rewrite Heq in Hrun. injection Hrun as <-. cbn [log] in Hin.
      apply elem_of_cons in Hin as [->|Hin]; [|by apply Hold].
      right. eexists. split.
      * exists id, time, "Re-test", [JStr category], 6%Q.
        split; [apply list_elem_of_here|reflexivity].
      * eapply kept_trans; apply kept_insert; unfold console_keys;
          repeat first [apply list_elem_of_here|apply list_elem_of_further].
  - destruct (editBaselines_onConfirm_cases txt state) as [Heq|(m & _ & Heq)];
      rewrite Heq in Hin; by apply Hold.
  - apply Hold. unfold resetMenu_onConfirm in Hin.
    destruct rAll; [rewrite fresh_default_eq in Hin; by apply elem_of_nil in Hin|].
    destruct rLog, rBase; cbn [log set_log] in Hin; try done; by apply elem_of_nil in Hin.
  - by apply elem_of_nil in Hin.
  - destruct (log state) as [|latest rest] eqn:El.
    + unfold saveConsoleToLatest in Hin. rewrite El in Hin. cbn [fst] in Hin.
      rewrite El in Hin. by apply elem_of_nil in Hin.
    + rewrite (saveConsoleToLatest_cons _ _ _ _ El) in Hin. cbn [fst log set_log] in Hin.
      apply elem_of_cons in Hin as [->|Hin].
      * left. exists latest. split; [apply list_elem_of_here|].
        intros k Hk. apply write_all_other. by rewrite console_writes_keys.
      * left. exists e'. split; [by apply list_elem_of_further|apply kept_refl].
  - unfold handleCompleteToggle in Hin. cbn [log set_log] in Hin.
    rewrite complete_found_update in Hin.
    apply elem_of_update_found in Hin as [Hin|(e & He & ->)]; [by apply Hold|].
    left. exists e. split; [done|]. apply kept_insert. unfold console_keys.
    repeat first [apply list_elem_of_here|apply list_elem_of_further].
  - apply Hold. unfold deleteEntry_onConfirm in Hin. cbn [log set_log] in Hin.
    apply list_elem_of_In, List.filter_In in Hin as [Hin _]. by apply list_elem_of_In.
  - unfold editEntry_onConfirm in Hin. cbn [log set_log] in Hin.
    apply elem_of_update_found in Hin as [Hin|(e & He & ->)]; [by apply Hold|].
    left. exists e. split; [done|]. intros k Hk. rewrite edit_fields_writes.
    apply write_all_other. rewrite edit_writes_keys. intros Hk'.
    by apply Hk, edit_keys_console.
Qed.

(** X19: no action of the program changes the id, the time, the title, the
    categories or the [xpPotential] of an entry: every entry of a state
    that the program reaches is, but for the seven text fields and
    [completed], an entry of the state it started from or one that
    [addLogEntry] made for a session or a re-test, with 10, 18, 25 or 6
    XP. *)
Theorem entries_keep_identity state state' :
  reaches state state' ->
  forall e', e' ∈ log state' ->
    (exists e, e ∈ log state /\ kept e e') \/ (exists e, created e /\ kept e e').
Proof.
  induction 1 as [|mid a state' _ IH Hstep]; intros e' Hin.
  - left. exists e'. split; [done|apply kept_refl].
  - destruct (step_origin _ _ _ _ Hstep Hin) as [(e & He & Hk)|Hnew]; [|by right].
    destruct (IH e He) as [(e0 & He0 & Hk0)|(e0 & Hc0 & Hk0)].
    + left. exists e0. split; [done|]. by eapply kept_trans.
    + right. exists e0. split; [done|]. by eapply kept_trans.
Qed.
End Identity.

Lemma entries_keep_identity_witness :
  reaches sample_state
    (runSession (fun _ => 1 # 2) "id-4" "Jan 07, 2026, 07:45 AM" "Full Circuit" 5
       sample_state)
  /\ sample_entry "b" 18 false
       ∈ log (runSession (fun _ => 1 # 2) "id-4" "Jan 07, 2026, 07:45 AM" "Full Circuit" 5
                sample_state)
  /\ ((exists e, e ∈ log sample_state /\ kept e (sample_entry "b" 18 false))
      \/ (exists e, created e /\ kept e (sample_entry "b" 18 false))).
Proof.
  assert (H1 : reaches sample_state
                 (runSession (fun _ => 1 # 2) "id-4" "Jan 07, 2026, 07:45 AM"
                    "Full Circuit" 5 sample_state)).
  { eapply reaches_step; [apply reaches_here|apply step_roll]. }
  assert (H2 : sample_entry "b" 18 false
                 ∈ log (runSession (fun _ => 1 # 2) "id-4" "Jan 07, 2026, 07:45 AM"
                          "Full Circuit" 5 sample_state)).
  { rewrite runSession_log. apply list_elem_of_further. unfold sample_state. cbn [log].
    apply list_elem_of_further, list_elem_of_here. }
  split; [exact H1|]. split; [exact H2|].
  exact (entries_keep_identity _ _ H1 _ H2).
Defined.

(** ** The clipboard text *)

Lemma string_app_empty_r (a : string) : a ++ "" = a.
Proof. induction a as [|x a IH]; [done|]. by rewrite string_app_cons, IH. Qed.

Lemma filter_Boolean_cons s l : filter_Boolean (s :: l) = (kept_line s ++ filter_Boolean l)%list.
Proof. unfold filter_Boolean, kept_line. cbn [List.filter]. by destruct (String.eqb s ""). Qed.

Lemma kept_line_app s t : s <> "" -> kept_line (s ++ t) = [s ++ t].
Proof. intros Hs. destruct s as [|a s]; [done|]. by rewrite string_app_cons. Qed.

Lemma filter_Boolean_app l1 l2 :
  filter_Boolean (l1 ++ l2)%list = (filter_Boolean l1 ++ filter_Boolean l2)%list.
Proof. apply List.filter_app. Qed.

Lemma field_shown_empty k : field_shown k (Some (JStr "")) = false.
Proof. unfold field_shown. by destruct (String.eqb k "sleepHrs"). Qed.

Lemma field_shown_text k s : s <> "" -> field_shown k (Some (JStr s)) = true.
Proof.
  intros Hs. unfold field_shown. cbn [truthy].
  assert (String.eqb s "" = false) as E by by apply String.eqb_neq.
  rewrite E. destruct (String.eqb k "sleepHrs"); [|done]. by destruct s.
Qed.

Lemma falsy_converts (v : value) : truthy v = false -> converts v = true.
Proof. by destruct v as [[| | | | |]|]. Qed.

Section Clipboard.
Context `{Host}.

(** Each element of the list is made unless its value is not converted. *)
Lemma labelled_converts label (v : value) :
  labelled label v
  = if converts v then Ok (if truthy v then label ++ ToString v else "")
    else Throw TypeError.
Proof.
  unfold labelled, String_of. destruct (truthy v) eqn:T.
  - by destruct (converts v).
  - by rewrite falsy_converts.
Qed.

Lemma block_converts heading (v : value) :
  block heading v
  = if converts v then Ok (if truthy v then NL ++ heading ++ NL ++ ToString v else "")
    else Throw TypeError.
Proof.
  unfold block, String_of. destruct (truthy v) eqn:T.
  - by destruct (converts v).
  - by rewrite falsy_converts.
Qed.

Lemma sleep_line_converts (v : value) :
  sleep_line v
  = if converts v
    then Ok (if field_shown "sleepHrs" v then "Sleep: " ++ ToString v ++ " hrs" else "")
    else Throw TypeError.
Proof.
  unfold sleep_line, String_of, field_shown. rewrite String.eqb_refl.
  destruct v as [[| | |[|]| |]|]; try reflexivity; by destruct (converts _).
Qed.

(** What the field [k] adds to the text. *)
Lemma field_lines_cons k before after fields e :
  field_lines ((k, before, after) :: fields) e
  = ((if field_shown k (e !! k) then [(before ++ ToString (e !! k) ++ after)%string]
      else [])
     ++ field_lines fields e)%list.
Proof. reflexivity. Qed.

Lemma kept_labelled k label (v : value) :
  String.eqb k "sleepHrs" = false -> label <> "" ->
  kept_line (if truthy v then label ++ ToString v else "")
  = if field_shown k v then [label ++ ToString v ++ ""] else [].
Proof.
  intros Hk Hl. unfold field_shown. rewrite Hk, string_app_empty_r.
  destruct (truthy v); [by apply kept_line_app|done].
Qed.

Lemma kept_block k heading (v : value) :
  String.eqb k "sleepHrs" = false ->
  kept_line (if truthy v then NL ++ heading ++ NL ++ ToString v else "")
  = if field_shown k v then [(NL ++ heading ++ NL) ++ ToString v ++ ""] else [].
Proof.
  intros Hk. unfold field_shown. rewrite Hk, string_app_empty_r.
  destruct (truthy v); [|done].
  rewrite !string_app_assoc. by apply kept_line_app.
Qed.

Lemma kept_sleep (v : value) :
  kept_line (if field_shown "sleepHrs" v
             then "Sleep: " ++ ToString v ++ " hrs" else "")
  = if field_shown "sleepHrs" v then ["Sleep: " ++ ToString v ++ " hrs"] else [].
Proof. destruct (field_shown "sleepHrs" v); [by apply kept_line_app|done]. Qed.

(** The lines that [filter(Boolean)] keeps are the heading and the lines of
    the fields that are not empty. *)
Lemma clipboard_lines_kept (e : obj) (cats : list json) :
  filter_Boolean
    [ ToString (e !! "title"); ToString (e !! "time");
      "Rolled: " ++ Array_join cats ", ";
      "Completed: " ++ (if truthy (e !! "completed") then "Yes" else "No");
      "XP: " ++ NumberToString (earned e) ++ " / "
             ++ NumberToString (Number_or_0 (e !! "xpPotential"));
      if truthy (e !! "mood") then "Mood: " ++ ToString (e !! "mood") else "";
      if field_shown "sleepHrs" (e !! "sleepHrs")
      then "Sleep: " ++ ToString (e !! "sleepHrs") ++ " hrs" else "";
      if truthy (e !! "difficulty")
      then "Difficulty: " ++ ToString (e !! "difficulty") else "";
      if truthy (e !! "liked") then "Enjoyed: " ++ ToString (e !! "liked") else "";
      if truthy (e !! "challengeText")
      then NL ++ "Challenge:" ++ NL ++ ToString (e !! "challengeText") else "";
      if truthy (e !! "answerText")
      then NL ++ "Answers / Notes:" ++ NL ++ ToString (e !! "answerText") else "";
      if truthy (e !! "insightText")
      then NL ++ "Insights:" ++ NL ++ ToString (e !! "insightText") else "" ]
  = (heading_lines e cats ++ field_lines metric_fields e
     ++ field_lines free_text_fields e)%list.
Proof.
  change [?a; ?b; ?c; ?d; ?x; ?m; ?s; ?f; ?g; ?p; ?q; ?r]
    with ([a; b] ++ [c; d; x; m; s; f; g; p; q; r])%list.
  rewrite filter_Boolean_app. unfold heading_lines. rewrite <- !app_assoc. f_equal.
  rewrite !filter_Boolean_cons.
  rewrite !(kept_line_app "Rolled: "), !(kept_line_app "Completed: "),
    !(kept_line_app "XP: ") by done.
  rewrite (kept_labelled "mood" "Mood: "), (kept_labelled "difficulty" "Difficulty: "),
    (kept_labelled "liked" "Enjoyed: ") by done.
  rewrite kept_sleep.
  rewrite (kept_block "challengeText"), (kept_block "answerText"),
    (kept_block "insightText") by done.
  unfold metric_fields, free_text_fields. rewrite !field_lines_cons.
  rewrite <- !app_assoc. reflexivity.
Qed.

(** The text of an entry, or the [TypeError] where a value is not
    converted. *)
Lemma entryToClipboardText_renders (e : obj) :
  entryToClipboardText e
  = if renders e
    then Ok (join NL (heading_lines e (default [] (listed_categories e))
                      ++ field_lines metric_fields e
                      ++ field_lines free_text_fields e)%list)
    else Throw TypeError.
Proof.
  unfold entryToClipboardText, renders, listed_categories.
  destruct (or_else (e !! "categories") (JArr [])) as [| | | |cats|]; try reflexivity.
  destruct (forallb stringable cats); [|reflexivity]. rewrite bind_Ok.
  cbn [andb default]. unfold clipboard_reads. cbn [forallb].
  rewrite !labelled_converts, !block_converts, sleep_line_converts.
  unfold String_of, Number_of.
  destruct (converts (e !! "xpPotential"));
    [|by destruct (truthy (e !! "completed")), (converts (e !! "title")),
                  (converts (e !! "time"))].
  assert (Hearned : (if truthy (e !! "completed")
                     then n ← Ok (ToNumber (e !! "xpPotential"));
                          mret (if num_truthy n then n else Fin 0)
                     else mret (Fin 0)) = Ok (earned e)).
  { unfold earned, Number_or_0. by destruct (truthy (e !! "completed")). }
  rewrite Hearned, bind_Ok.
  destruct (converts (e !! "title")); [|reflexivity]. rewrite bind_Ok.
  destruct (converts (e !! "time")); [|reflexivity]. rewrite !bind_Ok.
  destruct (converts (e !! "mood")); [|reflexivity]. rewrite bind_Ok.
  destruct (converts (e !! "sleepHrs")); [|reflexivity]. rewrite bind_Ok.
  destruct (converts (e !! "difficulty")); [|reflexivity]. rewrite bind_Ok.
  destruct (converts (e !! "liked")); [|reflexivity]. rewrite bind_Ok.
  destruct (converts (e !! "challengeText")); [|reflexivity]. rewrite bind_Ok.
  destruct (converts (e !! "answerText")); [|reflexivity]. rewrite bind_Ok.
  destruct (converts (e !! "insightText")); [|reflexivity]. rewrite bind_Ok.
  cbn [andb]. unfold mret, result_ret. do 2 f_equal.
  apply clipboard_lines_kept.
Qed.

Lemma printable_converts e k : printable e -> converts (e !! k) = true.
Proof.
  intros He. unfold converts. destruct (e !! k) as [v|] eqn:E; [|done].
  exact (He k v E).
Qed.

(** An entry that lists its categories and whose values are all converted
    is one whose text is made. *)
Lemma copyable_renders e : copyable e -> renders e = true.
Proof.
  intros [He [l Hl]]. unfold renders, listed_categories, or_else. rewrite Hl.
  cbn [truthy]. apply andb_true_intro. split.
  - exact (He _ _ Hl).
  - unfold clipboard_reads. cbn [forallb]. by rewrite !printable_converts.
Qed.

(** C9: the clipboard text of an entry, where it is made, is its heading,
    then one line for each metric that is not empty and one block for each
    free text that is not empty, each with the value of its field, and no
    line at all for a field that is empty; where a value that the text shows
    is not converted there is no text but a [TypeError].  A field that is the
    empty string has no line, a field that is another string has one.  So
    with empty [mood], [difficulty] and [liked] and with [sleepHrs = "7.5"]
    the one metric line is [Sleep: 7.5 hrs]. *)
Theorem clipboard_omits_empty (e : obj) :
  entryToClipboardText e
  = (if renders e
     then Ok (join NL (heading_lines e (default [] (listed_categories e))
                       ++ field_lines metric_fields e
                       ++ field_lines free_text_fields e)%list)
     else Throw TypeError)
  /\ (forall k, field_shown k (Some (JStr "")) = false)
  /\ (forall k s, s <> "" -> field_shown k (Some (JStr s)) = true)
  /\ (e !! "mood" = Some (JStr "") -> e !! "sleepHrs" = Some (JStr "7.5") ->
      e !! "difficulty" = Some (JStr "") -> e !! "liked" = Some (JStr "") ->
      field_lines metric_fields e = ["Sleep: 7.5 hrs"]).
Proof.
  split; [apply entryToClipboardText_renders|].
  split; [apply field_shown_empty|split; [apply field_shown_text|]].
  intros Hm Hs Hd Hl. unfold metric_fields. rewrite !field_lines_cons.
  rewrite Hm, Hs, Hd, Hl. vm_compute. reflexivity.
Qed.
End Clipboard.

Lemma printable_insert k v (e : obj) :
  stringable v = true -> printable e -> printable (<[k := v]> e).
Proof. intros Hv He. by apply map_Forall_insert_2. Qed.

Lemma new_entry_printable `{Host} id time title categories xpPotential :
  stringable title = true -> stringable categories = true ->
  printable (new_entry id time title categories xpPotential).
Proof.
  intros Ht Hc. unfold new_entry. rewrite !list_to_map_cons, list_to_map_nil.
  cbn [fst snd]. repeat (apply printable_insert; [done|]). apply map_Forall_empty.
Qed.

Example clipboard_slept_ex :
  renders sample_slept_entry = true
  /\ entryToClipboardText sample_slept_entry
     = Ok ("Daily Neural Roll" ++ NL ++ "Jan 05, 2026, 09:30 AM" ++ NL
           ++ "Rolled: Vocabulary" ++ NL ++ "Completed: No" ++ NL
           ++ "XP: 0 / 10" ++ NL ++ "Sleep: 7.5 hrs")
  /\ field_lines metric_fields sample_slept_entry = ["Sleep: 7.5 hrs"].
Proof. repeat split; vm_compute; reflexivity. Qed.

(** A mood and no sleep give the mood line and no sleep line; a sleep field
    that is missing, not empty, is shown as [undefined]. *)
Example clipboard_mood_ex :
  entryToClipboardText (<["mood" := JStr "ok"]> (sample_entry "a" 10 true))
  = Ok ("Daily Neural Roll" ++ NL ++ "Jan 05, 2026, 09:30 AM" ++ NL
        ++ "Rolled: Vocabulary" ++ NL ++ "Completed: Yes" ++ NL
        ++ "XP: 10 / 10" ++ NL ++ "Mood: ok")
  /\ entryToClipboardText
       (<["insightText" := JStr "slow start"]>
          (<["liked" := JStr "yes"]> (delete "sleepHrs" (sample_entry "a" 10 false))))
     = Ok ("Daily Neural Roll" ++ NL ++ "Jan 05, 2026, 09:30 AM" ++ NL
           ++ "Rolled: Vocabulary" ++ NL ++ "Completed: No" ++ NL
           ++ "XP: 0 / 10" ++ NL ++ "Sleep: undefined hrs" ++ NL ++ "Enjoyed: yes" ++ NL
           ++ NL ++ "Insights:" ++ NL ++ "slow start").
Proof. split; vm_compute; reflexivity. Qed.

(** ** Copying an entry *)

Section Copy.
Context `{Host}.

Lemma copyable_insert k v (e : obj) :
  k <> "categories" -> stringable v = true -> copyable e -> copyable (<[k := v]> e).
Proof.
  intros Hk Hv [Hp [l Hl]]. split; [by apply printable_insert|].
  exists l. by rewrite lookup_insert_ne.
Qed.

Lemma names_stringable cats :
  Forall (fun c => c = JNull \/ exists s, c = JStr s) cats ->
  forallb stringable cats = true.
Proof.
  induction 1 as [|c cats Hc _ IH]; [done|]. cbn [forallb]. rewrite IH.
  by destruct Hc as [->|[s ->]].
Qed.

Lemma new_entry_copyable id time kind cats xpPotential :
  Forall (fun c => c = JNull \/ exists s, c = JStr s) cats ->
  copyable (new_entry id time (JStr kind) (JArr cats) xpPotential).
Proof.
  intros Hc. split.
  - apply new_entry_printable; [reflexivity|]. cbn [stringable].
    apply names_stringable. exact Hc.
  - eexists. apply new_entry_categories.
Qed.

Lemma reaches_copyable state state' :
  reaches state state' -> Forall copyable (log state) -> Forall copyable (log state').
Proof.
  intros Hr Hs.
  assert (Hh : holds (fun _ => True) (fun _ => True) (fun _ => True) (fun _ => True)
                 copyable state').
  { eapply reaches_holds; [..|exact Hr|by repeat split].
    - done.
    - done.
    - done.
    - done.
    - done.
    - intros. by apply new_entry_copyable.
    - intros e b He. apply copyable_insert; [key_ne|done|done].
    - intros e k s Hk He. apply copyable_insert; [|done|done].
      apply text_field_cases in Hk.
      destruct Hk as [-> | [-> | [-> | [-> | [-> | [-> | -> ]]]]]]; key_ne.
    - done. }
  by destruct Hh as (_ & _ & _ & Hl & _).
Qed.

Lemma entryToClipboardText_copyable e :
  copyable e -> exists text, entryToClipboardText e = Ok text.
Proof.
  intros He. rewrite entryToClipboardText_renders, (copyable_renders e He).
  by eexists.
Qed.

Lemma categories_text_throws (e : obj) s :
  e !! "categories" = Some (JStr s) -> s <> "" ->
  entryToClipboardText e = Throw TypeError.
Proof.
  intros Hc Hs. rewrite entryToClipboardText_renders.
  unfold renders, listed_categories, or_else. rewrite Hc. cbn [truthy].
  assert (String.eqb s "" = false) as -> by by apply String.eqb_neq.
  reflexivity.
Qed.

Lemma hidden_value_throws (e : obj) k v :
  k ∈ clipboard_reads -> e !! k = Some v -> stringable v = false ->
  entryToClipboardText e = Throw TypeError.
Proof.
  intros Hk Hv Hs. rewrite entryToClipboardText_renders.
  assert (Hr : renders e = false); [|by rewrite Hr].
  unfold renders. destruct (listed_categories e) as [l|]; [|done].
  apply andb_false_intro2. apply not_true_is_false. intros Hall.
  rewrite forallb_forall in Hall. apply list_elem_of_In in Hk.
  specialize (Hall k Hk). by rewrite Hv in Hall; cbn in Hall; congruence.
Qed.

(** X18: take a state in which every entry lists its categories in an
    array and has only values that [String] and [Number] convert.  Every
    state that the program reaches from it by its actions is such a state,
    and the clipboard text of each of its entries is made without an
    exception.  The entries that the program creates are such entries; a
    stored entry whose [categories] is a text that is not empty, or in which
    a value that the text shows is an object with a [toString] property of
    its own, is not: its copy throws a [TypeError]. *)
Theorem copy_never_throws state state' :
  Forall copyable (log state) -> reaches state state' ->
  Forall copyable (log state')
  /\ (forall e, e ∈ log state' -> exists text, entryToClipboardText e = Ok text)
  /\ (forall id time kind cats xpPotential,
        Forall (fun c => c = JNull \/ exists s, c = JStr s) cats ->
        copyable (new_entry id time (JStr kind) (JArr cats) xpPotential))
  /\ (forall (e : obj) s,
        e !! "categories" = Some (JStr s) -> s <> "" ->
        entryToClipboardText e = Throw TypeError)
  /\ (forall (e : obj) k v,
        k ∈ clipboard_reads -> e !! k = Some v -> stringable v = false ->
        entryToClipboardText e = Throw TypeError).
Proof.
  intros Hs Hr. pose proof (reaches_copyable _ _ Hr Hs) as Hall.
  split; [exact Hall|]. split; [|split; [|split]].
  - intros e He. apply entryToClipboardText_copyable.
    rewrite Forall_forall in Hall. by apply Hall.
  - intros. by apply new_entry_copyable.
  - apply categories_text_throws.
  - apply hidden_value_throws.
Qed.
End Copy.

Lemma sample_entry_copyable id xp completed : copyable (sample_entry id xp completed).
Proof.
  unfold sample_entry. apply copyable_insert; [key_ne|reflexivity|].
  apply new_entry_copyable. constructor; [|constructor]. right. by eexists.
Qed.

Lemma sample_state_copyable : Forall copyable (log sample_state).
Proof.
  unfold sample_state. cbn [log].
  repeat (constructor; [apply sample_entry_copyable|]). constructor.
Qed.

Lemma copy_never_throws_witness :
  Forall copyable (log sample_state)
  /\ reaches sample_state
       (handleCompleteToggle "b" true
          (runSession (fun _ => 1 # 2) "id-4" "Jan 07, 2026, 07:45 AM" "Full Circuit" 5
             sample_state))
  /\ forall e,
       e ∈ log (handleCompleteToggle "b" true
                  (runSession (fun _ => 1 # 2) "id-4" "Jan 07, 2026, 07:45 AM"
                     "Full Circuit" 5 sample_state)) ->
       exists text, entryToClipboardText e = Ok text.
Proof.
  assert (H1 : reaches sample_state
                 (handleCompleteToggle "b" true
                    (runSession (fun _ => 1 # 2) "id-4" "Jan 07, 2026, 07:45 AM"
                       "Full Circuit" 5 sample_state))).
  { eapply reaches_step; [eapply reaches_step; [apply reaches_here|apply step_roll]|].
    apply step_toggle. }
  split; [exact sample_state_copyable|]. split; [exact H1|].
  exact (proj1 (proj2 (copy_never_throws _ _ sample_state_copyable H1))).
Defined.

Example copy_throws_ex :
  (state ← boot (wellformed text_categories_blob);
   e ← head (log state);
   Some (entryToClipboardText e)) = Some (Throw TypeError)
  /\ entryToClipboardText hidden_title_entry = Throw TypeError.
Proof. split; vm_compute; reflexivity. Qed.

(** ** From version 1.0 to the present one *)

Lemma state_view_assemble P pb pn l entries :
  mapM as_obj l = Some entries ->
  state_view (JObj (assemble P pb pn l))
  = Some (mkState (merged_part pb DEFAULT_baselines) (merged_part pn DEFAULT_notes)
            (default (JStr NO_FOCUS) (P !! "todayFocus")) entries
            (delete "baselines" (delete "notes" (delete "todayFocus"
               (delete "log" (assemble P pb pn l)))))).
Proof.
  intros He. unfold state_view.
  rewrite assemble_lookup_baselines, assemble_lookup_notes, assemble_lookup_log.
  assert (Hf : assemble P pb pn l !! "todayFocus"
               = Some (default (JStr NO_FOCUS) (P !! "todayFocus"))).
  { rewrite assemble_lookup_other by key_ne. rewrite lookup_union.
    destruct (P !! "todayFocus"); reflexivity. }
  rewrite Hf, He. reflexivity.
Qed.

Example v1_fresh_ex :
  V1.loadState absent = Ok (JObj V1.DEFAULT_STATE)
  /\ V1.loadState malformed = Ok (JObj V1.DEFAULT_STATE)
  /\ V1.state_view (JObj V1.DEFAULT_STATE) = Some V1.fresh
  /\ V1.reload V1.fresh = Some V1.fresh.
Proof. repeat split; vm_compute; reflexivity. Qed.

Lemma log_xp_nonneg l : Forall v1_entry l -> (0 <= log_xp l)%Q.
Proof.
  induction 1 as [|e l ((a & Ha & H0) & _) _ IH]; [discriminate|].
  cbn [log_xp foldr]. fold (log_xp l). unfold xp_of. rewrite Ha. lra.
Qed.

Lemma v1_entry_clone e :
  v1_entry e -> v1_entry (clone_entry e) /\ xp_of (clone_entry e) = xp_of e.
Proof.
  intros ((a & Ha & H0) & Hp & Hc). unfold v1_entry, xp_of, clone_entry.
  rewrite !lookup_fmap. rewrite Ha, Hp, Hc. cbn. split; [|done].
  split; [by exists a|done].
Qed.

Lemma v1_log_clone l :
  Forall v1_entry l ->
  Forall v1_entry (clone_entry <$> l) /\ log_xp (clone_entry <$> l) = log_xp l.
Proof.
  induction 1 as [|e l He _ [IH1 IH2]]; [by split|].
  destruct (v1_entry_clone e He) as [H1 H2]. cbn [fmap list_fmap]. split; [by constructor|].
  cbn [log_xp foldr]. fold (log_xp l). fold (log_xp (clone_entry <$> l)).
  by rewrite H2, IH2.
Qed.

Lemma map_clone_objects (l : list obj) :
  map structuredCloneSafe (JObj <$> l) = JObj <$> (clone_entry <$> l).
Proof. induction l as [|e l IH]; [done|]. cbn. by rewrite IH. Qed.

Section Upgrade.
Context `{Host}.

Lemma v1_new_entry id time title categories body a :
  (0 <= a)%Q ->
  v1_entry (V1.new_entry id time title categories body (Some (JNum (Fin a))))
  /\ xp_of (V1.new_entry id time title categories body (Some (JNum (Fin a)))) = a.
Proof.
  intros Ha.
  assert (Hxp : V1.new_entry id time title categories body (Some (JNum (Fin a))) !! "xp"
                = Some (JNum (Fin a))).
  { unfold V1.new_entry. rewrite !list_to_map_cons. cbn [fst snd V1.xp_or_0].
    rewrite !lookup_insert_ne by key_ne. apply lookup_insert_eq. }
  split; [|unfold xp_of; by rewrite Hxp].
  split; [by exists a|]. split.
  - unfold V1.new_entry. rewrite !list_to_map_cons. cbn [fst snd list_to_map foldr].
    rewrite !lookup_insert_ne by key_ne. apply lookup_empty.
  - unfold V1.new_entry. rewrite !list_to_map_cons. cbn [fst snd list_to_map foldr].
    rewrite !lookup_insert_ne by key_ne. apply lookup_empty.
Qed.

Lemma counted_fresh exact : counted exact V1.fresh.
Proof.
  split; [constructor|]. split; [by exists 0%Q|]. exists 0%Q. cbn.
  split; [done|]. split; [discriminate|reflexivity].
Qed.

Lemma counted_addLogEntry exact id time title categories body a state :
  (0 <= a)%Q -> counted exact state ->
  counted exact (V1.addLogEntry id time title categories body (Some (JNum (Fin a))) state).
Proof.
  intros Ha (Hall & (n & Hn) & q & Hq & Hle & Heq).
  destruct (v1_new_entry id time title categories body a Ha) as [Hent Hxp].
  pose proof (log_xp_nonneg _ Hall) as H0.
  unfold counted, V1.addLogEntry, V1.addXP, V1.set_log, V1.set_xp, V1.set_sessions.
  cbn [V1.log V1.xp V1.sessions V1.todayFocus V1.baselines V1.notes V1.other].
  split; [by constructor|]. split.
  { rewrite Hn. unfold V1.num_or_0. destruct (num_truthy (Fin n)); eexists; reflexivity. }
  rewrite Hq. cbn [log_xp foldr]. fold (log_xp (V1.log state)). rewrite Hxp.
  assert (Hsum : exists s, num_add (V1.num_or_0 (Fin q)) (Fin a) = Fin s /\ (s == q + a)%Q).
  { unfold V1.num_or_0. cbn [num_truthy]. destruct (Qeq_bool q 0) eqn:E; cbn [negb num_add].
    - apply Qeq_bool_iff in E. eexists. split; [reflexivity|]. rewrite E. reflexivity.
    - eexists. split; reflexivity. }
  destruct Hsum as (s & -> & Hs).
  assert (Hpos : (0 <= s)%Q) by (rewrite Hs; lra).
  exists s. split.
  - unfold Math_max. cbn [num_leb]. apply Qle_bool_iff in Hpos. by rewrite Hpos.
  - split; [rewrite Hs; lra|]. intros He. rewrite Hs, (Heq He). lra.
Qed.

Lemma counted_frame exact state state' :
  V1.log state' = V1.log state -> V1.xp state' = V1.xp state ->
  V1.sessions state' = V1.sessions state ->
  counted exact state -> counted exact state'.
Proof. unfold counted. by intros -> -> ->. Qed.

Lemma session_xp_nonneg kind : exists a, session_xp kind = Fin a /\ (0 <= a)%Q.
Proof. unfold session_xp. repeat case_match; eexists; (split; [reflexivity|discriminate]). Qed.

Lemma counted_weaken state : counted true state -> counted false state.
Proof.
  intros (Hall & Hn & q & Hq & Hle & _). split; [done|]. split; [done|].
  exists q. by repeat split.
Qed.

Lemma counted_act exact a state :
  (exact = true -> V1.is_clear a = false) ->
  counted exact state -> counted exact (V1.act a state).
Proof.
  intros Hclear Hs. destruct a as [rnd id time kind count|id time category newScore overwrite
                                   |txt message id time| |]; cbn [V1.act].
  - unfold V1.runSession. destruct (session_xp_nonneg kind) as (a & -> & Ha).
    apply counted_addLogEntry; [done|]. by eapply counted_frame; [..|exact Hs].
  - unfold V1.quickRetest_onConfirm.
    destruct (Number_isNaN (ToNumber (Some (JStr newScore)))); [done|].
    apply counted_addLogEntry; [discriminate|].
    destruct overwrite; [|done]. by eapply counted_frame; [..|exact Hs].
  - unfold V1.editBaselines_onConfirm.
    destruct (V1.editBaselines_try txt state) as [state'|e] eqn:E.
    + unfold V1.editBaselines_try in E. destruct txt as [|m]; [done|].
      rewrite bind_Ok in E. destruct (coerce_scores (map_to_list m) m); [|done].
      injection E as <-. by eapply counted_frame; [..|exact Hs].
    + apply counted_addLogEntry; [discriminate|done].
  - destruct exact; [by specialize (Hclear eq_refl)|].
    destruct Hs as (Hall & Hn & q & Hq & Hle & _). split; [constructor|]. split; [done|].
    exists q. unfold V1.clearLog_onConfirm, V1.set_log. cbn [V1.xp V1.log log_xp foldr].
    split; [done|]. split; [|done]. pose proof (log_xp_nonneg _ Hall). lra.
  - apply counted_fresh.
Qed.

(** Opening the page again gives the state back, with its counter and
    the entries of its log. *)
Lemma counted_reload exact state :
  counted exact state ->
  exists state', V1.reload state = Some state' /\ counted exact state'
    /\ V1.xp state' = V1.xp state
    /\ V1.log state' = clone_entry <$> V1.log state.
Proof.
  intros (Hall & (n & Hn) & q & Hq & Hle & Heq).
  destruct (v1_log_clone _ Hall) as [Hall' Hxp'].
  unfold V1.reload, V1.state_object. cbn [structuredCloneSafe].
  set (m := <["log" := _]> _).
  assert (Hlog : (structuredCloneSafe <$> m) !! "log"
                 = Some (JArr (JObj <$> (clone_entry <$> V1.log state)))).
  { rewrite lookup_fmap. unfold m. rewrite lookup_insert_eq. cbn.
    by rewrite map_clone_objects. }
  assert (Hnotes : (structuredCloneSafe <$> m) !! "notes"
                  = Some (JObj (structuredCloneSafe <$> V1.notes state))).
  { rewrite lookup_fmap. unfold m. do 1 (rewrite lookup_insert_ne by key_ne).
    by rewrite lookup_insert_eq. }
  assert (Hbase : (structuredCloneSafe <$> m) !! "baselines"
                  = Some (JObj (structuredCloneSafe <$> V1.baselines state))).
  { rewrite lookup_fmap. unfold m. do 2 (rewrite lookup_insert_ne by key_ne).
    by rewrite lookup_insert_eq. }
  assert (Hfocus : (structuredCloneSafe <$> m) !! "todayFocus"
                  = Some (structuredCloneSafe (V1.todayFocus state))).
  { rewrite lookup_fmap. unfold m. do 3 (rewrite lookup_insert_ne by key_ne).
    by rewrite lookup_insert_eq. }
  assert (Hses : (structuredCloneSafe <$> m) !! "sessions" = Some (JNum (Fin n))).
  { rewrite lookup_fmap. unfold m. do 4 (rewrite lookup_insert_ne by key_ne).
    by rewrite lookup_insert_eq, Hn. }
  assert (Hxp : (structuredCloneSafe <$> m) !! "xp" = Some (JNum (Fin q))).
  { rewrite lookup_fmap. unfold m. do 5 (rewrite lookup_insert_ne by key_ne).
    by rewrite lookup_insert_eq, Hq. }
  unfold V1.loadState, V1.loadState_try. cbn [get_prop own_props].
  rewrite !bind_Ok. rewrite Hlog, Hnotes, Hbase. cbn [or_else truthy own_props].
  unfold mret, result_ret, try_catch. unfold V1.state_view.
  rewrite lookup_insert_ne by key_ne. rewrite lookup_insert_ne by key_ne.
  rewrite lookup_insert_ne by key_ne. rewrite union_lookup, Hxp.
  do 3 (rewrite (lookup_insert_ne _ _ "sessions") by key_ne). rewrite union_lookup, Hses.
  do 3 (rewrite (lookup_insert_ne _ _ "todayFocus") by key_ne). rewrite union_lookup, Hfocus.
  do 2 (rewrite (lookup_insert_ne _ _ "baselines") by key_ne). rewrite lookup_insert_eq.
  do 1 (rewrite (lookup_insert_ne _ _ "notes") by key_ne). rewrite lookup_insert_eq.
  rewrite lookup_insert_eq. rewrite mapM_as_obj_fmap. cbn [mbind option_bind].
  eexists. split; [reflexivity|]. cbn [V1.log V1.sessions V1.xp].
  split; [|by rewrite Hq].
  split; [exact Hall'|]. cbn [V1.log V1.sessions V1.xp]. split; [by exists n|].
  exists q. rewrite Hxp'. by repeat split.
Qed.

Lemma reached_counted cleared state :
  V1.reached cleared state -> counted (negb cleared) state.
Proof.
  induction 1 as [|cleared a state _ IH|cleared state state' _ IH Hre].
  - apply counted_fresh.
  - destruct cleared; cbn [orb negb] in *.
    + by apply counted_act.
    + destruct (V1.is_clear a) eqn:Ea; cbn [negb].
      * apply counted_act; [done|]. by apply counted_weaken.
      * by apply counted_act.
  - destruct (counted_reload _ _ IH) as (state'' & Hre' & Hc & _).
    rewrite Hre in Hre'. by injection Hre' as <-.
Qed.

(** What the migration makes of an entry of version 1.0. *)
Lemma v1_entry_migrated e :
  v1_entry e ->
  exists out, migrate_entry (structuredCloneSafe (JObj e)) = JObj out
    /\ out !! "completed" = Some (JBool true)
    /\ out !! "xp" = None
    /\ out !! "xpPotential" = Some (JNum (Fin (xp_of e)))
    /\ exists c, earned out = Fin c /\ (c == xp_of e)%Q.
Proof.
  intros ((a & Ha & H0) & Hp & Hc).
  destruct (migrate_entry_lookups (structuredCloneSafe (JObj e)))
    as (out & Hout & Hxp & Hpot & Hcomp & _).
  cbn [structuredCloneSafe own_props] in Hpot, Hcomp.
  unfold migrated_xpPotential in Hpot. unfold migrated_completed in Hcomp.
  rewrite !lookup_fmap in Hpot. rewrite lookup_fmap in Hcomp.
  rewrite Hp, Ha in Hpot. rewrite Hc in Hcomp. cbn in Hpot, Hcomp.
  exists out. split; [done|]. split; [done|]. split; [done|].
  unfold xp_of. rewrite Ha. split; [done|].
  unfold earned. rewrite Hcomp, Hpot. cbn [truthy].
  unfold Number_or_0. cbn [ToNumber num_truthy].
  destruct (Qeq_bool a 0) eqn:E; cbn [negb].
  - exists 0%Q. split; [done|]. apply Qeq_bool_iff in E. by rewrite E.
  - exists a. split; reflexivity.
Qed.

Lemma v1_log_migrated olds :
  Forall v1_entry olds ->
  exists entries,
    mapM as_obj (map migrate_entry (map structuredCloneSafe (JObj <$> olds))) = Some entries
    /\ length entries = length olds
    /\ Forall (fun e => e !! "completed" = Some (JBool true) /\ e !! "xp" = None) entries
    /\ forall s, exists c, sum_from (Fin s) entries = Fin c /\ (c == s + log_xp olds)%Q.
Proof.
  induction 1 as [|e olds He _ (entries & Hm & Hlen & Hall & Hsum)].
  - exists []. split; [done|]. split; [done|]. split; [constructor|].
    intros s. exists s. split; [done|]. cbn. lra.
  - destruct (v1_entry_migrated e He) as (out & Hout & Hc & Hx & _ & c & Hearn & Hce).
    exists (out :: entries). cbn [fmap list_fmap map]. rewrite Hout. cbn. rewrite Hm. cbn.
    split; [done|]. split; [by rewrite Hlen|]. split; [by constructor|].
    intros s. cbn [sum_from fold_left]. rewrite Hearn. cbn [num_add].
    destruct (Hsum (s + c)%Q) as (c' & Hc' & Heq). exists c'. split; [exact Hc'|].
    fold (log_xp olds). rewrite Heq, Hce. lra.
Qed.

Lemma upgrade_result old :
  Forall v1_entry (V1.log old) ->
  exists new entries,
    upgrade old = Some new
    /\ log new = entries
    /\ mapM as_obj (map migrate_entry (map structuredCloneSafe (JObj <$> V1.log old)))
       = Some entries
    /\ other new !! "xp" = Some (structuredCloneSafe (JNum (V1.xp old))).
Proof.
  intros Hall. destruct (v1_log_migrated _ Hall) as (entries & Hm & _).
  unfold upgrade, boot. unfold V1.state_object. cbn [structuredCloneSafe].
  set (m := <["log" := _]> _).
  assert (Hlog : (structuredCloneSafe <$> m) !! "log"
                 = Some (JArr (map structuredCloneSafe (JObj <$> V1.log old)))).
  { rewrite lookup_fmap. unfold m. by rewrite lookup_insert_eq. }
  assert (Hxp : (structuredCloneSafe <$> m) !! "xp"
                = Some (structuredCloneSafe (JNum (V1.xp old)))).
  { rewrite lookup_fmap. unfold m. do 5 (rewrite lookup_insert_ne by key_ne).
    by rewrite lookup_insert_eq. }
  rewrite (loadState_assemble (JObj (structuredCloneSafe <$> m)) _ _ _
             eq_refl eq_refl eq_refl).
  cbn [own_props]. rewrite Hlog. cbn [merged_log].
  rewrite (state_view_assemble _ _ _ _ _ Hm).
  eexists _, _. split; [reflexivity|]. cbn [log baselines other].
  split; [reflexivity|]. split; [exact Hm|].
  do 4 (rewrite lookup_delete_ne by key_ne).
  rewrite assemble_lookup_other by key_ne. by rewrite union_lookup, Hxp.
Qed.

(** X17: take any state that version 1.0 reaches from its first start,
    over any number of visits of the page.  Version 1.0 opens it again with
    the same counter and as many entries.  The present version starts from
    it in a state with as many entries, all completed and without [xp]; the
    old counter is still stored, but the earned total is now the sum over
    the log: never more than the counter, and equal to it if the log was
    never cleared. *)
Theorem upgrade_keeps_counted_xp cleared (old : V1.State) :
  V1.reached cleared old ->
  exists new q,
    upgrade old = Some new
    /\ V1.xp old = Fin q
    /\ length (log new) = length (V1.log old)
    /\ Forall (fun e => e !! "completed" = Some (JBool true) /\ e !! "xp" = None) (log new)
    /\ other new !! "xp" = Some (JNum (Fin q))
    /\ (exists c, calcXP new = Fin c /\ (c <= q)%Q /\ (cleared = false -> (c == q)%Q))
    /\ (exists again, V1.reload old = Some again /\ V1.xp again = Fin q
          /\ length (V1.log again) = length (V1.log old)).
Proof.
  intros Hr. pose proof (reached_counted _ _ Hr) as Hc.
  destruct (counted_reload _ _ Hc) as (again & Hagain & _ & Hxa & Hla).
  destruct Hc as (Hall & _ & q & Hq & Hle & Hex).
  destruct (upgrade_result old Hall) as (new & entries & Hup & Hlog & Hm & Hxp).
  destruct (v1_log_migrated _ Hall) as (entries' & Hm' & Hlen & Hcomp & Hsum).
  rewrite Hm in Hm'. injection Hm' as <-.
  exists new, q. split; [exact Hup|]. split; [exact Hq|].
  rewrite Hlog. split; [exact Hlen|]. split; [exact Hcomp|].
  split; [by rewrite Hxp, Hq|]. split.
  - destruct (Hsum 0%Q) as (c & Hc & Heq). exists c.
    split; [by rewrite calcXP_sum_from, Hlog|]. split; [rewrite Heq; lra|].
    intros ->. rewrite Heq, (Hex eq_refl). lra.
  - exists again. split; [exact Hagain|]. split; [by rewrite Hxa|].
    by rewrite Hla, length_fmap.
Qed.
End Upgrade.

Lemma upgrade_keeps_counted_xp_witness :
  V1.reached false
    (V1.act (V1.Retest "id-2" "Jan 05, 2026, 10:00 AM" "Quick Math" "7" false)
       (V1.act (V1.Roll (fun _ => 1 # 2) "id-1" "Jan 05, 2026, 09:30 AM"
                  "Daily Neural Roll" 1) V1.fresh))
  /\ exists new,
       upgrade
         (V1.act (V1.Retest "id-2" "Jan 05, 2026, 10:00 AM" "Quick Math" "7" false)
            (V1.act (V1.Roll (fun _ => 1 # 2) "id-1" "Jan 05, 2026, 09:30 AM"
                       "Daily Neural Roll" 1) V1.fresh)) = Some new
       /\ exists c, calcXP new = Fin c /\ (c == 16)%Q.
Proof.
  assert (Hr : V1.reached false
                 (V1.act (V1.Retest "id-2" "Jan 05, 2026, 10:00 AM" "Quick Math" "7" false)
                    (V1.act (V1.Roll (fun _ => 1 # 2) "id-1" "Jan 05, 2026, 09:30 AM"
                               "Daily Neural Roll" 1) V1.fresh))).
  { apply (V1.reached_act false (V1.Retest _ _ _ _ _)).
    apply (V1.reached_act false (V1.Roll _ _ _ _ _)). apply V1.reached_fresh. }
  split; [exact Hr|].
  destruct (upgrade_keeps_counted_xp _ _ Hr)
    as (new & q & Hup & Hq & _ & _ & _ & (c & Hc & _ & Heq) & _).
  exists new. split; [exact Hup|]. exists c. split; [exact Hc|].
  rewrite (Heq eq_refl). vm_compute in Hq. injection Hq as <-. reflexivity.
Defined.

Example upgrade_ex :
  (calcXP <$> upgrade
     (V1.act (V1.Retest "id-2" "Jan 05, 2026, 10:00 AM" "Quick Math" "7" false)
        (V1.act (V1.Roll (fun _ => 1 # 2) "id-1" "Jan 05, 2026, 09:30 AM"
                   "Daily Neural Roll" 1) V1.fresh))) = Some (Fin 16)
  /\ V1.xp (V1.act V1.ClearLog
              (V1.act (V1.Roll (fun _ => 1 # 2) "id-1" "Jan 05, 2026, 09:30 AM"
                         "Daily Neural Roll" 1) V1.fresh)) = Fin 10
  /\ (calcXP <$> upgrade
        (V1.act V1.ClearLog
           (V1.act (V1.Roll (fun _ => 1 # 2) "id-1" "Jan 05, 2026, 09:30 AM"
                      "Daily Neural Roll" 1) V1.fresh))) = Some (Fin 0).
Proof. repeat split; vm_compute; reflexivity. Qed.
